(** * The relay bot of [bot.py]: sessions, block list and thread ledger

  A shallow embedding of [bot.py]: the JSON document behind
  [load_data]/[save_data], the Prometheus counter and gauges, the store
  helpers ([add_active_dialog] ... [remove_dialog_messages]), the product
  cache ([cache_products], [read_product_from_cache]), the aiogram
  handlers ([start], [need_help], [forward_to_admin], [admin_reply],
  [end_dialog], [block_user], [unblock_user]) with their dispatch filters,
  and the Python operations those handlers parse their input with.

  Conventions.
  - A Python [str] is a [string] holding its UTF-8 bytes.  UTF-8 is
    self-synchronising, so [startswith], [split], [replace] and [in] on
    code points and on bytes agree for the (valid) strings of the program.
  - A Python [int] is a [Z]; a gauge value (a float that only ever moves
    by whole steps) is a [Z] as well.
  - The JSON objects of the data file are [gmap string _]: [json.load]
    yields [str] keys only.  The JSON array of blocked users is a list.
  - Exceptions do not roll anything back: a handler returns its outcome
    together with the world as it stands when the handler stops. *)

From Stdlib Require Import ZArith String Ascii DecimalString DecimalZ.
From stdpp Require Import gmap strings list fin_maps.

Open Scope string_scope.
Open Scope Z_scope.

(** ** Python built-ins used by the handlers *)

Module Py.

(** The exceptions the modelled code can raise.  [TelegramError] stands
    for whatever the Bot API client raises when a call fails. *)
Inductive exn : Type :=
| IndexError
| ValueError
| AttributeError
| ValidationError
| TelegramError (description : string).

Definition NL : string := String "010"%char EmptyString.

(** [s.startswith(p)] *)
Fixpoint startswith (s p : string) {struct p} : bool :=
  match p, s with
  | EmptyString, _ => true
  | String _ _, EmptyString => false
  | String a p', String b s' => if Ascii.eqb a b then startswith s' p' else false
  end.

(** [sep in s] *)
Fixpoint contains (sep s : string) : bool :=
  match s with
  | EmptyString => startswith s sep
  | String _ s' => startswith s sep || contains sep s'
  end.

(** Prepend a character to the first field of a split. *)
Definition cons_head (c : ascii) (fields : list string) : list string :=
  match fields with
  | [] => [String c EmptyString]
  | f :: fs => String c f :: fs
  end.

(** [s.split(sep)] for a non-empty [sep]: the fields between the
    non-overlapping occurrences of [sep], found left to right.  [skip]
    counts the characters of a separator just matched that are still to
    be passed over. *)
Fixpoint split_from (sep : string) (skip : nat) (s : string) : list string :=
  match s with
  | EmptyString => [EmptyString]
  | String c s' =>
      match skip with
      | S k => split_from sep k s'
      | O =>
          if startswith s sep
          then EmptyString :: split_from sep (Nat.pred (String.length sep)) s'
          else cons_head c (split_from sep 0 s')
      end
  end.

Definition split (s sep : string) : list string := split_from sep 0 s.

(** [sep.join(fields)] *)
Fixpoint join (sep : string) (fields : list string) : string :=
  match fields with
  | [] => EmptyString
  | [f] => f
  | f :: fs => f +:+ sep +:+ join sep fs
  end.

(** [s.replace(old, new)] for a non-empty [old]: every non-overlapping
    occurrence, left to right, which is what splitting on [old] finds. *)
Definition replace (s old new : string) : string := join new (split s old).

(** [l[i]] for a non-negative literal index. *)
Definition index {A} (l : list A) (i : nat) : exn + A :=
  match l !! i with
  | Some x => inr x
  | None => inl IndexError
  end.

(** ASCII white space as [int] skips it around the number: tab to carriage
  return, and the space.  (The separators 28 to 31, white space to
  [str.isspace], are not: [int] rejects them.) *)
Definition isspace (c : ascii) : bool :=
  let n := nat_of_ascii c in
  ((9 <=? n) && (n <=? 13) || (n =? 32))%nat.

Fixpoint lstrip (s : string) : string :=
  match s with
  | EmptyString => EmptyString
  | String c s' => if isspace c then lstrip s' else s
  end.

Fixpoint rstrip (s : string) : string :=
  match s with
  | EmptyString => EmptyString
  | String c s' =>
      match rstrip s' with
      | EmptyString => if isspace c then EmptyString else String c EmptyString
      | r => String c r
      end
  end.

Definition strip (s : string) : string := lstrip (rstrip s).

(** *** Code points

    [int] reads a [str] code point by code point.  A continuation byte
    of UTF-8 carries six bits. *)
Definition continuation (c : ascii) : option N :=
  let n := N_of_ascii c in
  if ((128 <=? n) && (n <? 192))%N then Some (n - 128)%N else None.

(** A code point decoded from [k] bytes, if those were the shortest way
    to write it. *)
Definition shortest (least cp : N) : option N :=
  if ((least <=? cp) && (cp <? 1114112))%N then Some cp else None.

(** The code points of a [str], from its UTF-8 bytes.  Bytes that are not
    UTF-8 stand for no [str]: [None]. *)
Fixpoint codepoints (s : string) : option (list N) :=
  match s with
  | EmptyString => Some []
  | String a s1 =>
      let x := N_of_ascii a in
      if (x <? 128)%N then cons x <$> codepoints s1
      else if (x <? 192)%N then None
      else if (x <? 224)%N then
        match s1 with
        | String b s2 =>
            y ← continuation b;
            cp ← shortest 128 ((x - 192) * 64 + y)%N;
            cons cp <$> codepoints s2
        | _ => None
        end
      else if (x <? 240)%N then
        match s1 with
        | String b (String c s3) =>
            y ← continuation b;
            z ← continuation c;
            cp ← shortest 2048 (((x - 224) * 64 + y) * 64 + z)%N;
            cons cp <$> codepoints s3
        | _ => None
        end
      else if (x <? 248)%N then
        match s1 with
        | String b (String c (String d s4)) =>
            y ← continuation b;
            z ← continuation c;
            u ← continuation d;
            cp ← shortest 65536 ((((x - 240) * 64 + y) * 64 + z) * 64 + u)%N;
            cons cp <$> codepoints s4
        | _ => None
        end
      else None
  end.

(** White space beyond ASCII, as [int] and [str.isspace] know it. *)
Definition unicode_isspace (cp : N) : bool :=
  ((cp =? 0x85) || (cp =? 0xA0) || (cp =? 0x1680)
   || (0x2000 <=? cp) && (cp <=? 0x200A)
   || (cp =? 0x2028) || (cp =? 0x2029) || (cp =? 0x202F) || (cp =? 0x205F)
   || (cp =? 0x3000))%N.

(** The zeros of the decimal digits beyond ASCII (Unicode 15, the
    version of Python 3.12, the first Python that reads the f-strings of
    [bot.py]); the other nine digits of a script follow its zero. *)
Definition decimal_zeros : list N :=
  [0x660; 0x6F0; 0x7C0; 0x966; 0x9E6; 0xA66; 0xAE6; 0xB66; 0xBE6; 0xC66;
   0xCE6; 0xD66; 0xDE6; 0xE50; 0xED0; 0xF20; 0x1040; 0x1090; 0x17E0; 0x1810;
   0x1946; 0x19D0; 0x1A80; 0x1A90; 0x1B50; 0x1BB0; 0x1C40; 0x1C50; 0xA620;
   0xA8D0; 0xA900; 0xA9D0; 0xA9F0; 0xAA50; 0xABF0; 0xFF10; 0x104A0; 0x10D30;
   0x11066; 0x110F0; 0x11136; 0x111D0; 0x112F0; 0x11450; 0x114D0; 0x11650;
   0x116C0; 0x11730; 0x118E0; 0x11950; 0x11C50; 0x11D50; 0x11DA0; 0x11F50;
   0x16A60; 0x16AC0; 0x16B50; 0x1D7CE; 0x1D7D8; 0x1D7E2; 0x1D7EC; 0x1D7F6;
   0x1E140; 0x1E2F0; 0x1E4F0; 0x1E950; 0x1FBF0]%N.

(** The value of a decimal digit beyond ASCII. *)
Definition unicode_decimal (cp : N) : option N :=
  (λ zero, cp - zero)%N <$>
  List.find (λ zero, (zero <=? cp) && (cp <? zero + 10))%N decimal_zeros.

(** What [int] makes of a code point before it parses: ASCII stays, white
    space becomes a space, a decimal digit its ASCII digit; with anything
    else the text is no number. *)
Definition ascii_of_codepoint (cp : N) : option ascii :=
  if (cp <? 127)%N then Some (ascii_of_N cp)
  else if unicode_isspace cp then Some " "%char
  else (λ d, ascii_of_N (48 + d)) <$> unicode_decimal cp.

Definition to_ascii (s : string) : option string :=
  cps ← codepoints s;
  string_of_list_ascii <$> mapM ascii_of_codepoint cps.

(** Digit grouping of int literals: single underscores between digits.
    [ungroup] drops them, [None] when one is leading, trailing or
    doubled. *)
Fixpoint ungroup_from (after_digit : bool) (s : string) : option string :=
  match s with
  | EmptyString => if after_digit then Some EmptyString else None
  | String c s' =>
      if Ascii.eqb c "_"
      then if after_digit then ungroup_from false s' else None
      else String c <$> ungroup_from true s'
  end.

Definition ungroup (s : string) : option string :=
  match s with
  | EmptyString => Some EmptyString
  | _ => ungroup_from false s
  end.

(** The parse of the ASCII text: surrounding white space, an optional
    sign, decimal digits with optional grouping underscores; anything
    else is a [ValueError]. *)
Definition int_ascii (s : string) : exn + Z :=
  let t := strip s in
  let '(neg, body) :=
    match t with
    | String c r =>
        if Ascii.eqb c "-" then (true, r)
        else if Ascii.eqb c "+" then (false, r)
        else (false, t)
    | EmptyString => (false, t)
    end in
  match ungroup body ≫= NilZero.uint_of_string with
  | Some d => inr (if neg : bool then - Z.of_uint d else Z.of_uint d)
  | None => inl ValueError
  end.

(** [int(s)] in base ten, for a [str].  White space and decimal digits of
    any script are read as their ASCII kin, then the text is parsed.
    (The limit on the number of digits, 4300 unless configured, is never
    met: no text of Telegram has more than 4096 characters.) *)
Definition int (s : string) : exn + Z :=
  match to_ascii s with
  | Some t => int_ascii t
  | None => inl ValueError
  end.

(** [str(n)] for an int. *)
Definition str (n : Z) : string := NilZero.string_of_int (Z.to_int n).

(** Truth value of an optional string ([None] and the empty string are false). *)
Definition truthy_str (s : option string) : bool :=
  match s with
  | Some (String _ _) => true
  | _ => false
  end.

(** Truth value of an optional list. *)
Definition truthy_list {A} (l : option (list A)) : bool :=
  match l with
  | Some (_ :: _) => true
  | _ => false
  end.

(** A value used as a dictionary key.  [x in d.keys()] compares [x]
    with the keys by [==], and an int never equals a str: against the
    str-keyed objects of the data file an int key is never found. *)
Inductive key : Type :=
| KInt (n : Z)
| KStr (s : string).

Definition key_in {V} (k : key) (d : gmap string V) : bool :=
  match k with
  | KStr s => bool_decide (is_Some (d !! s))
  | KInt _ => false
  end.

(** [l.remove(x)]: drops the first occurrence. *)
Fixpoint list_remove (x : Z) (l : list Z) : list Z :=
  match l with
  | [] => []
  | y :: l' => if bool_decide (x = y) then l' else y :: list_remove x l'
  end.

(** *** Predicates used to state facts about these operations *)

Fixpoint string_forall (P : ascii → bool) (s : string) : bool :=
  match s with
  | EmptyString => true
  | String c s' => P c && string_forall P s'
  end.

(** The characters [str] writes: a decimal digit or the minus sign. *)
Definition numeric (c : ascii) : bool :=
  let n := nat_of_ascii c in
  ((48 <=? n) && (n <=? 57) || (n =? 45))%nat.

(** Put [a] in front of the first field of a split. *)
Definition prepend (a : string) (fields : list string) : list string :=
  match fields with
  | [] => [a]
  | f :: fs => (a +:+ f) :: fs
  end.

Definition isdigit (c : ascii) : bool :=
  let n := nat_of_ascii c in ((48 <=? n) && (n <=? 57))%nat.

End Py.

(** ** The world the handlers run in *)

(** The document of [bot_data.json]: the three collections [load_data]
  returns.  A missing or unreadable file reads as [empty_data]. *)
Record Data : Type := mkData {
active_dialogs : gmap string string;
blocked_users : list Z;
dialog_messages : gmap string (list Z)
}.

Definition empty_data : Data :=
{| active_dialogs := ∅; blocked_users := []; dialog_messages := ∅ |}.

Record InlineKeyboardButton : Type := mkButton {
button_text : string;
callback_data : string
}.

(** [InlineKeyboardMarkup(inline_keyboard=rows)] *)
Definition InlineKeyboardMarkup : Type := list (list InlineKeyboardButton).

(** The Bot API calls the handlers make, in the order they are made. *)
Inductive Call : Type :=
| SendMessage (chat_id : Z) (text : string) (reply_markup : option InlineKeyboardMarkup)
| SendPhoto (chat_id : Z) (file_id : string) (caption : string)
  (reply_markup : option InlineKeyboardMarkup)
| SendDocument (chat_id : Z) (file_id : string) (caption : string)
  (reply_markup : option InlineKeyboardMarkup)
| DeleteMessage (chat_id : Z) (message_id : Z)
| GetChat (chat_id : Z)
| AnswerCallback (text : string).

Inductive Level : Type := INFO | WARNING | ERROR.

Record World : Type := mkWorld {
file : Data;                      (* contents of DATA_FILE *)
ACTIVE_DIALOGS : Z;               (* gauge bot_active_dialogs *)
BLOCKED_USERS : Z;                (* gauge bot_blocked_users *)
calls : list Call;                (* Bot API calls made so far *)
log : list (Level * string);      (* records emitted through logger *)
stdout : list string              (* lines written by print *)
}.

Definition initial_world : World :=
{| file := empty_data; ACTIVE_DIALOGS := 0; BLOCKED_USERS := 0;
   calls := []; log := []; stdout := [] |}.

(** What the Telegram side answers to the [n]-th Bot API call of a run:
  whether the call raises (and with which text), the identifier of the
  message it creates, the first name it reports for a chat. *)
Record Transport : Type := mkTransport {
tg_raises : nat → option string;
tg_message_id : nat → Z;
tg_first_name : nat → string
}.

(** Incoming updates. *)
Record User : Type := mkUser { uid : Z; full_name : string }.

Record Replied : Type := mkReplied { replied_text : option string }.

Record Message : Type := mkMessage {
message_id : Z;
from_user : User;
text : option string;
photo : option (list string);     (* file_id of each size, smallest first *)
caption : option string;
document : option string;         (* file_id *)
reply_to_message : option Replied
}.

Record CallbackQuery : Type := mkCallbackQuery {
cq_from_user : User;
cq_data : string
}.

(** ** Handlers as state transformers that may raise *)

Definition M (A : Type) : Type := World → (Py.exn + A) * World.

Definition ret {A} (a : A) : M A := λ w, (inr a, w).

Definition bind {A B} (m : M A) (k : A → M B) : M B :=
λ w, match m w with
     | (inr a, w') => k a w'
     | (inl e, w') => (inl e, w')
     end.

Definition raise {A} (e : Py.exn) : M A := λ w, (inl e, w).

(** A pure computation that may raise. *)
Definition lift {A} (r : Py.exn + A) : M A := λ w, (r, w).

(** [try: body / except Exception as e: handler(e)] *)
Definition try_except {A} (body : M A) (handler : Py.exn → M A) : M A :=
λ w, match body w with
     | (inr a, w') => (inr a, w')
     | (inl e, w') => handler e w'
     end.

(** [for x in l: body(x)] *)
Fixpoint for_each {A} (l : list A) (body : A → M unit) : M unit :=
match l with
| [] => ret tt
| x :: l' => bind (body x) (λ _, for_each l' body)
end.

#[global] Instance M_ret : MRet M := @ret.
#[global] Instance M_bind : MBind M := λ A B k m, bind m k.

(** [if b: body] *)
Definition when (b : bool) (body : M unit) : M unit :=
if b then body else ret tt.


Definition set_file (d : Data) (w : World) : World :=
{| file := d; ACTIVE_DIALOGS := ACTIVE_DIALOGS w; BLOCKED_USERS := BLOCKED_USERS w;
   calls := calls w; log := log w; stdout := stdout w |}.

Definition set_ACTIVE_DIALOGS (g : Z) (w : World) : World :=
{| file := file w; ACTIVE_DIALOGS := g; BLOCKED_USERS := BLOCKED_USERS w;
   calls := calls w; log := log w; stdout := stdout w |}.

Definition set_BLOCKED_USERS (g : Z) (w : World) : World :=
{| file := file w; ACTIVE_DIALOGS := ACTIVE_DIALOGS w; BLOCKED_USERS := g;
   calls := calls w; log := log w; stdout := stdout w |}.

Definition add_call (c : Call) (w : World) : World :=
{| file := file w; ACTIVE_DIALOGS := ACTIVE_DIALOGS w; BLOCKED_USERS := BLOCKED_USERS w;
   calls := (calls w ++ [c])%list; log := log w; stdout := stdout w |}.

Definition add_log (r : Level * string) (w : World) : World :=
{| file := file w; ACTIVE_DIALOGS := ACTIVE_DIALOGS w; BLOCKED_USERS := BLOCKED_USERS w;
   calls := calls w; log := (log w ++ [r])%list; stdout := stdout w |}.

Definition add_stdout (line : string) (w : World) : World :=
{| file := file w; ACTIVE_DIALOGS := ACTIVE_DIALOGS w; BLOCKED_USERS := BLOCKED_USERS w;
   calls := calls w; log := log w; stdout := (stdout w ++ [line])%list |}.

Definition set_active_dialogs (a : gmap string string) (d : Data) : Data :=
{| active_dialogs := a; blocked_users := blocked_users d;
   dialog_messages := dialog_messages d |}.

Definition set_blocked_users (b : list Z) (d : Data) : Data :=
{| active_dialogs := active_dialogs d; blocked_users := b;
   dialog_messages := dialog_messages d |}.

Definition set_dialog_messages (t : gmap string (list Z)) (d : Data) : Data :=
{| active_dialogs := active_dialogs d; blocked_users := blocked_users d;
   dialog_messages := t |}.

Definition logger_info (msg : string) : M unit := λ w, (inr tt, add_log (INFO, msg) w).
Definition logger_warning (msg : string) : M unit := λ w, (inr tt, add_log (WARNING, msg) w).
Definition logger_error (msg : string) : M unit := λ w, (inr tt, add_log (ERROR, msg) w).
Definition print (line : string) : M unit := λ w, (inr tt, add_stdout line w).

Definition ACTIVE_DIALOGS_inc : M unit :=
λ w, (inr tt, set_ACTIVE_DIALOGS (ACTIVE_DIALOGS w + 1) w).
Definition ACTIVE_DIALOGS_dec : M unit :=
λ w, (inr tt, set_ACTIVE_DIALOGS (ACTIVE_DIALOGS w - 1) w).
Definition BLOCKED_USERS_inc : M unit :=
λ w, (inr tt, set_BLOCKED_USERS (BLOCKED_USERS w + 1) w).
Definition BLOCKED_USERS_dec : M unit :=
λ w, (inr tt, set_BLOCKED_USERS (BLOCKED_USERS w - 1) w).

(** The text an exception shows when formatted into a log line. *)
Definition exn_text (e : Py.exn) : string :=
match e with
| Py.TelegramError d => d
| Py.IndexError => "list index out of range"
| Py.ValueError => "invalid literal for int() with base 10"
| Py.AttributeError => "'NoneType' object has no attribute"
| Py.ValidationError => "validation error"
end.

Section Bot.

(** [config.ADMIN_ID]: the operator's user (and chat) identifier. *)
Variable ADMIN_ID : Z.

(** The Telegram side of the run. *)
Variable tg : Transport.

(** *** Persistence *)

(** Reading and writing the file are taken to succeed: [load_data]
  returns the document last written (the empty one before the first
  write), [save_data] replaces it.  The failures of the file system,
  which both functions catch and log, are outside the model. *)
Definition load_data : M Data := λ w, (inr (file w), w).

Definition save_data (data : Data) : M unit := λ w, (inr tt, set_file data w).

(** A Bot API call: recorded, then answered by the transport.  The
    result is the position of the call in the run, under which the
    transport files its answer. *)
Definition api (c : Call) : M nat :=
  λ w, let n := length (calls w) in
       match tg_raises tg n with
       | Some e => (inl (Py.TelegramError e), add_call c w)
       | None => (inr n, add_call c w)
       end.

Definition send_message (chat_id : Z) (text : string)
    (reply_markup : option InlineKeyboardMarkup) : M Z :=
  n ← api (SendMessage chat_id text reply_markup); ret (tg_message_id tg n).

Definition send_photo (chat_id : Z) (file_id caption : string)
    (reply_markup : option InlineKeyboardMarkup) : M Z :=
  n ← api (SendPhoto chat_id file_id caption reply_markup); ret (tg_message_id tg n).

Definition send_document (chat_id : Z) (file_id caption : string)
    (reply_markup : option InlineKeyboardMarkup) : M Z :=
  n ← api (SendDocument chat_id file_id caption reply_markup); ret (tg_message_id tg n).

Definition delete_message (chat_id message_id : Z) : M unit :=
  api (DeleteMessage chat_id message_id);; ret tt.

(** [(await bot.get_chat(user_id)).first_name] *)
Definition get_chat_first_name (user_id : Z) : M string :=
  n ← api (GetChat user_id); ret (tg_first_name tg n).

Definition callback_query_answer (text : string) : M unit :=
  api (AnswerCallback text);; ret tt.

(** *** Store helpers *)

Definition get_active_dialogs : M (gmap string string) :=
  data ← load_data; ret (active_dialogs data).

Definition get_blocked_users : M (gset Z) :=
  data ← load_data; ret (list_to_set (blocked_users data)).

Definition get_dialog_messages (user_id : Z) : M (list Z) :=
  data ← load_data; ret (default [] (dialog_messages data !! Py.str user_id)).

Definition add_active_dialog (user_id : Z) (product_id : string) : M unit :=
  data ← load_data;
  when (negb (Py.key_in (Py.KInt user_id) (active_dialogs data)))
    ACTIVE_DIALOGS_inc;;
  let data := set_active_dialogs
                (<[Py.str user_id := product_id]> (active_dialogs data)) data in
  save_data data;;
  logger_info ("Added active dialog: user ID " +:+ Py.str user_id +:+
               ", product ID " +:+ product_id).

Definition remove_active_dialog (user_id : Z) : M unit :=
  data ← load_data;
  when (Py.key_in (Py.KStr (Py.str user_id)) (active_dialogs data))
    (print "User removed from active dialogs.";;
     ACTIVE_DIALOGS_dec;;
     let data := set_active_dialogs
                   (delete (Py.str user_id) (active_dialogs data)) data in
     save_data data;;
     logger_info ("Removed active dialog with user ID: " +:+ Py.str user_id)).

Definition add_blocked_user (user_id : Z) : M unit :=
  data ← load_data;
  when (negb (bool_decide (user_id ∈ blocked_users data)))
    (BLOCKED_USERS_inc;;
     let data := set_blocked_users (blocked_users data ++ [user_id])%list data in
     save_data data;;
     logger_info ("User ID: " +:+ Py.str user_id +:+ " has been blocked")).

Definition remove_blocked_user (user_id : Z) : M unit :=
  data ← load_data;
  when (bool_decide (user_id ∈ blocked_users data))
    (BLOCKED_USERS_dec;;
     let data := set_blocked_users
                   (Py.list_remove user_id (blocked_users data)) data in
     save_data data;;
     logger_info ("User ID: " +:+ Py.str user_id +:+ " has been unblocked")).

Definition add_dialog_message (user_id message_id : Z) : M unit :=
  data ← load_data;
  let data :=
    if negb (Py.key_in (Py.KStr (Py.str user_id)) (dialog_messages data))
    then set_dialog_messages (<[Py.str user_id := []]> (dialog_messages data)) data
    else data in
  let record : list Z := default [] (dialog_messages data !! Py.str user_id) in
  when (negb (bool_decide (message_id ∈ record)))
    (let data := set_dialog_messages
                   (<[Py.str user_id := (record ++ [message_id])%list]> (dialog_messages data))
                   data in
     save_data data;;
     logger_info ("Added message ID: " +:+ Py.str message_id +:+
                  " to dialog with user ID: " +:+ Py.str user_id)).

Definition remove_dialog_messages (user_id : Z) : M unit :=
  data ← load_data;
  when (Py.key_in (Py.KStr (Py.str user_id)) (dialog_messages data))
    (let data := set_dialog_messages
                   (delete (Py.str user_id) (dialog_messages data)) data in
     save_data data;;
     logger_info ("Removed all messages from dialog with user ID: " +:+
                  Py.str user_id)).

(** *** Handlers *)

(** [need_help], registered for callback data starting with
    ["need_help_"]. *)
Definition need_help_filter (c : CallbackQuery) : bool :=
  Py.startswith (cq_data c) "need_help_".

Definition need_help (callback_query : CallbackQuery) : M unit :=
  let user_id := uid (cq_from_user callback_query) in
  let user_name := full_name (cq_from_user callback_query) in
  let product_id := Py.replace (cq_data callback_query) "need_help_" EmptyString in
  blocked ← get_blocked_users;
  if bool_decide (user_id ∈ blocked) || (user_id =? ADMIN_ID)
  then logger_warning ("User " +:+ user_name +:+ " (" +:+ Py.str user_id +:+
         ") tried to request help but was blocked or already in a dialog.")
  else
    callback_query_answer "Задавайте свои вопросы.";;
    send_message user_id "Задавайте свои вопросы" None;;
    when (negb (user_id =? ADMIN_ID)) (add_active_dialog user_id product_id);;
    logger_info ("User " +:+ user_name +:+ " (" +:+ Py.str user_id +:+
                 ") requested help. Product ID: " +:+ product_id).

(** The three controls attached to every forwarded message. *)
Definition admin_keyboard (user_id : Z) : InlineKeyboardMarkup :=
  [ [mkButton "Закончить" ("end_dialog_" +:+ Py.str user_id)];
    [mkButton "Заблокировать" ("block_user_" +:+ Py.str user_id)];
    [mkButton "Разблокировать" ("unblock_user_" +:+ Py.str user_id)] ].

(** The dispatch filter of [forward_to_admin]:
    [str(id) in get_active_dialogs().keys() and
     (message.photo or not message.text.startswith("/"))].
    Both [and] and [or] short-circuit; [message.text] is [None] for a
    message without text, and [None.startswith] raises. *)
Definition forward_to_admin_filter (message : Message) : M bool :=
  active ← get_active_dialogs;
  if Py.key_in (Py.KStr (Py.str (uid (from_user message)))) active
  then
    if Py.truthy_list (photo message) then ret true
    else match text message with
         | Some t => ret (negb (Py.startswith t "/"))
         | None => raise Py.AttributeError
         end
  else ret false.

(** The text put in front of every forwarded payload; it carries the
    correlation tag [(ID: <user_id>)]. *)
Definition admin_message_header (user_name : string) (user_id : Z)
    (product_id : string) : string :=
  "Сообщение от " +:+ user_name +:+ " (ID: " +:+ Py.str user_id +:+ ")" +:+ Py.NL +:+
  "ID продукта: " +:+ product_id +:+ Py.NL +:+ Py.NL.

Definition forward_to_admin (message : Message) : M unit :=
  let user_id := uid (from_user message) in
  let user_name := full_name (from_user message) in
  active ← get_active_dialogs;
  let product_id := default "Неизвестно" (active !! Py.str user_id) in
  blocked ← get_blocked_users;
  if bool_decide (user_id ∈ blocked)
  then logger_warning ("User ID: " +:+ Py.str user_id +:+ ", Name: " +:+ user_name +:+
                       " tried to send a message but was blocked.")
  else
    let admin_message := admin_message_header user_name user_id product_id in
    if Py.truthy_str (text message) then
      let admin_message := admin_message +:+ default EmptyString (text message) in
      sent_message ← send_message ADMIN_ID admin_message (Some (admin_keyboard user_id));
      add_dialog_message user_id sent_message;;
      logger_info ("Text message from user ID: " +:+ Py.str user_id +:+ ", Name: " +:+
                   user_name +:+ ", Product ID: " +:+ product_id +:+
                   " forwarded to admin.")
    else if Py.truthy_list (photo message) then
      let photo_file_id := default EmptyString (last (default [] (photo message))) in
      let caption := admin_message +:+ default EmptyString (caption message) in
      sent_message ← send_photo ADMIN_ID photo_file_id caption
                       (Some (admin_keyboard user_id));
      add_dialog_message user_id sent_message;;
      logger_info ("Photo from user ID: " +:+ Py.str user_id +:+ ", Name: " +:+
                   user_name +:+ ", Product ID: " +:+ product_id +:+
                   " forwarded to admin.")
    else match document message with
    | Some document_file_id =>
      let caption := admin_message +:+ default EmptyString (caption message) in
      sent_message ← send_document ADMIN_ID document_file_id caption
                       (Some (admin_keyboard user_id));
      add_dialog_message user_id sent_message;;
      logger_info ("Document from user ID: " +:+ Py.str user_id +:+ ", Name: " +:+
                   user_name +:+ ", Product ID: " +:+ product_id +:+
                   " forwarded to admin.")
    | None =>
      send_message ADMIN_ID
        ("Пользователь " +:+ user_name +:+ " (ID: " +:+ Py.str user_id +:+
         ") отправил неподдерживаемый тип медиа." +:+ Py.NL +:+
         "Продукт ID: " +:+ product_id) None;;
      logger_warning ("Unsupported media type from user ID: " +:+ Py.str user_id +:+
                      ", Name: " +:+ user_name +:+ ", Product ID: " +:+ product_id +:+ ".")
    end.

(** The dispatch filter of [admin_reply]:
    [message.from_user.id == ADMIN_ID and message.reply_to_message]. *)
Definition admin_reply_filter (message : Message) : bool :=
  (uid (from_user message) =? ADMIN_ID) &&
  bool_decide (is_Some (reply_to_message message)).

(** [int(replied_message.split("(ID: ")[1].split(")")[0])] *)
Definition tag_user_id (replied_message : string) : Py.exn + Z :=
  match Py.index (Py.split replied_message "(ID: ") 1 with
  | inl e => inl e
  | inr after =>
      match Py.index (Py.split after ")") 0 with
      | inl e => inl e
      | inr digits => Py.int digits
      end
  end.

(** [replied_message.split("Сообщение от ")[1].split(" (ID:")[0]] *)
Definition tag_user_name (replied_message : string) : Py.exn + string :=
  match Py.index (Py.split replied_message "Сообщение от ") 1 with
  | inl e => inl e
  | inr after => Py.index (Py.split after " (ID:") 0
  end.

Definition admin_reply (message : Message) : M unit :=
  replied_message ← match reply_to_message message ≫= replied_text with
                    | Some t => ret t
                    | None => raise Py.AttributeError
                    end;
  user_id ← lift (tag_user_id replied_message);
  user_name ← lift (tag_user_name replied_message);
  add_dialog_message user_id (message_id message);;
  match text message with
  | Some t => send_message user_id t None
  | None => raise Py.ValidationError
  end;;
  logger_info ("Admin replied to message from user ID: " +:+ Py.str user_id +:+
               ", Name: " +:+ user_name +:+ ".").

(** [int(callback_query.data.split("_")[2])] *)
Definition callback_user_id (data : string) : Py.exn + Z :=
  match Py.index (Py.split data "_") 2 with
  | inl e => inl e
  | inr field => Py.int field
  end.

(** The keyboard [end_dialog] sends to the user when the dialogue is over. *)
Definition end_dialog_keyboard : InlineKeyboardMarkup :=
  [[mkButton "Нужна помощь" "need_help"]].

Definition end_dialog_filter (c : CallbackQuery) : bool :=
  Py.startswith (cq_data c) "end_dialog_".

Definition end_dialog (callback_query : CallbackQuery) : M unit :=
  user_id ← lift (callback_user_id (cq_data callback_query));
  user_name ← get_chat_first_name user_id;
  dialog_messages ← get_dialog_messages user_id;
  when (Py.truthy_list (Some dialog_messages))
    (for_each dialog_messages (λ message_id,
       try_except (delete_message ADMIN_ID message_id)
         (λ e, logger_error ("Failed to delete message " +:+ Py.str message_id +:+
                             ": " +:+ exn_text e)));;
     remove_dialog_messages user_id);;
  callback_query_answer ("Диалог с пользователем " +:+ user_name +:+ " завершен.");;
  active ← get_active_dialogs;
  when (Py.key_in (Py.KStr (Py.str user_id)) active) (remove_active_dialog user_id);;
  let keyboard := end_dialog_keyboard in
  send_message user_id "Если у вас есть еще вопросы, нажмите 'Нужна помощь'."
    (Some keyboard);;
  logger_info ("Dialog with user ID: " +:+ Py.str user_id +:+ ", Name: " +:+
               user_name +:+ " has ended.").

Definition block_user_filter (c : CallbackQuery) : bool :=
  Py.startswith (cq_data c) "block_user_".

Definition block_user (callback_query : CallbackQuery) : M unit :=
  user_id ← lift (callback_user_id (cq_data callback_query));
  user_name ← get_chat_first_name user_id;
  callback_query_answer ("Пользователь " +:+ user_name +:+ " заблокирован.");;
  add_blocked_user user_id;;
  active ← get_active_dialogs;
  when (Py.key_in (Py.KStr (Py.str user_id)) active) (remove_active_dialog user_id);;
  logger_info ("User ID: " +:+ Py.str user_id +:+ ", Name: " +:+ user_name +:+
               " has been blocked.").

Definition unblock_user_filter (c : CallbackQuery) : bool :=
  Py.startswith (cq_data c) "unblock_user_".

Definition unblock_user (callback_query : CallbackQuery) : M unit :=
  user_id ← lift (callback_user_id (cq_data callback_query));
  user_name ← get_chat_first_name user_id;
  blocked ← get_blocked_users;
  if bool_decide (user_id ∈ blocked) then
    remove_blocked_user user_id;;
    callback_query_answer ("Пользователь " +:+ user_name +:+ " разблокирован.");;
    logger_info ("User ID: " +:+ Py.str user_id +:+ ", Name: " +:+ user_name +:+
                 " has been unblocked.")
  else
    callback_query_answer ("Пользователь " +:+ user_name +:+ " не был заблокирован.");;
    logger_warning ("Attempt to unblock user ID: " +:+ Py.str user_id +:+ ", Name: " +:+
                    user_name +:+ ", who was not blocked.").

(** *** Dispatch

    The dispatcher offers an update to the handlers of its kind in the
    order they were registered and runs the first one whose filter
    holds; an exception in a filter or in the handler ends the
    processing of the update.  Messages: [start], under aiogram's
    [Command("start")] filter, then [forward_to_admin], then
    [admin_reply]; [dispatch_message] is what the dispatcher does with
    a message that [Command("start")] has turned down, [dp_message]
    below the whole of it.  Callback queries: [need_help],
    [end_dialog], [block_user], [unblock_user]. *)
Inductive Handler : Type :=
| H_need_help | H_forward_to_admin | H_admin_reply
| H_end_dialog | H_block_user | H_unblock_user.

Definition dispatch_message (message : Message) : M (option Handler) :=
  fires ← forward_to_admin_filter message;
  if fires : bool then forward_to_admin message;; ret (Some H_forward_to_admin)
  else if admin_reply_filter message
  then admin_reply message;; ret (Some H_admin_reply)
  else ret None.

Definition dispatch_callback_query (c : CallbackQuery) : M (option Handler) :=
  if need_help_filter c then need_help c;; ret (Some H_need_help)
  else if end_dialog_filter c then end_dialog c;; ret (Some H_end_dialog)
  else if block_user_filter c then block_user c;; ret (Some H_block_user)
  else if unblock_user_filter c then unblock_user c;; ret (Some H_unblock_user)
  else ret None.

End Bot.

(** The handles recorded for a user, as [get_dialog_messages] reads them. *)
Definition ledger (w : World) (user_id : Z) : list Z :=
default [] (dialog_messages (file w) !! Py.str user_id).

(** The keyboard a Bot API call carries, if it carries one. *)
Definition call_markup (c : Call) : option InlineKeyboardMarkup :=
match c with
| SendMessage _ _ markup | SendPhoto _ _ _ markup | SendDocument _ _ _ markup => markup
| DeleteMessage _ _ | GetChat _ | AnswerCallback _ => None
end.

(** Whether the user has a session, as the handlers test it. *)
Definition has_session (w : World) (user_id : Z) : bool :=
Py.key_in (Py.KStr (Py.str user_id)) (active_dialogs (file w)).

(** The error records the deletion loop of [end_dialog] writes when it
deletes [msgs] with Bot API calls number [n], [n + 1], ...: one record
for each call the transport lets fail. *)
Fixpoint deletion_errors (tg : Transport) (n : nat) (msgs : list Z)
  : list (Level * string) :=
match msgs with
| [] => []
| message_id :: rest =>
    match tg_raises tg n with
    | Some e => [(ERROR, "Failed to delete message " +:+ Py.str message_id +:+
                         ": " +:+ e)]
    | None => []
    end ++ deletion_errors tg (S n) rest
end.

(** The world after that loop: one [DeleteMessage] call for each handle,
in order, and the error records; nothing else moves. *)
Definition after_deletions (ADMIN_ID : Z) (tg : Transport) (msgs : list Z)
  (w : World) : World :=
{| file := file w; ACTIVE_DIALOGS := ACTIVE_DIALOGS w; BLOCKED_USERS := BLOCKED_USERS w;
   calls := calls w ++ map (DeleteMessage ADMIN_ID) msgs;
   log := log w ++ deletion_errors tg (length (calls w)) msgs;
   stdout := stdout w |}.

(** *** Invariants of the data file *)

(** The records of the thread ledger: none is empty, none holds a handle
twice. *)
Definition ledger_ok (d : Data) : Prop :=
∀ k l, dialog_messages d !! k = Some l → l ≠ [] ∧ NoDup l.

(** The data file as the handlers keep it: the ledger is in order and the
operator has no session. *)
Definition store_ok (ADMIN_ID : Z) (d : Data) : Prop :=
ledger_ok d ∧ active_dialogs d !! Py.str ADMIN_ID = None.

(** A computation keeps a property of the data file when the file has it
after the computation, however it ends, if it had it before. *)
Definition keeps {A} (P : Data → Prop) (m : M A) : Prop :=
∀ w, P (file w) → P (file (snd (m w))).

(** The start of the process on the data file as it stands: the gauges
live in the memory of the process and start at 0, the file and the log
file stay. *)
Definition restart (w : World) : World :=
{| file := file w; ACTIVE_DIALOGS := 0; BLOCKED_USERS := 0;
   calls := calls w; log := log w; stdout := stdout w |}.

(** The worlds the bot gets into: from the first start, on no data file,
by the updates the two dispatchers process, whatever the transport
answers, and by starting the process again on the data file an earlier
run has left.  (The [/start] handler, modelled apart, does not touch the
data file.) *)
Inductive reachable (ADMIN_ID : Z) : World → Prop :=
| reachable_initial : reachable ADMIN_ID initial_world
| reachable_message tg message w :
    reachable ADMIN_ID w →
    reachable ADMIN_ID (snd (dispatch_message ADMIN_ID tg message w))
| reachable_callback_query tg c w :
    reachable ADMIN_ID w →
    reachable ADMIN_ID (snd (dispatch_callback_query ADMIN_ID tg c w))
| reachable_restart w :
    reachable ADMIN_ID w →
    reachable ADMIN_ID (restart w).

(** The same, with the world the running process started in: [running
ADMIN_ID w0 w] when the bot has got into [w] and its process was started
in [w0]. *)
Inductive running (ADMIN_ID : Z) : World → World → Prop :=
| running_initial : running ADMIN_ID initial_world initial_world
| running_message tg message w0 w :
    running ADMIN_ID w0 w →
    running ADMIN_ID w0 (snd (dispatch_message ADMIN_ID tg message w))
| running_callback_query tg c w0 w :
    running ADMIN_ID w0 w →
    running ADMIN_ID w0 (snd (dispatch_callback_query ADMIN_ID tg c w))
| running_restart w0 w :
    running ADMIN_ID w0 w →
    running ADMIN_ID (restart w) (restart w).

(** The world after [n] presses of the same help button. *)
Fixpoint press_need_help (ADMIN_ID : Z) (tg : Transport) (c : CallbackQuery)
  (n : nat) (w : World) : World :=
match n with
| O => w
| S k => press_need_help ADMIN_ID tg c k (snd (need_help ADMIN_ID tg c w))
end.

(** *** Sample runs *)

(** A transport on which every call succeeds; the [n]-th call creates
message [100 + n], and every chat has first name Ann. *)
Definition reliable : Transport :=
{| tg_raises := λ _, None; tg_message_id := λ n, 100 + Z.of_nat n;
   tg_first_name := λ _, "Ann" |}.

(** A transport on which the second and the third call of a run fail. *)
Definition deletions_fail : Transport :=
{| tg_raises := λ n, if (1 <=? n)%nat && (n <=? 2)%nat
                     then Some "Bad Request: message to delete not found"
                     else None;
   tg_message_id := λ n, 100 + Z.of_nat n;
   tg_first_name := λ _, "Ann" |}.

Definition operator : Z := 1000.

Definition press (user_id : Z) (name data : string) : CallbackQuery :=
{| cq_from_user := mkUser user_id name; cq_data := data |}.

Definition text_message (mid user_id : Z) (name t : string) : Message :=
{| message_id := mid; from_user := mkUser user_id name; text := Some t; photo := None;
   caption := None; document := None; reply_to_message := None |}.

Definition document_message (mid user_id : Z) (name file_id : string) : Message :=
{| message_id := mid; from_user := mkUser user_id name; text := None; photo := None;
   caption := None; document := Some file_id; reply_to_message := None |}.

(** The operator's reply [t] to a message of the operator chat whose text
is [replied]. *)
Definition operator_reply (mid : Z) (replied t : string) : Message :=
{| message_id := mid; from_user := mkUser operator "Operator"; text := Some t;
   photo := None; caption := None; document := None;
   reply_to_message := Some (mkReplied (Some replied)) |}.

(** A world with the given data file and nothing else. *)
Definition world_of (d : Data) : World :=
{| file := d; ACTIVE_DIALOGS := 0; BLOCKED_USERS := 0;
   calls := []; log := []; stdout := [] |}.

(** User 7 has a session about product 17 and no handle recorded yet. *)
Definition session_world : World :=
world_of {| active_dialogs := {["7" := "17"]}; blocked_users := [];
            dialog_messages := ∅ |}.

(** User 7 has a session and two forwarded messages, 5 and 6. *)
Definition busy_world : World :=
world_of {| active_dialogs := {["7" := "17"]}; blocked_users := [];
            dialog_messages := {["7" := [5; 6]]} |}.

(** ** The counters and the block list *)

(** What the gauges and the block list have to do with the data file: the
block list holds no user twice, the gauge of blocked users is its length
up to a constant [b], the gauge of active dialogs is at least the number
of sessions up to a constant [a], and no blocked user has a session.
The constants are what the data file held when the process started. *)
Definition counters_ok (a b : Z) (w : World) : Prop :=
NoDup (blocked_users (file w))
∧ BLOCKED_USERS w = b + Z.of_nat (length (blocked_users (file w)))
∧ a + Z.of_nat (size (active_dialogs (file w))) ≤ ACTIVE_DIALOGS w
∧ ∀ user_id, user_id ∈ blocked_users (file w) →
    active_dialogs (file w) !! Py.str user_id = None.

(** A computation keeps a property of the world when the world has it
after the computation, however it ends, if it had it before. *)
Definition keeps_world {A} (P : World → Prop) (m : M A) : Prop :=
∀ w, P w → P (snd (m w)).

(** A property of the world that looks at the sessions, the block list
and the gauges only. *)
Definition looks_at_counters (P : World → Prop) : Prop :=
∀ w w', active_dialogs (file w') = active_dialogs (file w) →
        blocked_users (file w') = blocked_users (file w) →
        ACTIVE_DIALOGS w' = ACTIVE_DIALOGS w →
        BLOCKED_USERS w' = BLOCKED_USERS w → P w → P w'.

(** ** The catalogue and the [/start] handler *)

(** A row of the product sheet as [get_all_records] returns it: the cell
under "Tilda UID" when it holds an int (an empty cell or a text equals no
int), and the cells [start] formats, as the text an f-string makes of them. *)
Record Product : Type := mkProduct {
Tilda_UID : option Z;
Title : string;
Price : string;
Url : string;
Photo : string
}.

(** [read_product_from_cache], on the cache it reads.  [int(product_id)]
is evaluated in the loop, at each row: on an empty cache it is not
evaluated at all. *)
Fixpoint read_product_from_cache (cached_products : list Product)
  (product_id : string) : Py.exn + option Product :=
match cached_products with
| [] => inr None
| row :: rest =>
    match Py.int product_id with
    | inl e => inl e
    | inr n =>
        if bool_decide (Tilda_UID row = Some n) then inr (Some row)
        else read_product_from_cache rest product_id
    end
end.

(** The two kinds of buttons under a product. *)
Inductive ProductButton : Type :=
| UrlButton (button_text url : string)
| CallbackButton (button_text callback_data : string).

(** [message.answer_photo(photo, caption, reply_markup, parse_mode)] *)
Record PhotoAnswer : Type := mkPhotoAnswer {
answer_photo : string;
answer_caption : string;
answer_markup : list (list ProductButton);
answer_parse_mode : string
}.

(** The relay world together with what [start] and [cache_products] work
on: the counter of requests, the cached rows, the photos answered. *)
Record Shop : Type := mkShop {
relay : World;
REQUESTS : Z;
cached_products : list Product;
photo_answers : list PhotoAnswer
}.

Definition shop_log (r : Level * string) (s : Shop) : Shop :=
{| relay := add_log r (relay s); REQUESTS := REQUESTS s;
   cached_products := cached_products s; photo_answers := photo_answers s |}.

Definition REQUESTS_inc (s : Shop) : Shop :=
{| relay := relay s; REQUESTS := REQUESTS s + 1;
   cached_products := cached_products s; photo_answers := photo_answers s |}.

Definition add_photo_answer (a : PhotoAnswer) (s : Shop) : Shop :=
{| relay := relay s; REQUESTS := REQUESTS s;
   cached_products := cached_products s;
   photo_answers := (photo_answers s ++ [a])%list |}.

Definition set_cached_products (records : list Product) (s : Shop) : Shop :=
{| relay := relay s; REQUESTS := REQUESTS s;
   cached_products := records; photo_answers := photo_answers s |}.

(** [args[1] if len(args) > 1 else None] *)
Definition start_product_id (t : string) : option string :=
let args := Py.split t " " in
if (1 <? length args)%nat then args !! 1%nat else None.

(** The caption and the keyboard [start] shows a product with. *)
Definition product_caption (product : Product) : string :=
"Приветствуем вас! Спасибо за ваш интерес!" +:+ Py.NL +:+ Py.NL +:+
Title product +:+ Py.NL +:+ Py.NL +:+
("Стоимость: " +:+ Price product) +:+ Py.NL +:+ Py.NL +:+ "Хотите оформить заказ?".

Definition product_keyboard (product : Product) (product_id : string)
  : list (list ProductButton) :=
[ [UrlButton "Добавить в корзину" (Url product)];
  [CallbackButton "Нужна помощь" ("need_help_" +:+ product_id)] ].

(** [start], the handler of the [/start] command.  The answer is the one
Bot API call of the handler; the transport files its outcome under the
number of calls made before it. *)
Definition start (tg : Transport) (message : Message) (s : Shop)
  : (Py.exn + unit) * Shop :=
let s := REQUESTS_inc s in
match text message with
| None => (inl Py.AttributeError, s)
| Some t =>
    let product_id := start_product_id t in
    if negb (Py.truthy_str product_id)
    then (inr tt, shop_log (WARNING, "No product ID provided.") s)
    else
      let product_id := default EmptyString product_id in
      match read_product_from_cache (cached_products s) product_id with
      | inl e => (inl e, s)
      | inr None =>
          (inr tt, shop_log (WARNING, "Product with ID " +:+ product_id +:+
                                      " not found.") s)
      | inr (Some product) =>
          let answer :=
            {| answer_photo := Photo product;
               answer_caption := product_caption product;
               answer_markup := product_keyboard product product_id;
               answer_parse_mode := "HTML" |} in
          let n := (length (calls (relay s)) + length (photo_answers s))%nat in
          match tg_raises tg n with
          | Some e => (inl (Py.TelegramError e), add_photo_answer answer s)
          | None =>
              (inr tt,
               shop_log (INFO, "Showed product " +:+ Title product +:+
                               " to user ID: " +:+ Py.str (uid (from_user message)) +:+
                               ", Name: " +:+ full_name (from_user message))
                 (add_photo_answer answer s))
          end
      end
end.

(** *** The dispatcher of messages, [start] included

[dp.message] offers a message to [start] first, which is registered
under [Command("start")], then to the two handlers of the relay.  The
filter is a class of aiogram, not code of the program: it is a parameter
here, [Command_start], which for each message holds, does not hold, or
raises. *)
Inductive MessageHandler : Type :=
| H_start
| H_relay (h : Handler).

Definition set_relay (w : World) (s : Shop) : Shop :=
{| relay := w; REQUESTS := REQUESTS s;
   cached_products := cached_products s; photo_answers := photo_answers s |}.

Section Dispatcher.
Variable Command_start : Message → Py.exn + bool.
Variable ADMIN_ID : Z.
Variable tg : Transport.

Definition dp_message (message : Message) (s : Shop)
  : (Py.exn + option MessageHandler) * Shop :=
match Command_start message with
| inl e => (inl e, s)
| inr true =>
    let '(r, s') := start tg message s in
    (match r with inl e => inl e | inr _ => inr (Some H_start) end, s')
| inr false =>
    let '(r, w') := dispatch_message ADMIN_ID tg message (relay s) in
    (match r with inl e => inl e | inr h => inr (H_relay <$> h) end, set_relay w' s)
end.

End Dispatcher.

(** One turn of the loop of [cache_products], given what
[worksheet.get_all_records()] gives: the rows, or the text of the
exception it raises. *)
Definition cache_products_turn (fetched : string + list Product) (s : Shop) : Shop :=
match fetched with
| inr records =>
    shop_log (INFO, "Products data cached successfully.")
      (set_cached_products records s)
| inl e =>
    shop_log (ERROR, "Error caching products from Google Sheets: " +:+ e) s
end.

(** The first turns of [cache_products], one for each fetch. *)
Definition cache_products (fetches : list (string + list Product)) (s : Shop) : Shop :=
fold_left (λ s fetched, cache_products_turn fetched s) fetches s.

(** The rows of the last fetch that succeeded, if any. *)
Definition last_fetched (fetches : list (string + list Product))
  : option (list Product) :=
last (omap (λ f, match f with inr records => Some records | inl _ => None end) fetches).

(** *** More sample runs *)

(** A filter for the sample runs, in the place of [Command("start")]: the
first word of the text, or of the caption when there is no text, is
[/start]. *)
Definition slash_start (message : Message) : Py.exn + bool :=
let t := if Py.truthy_str (text message) then text message else caption message in
inr (bool_decide (head (Py.split (default EmptyString t) " ") = Some "/start")).

Definition cream : Product :=
{| Tilda_UID := Some 17; Title := "Cream"; Price := "990";
   Url := "https://shop.example/cream"; Photo := "https://shop.example/cream.jpg" |}.

Definition soap : Product :=
{| Tilda_UID := Some 18; Title := "Soap"; Price := "250";
   Url := "https://shop.example/soap"; Photo := "https://shop.example/soap.jpg" |}.

Definition shop_of (w : World) (rows : list Product) : Shop :=
{| relay := w; REQUESTS := 0; cached_products := rows; photo_answers := [] |}.

Definition photo_message (mid user_id : Z) (name : string) (sizes : list string)
  (c : option string) : Message :=
{| message_id := mid; from_user := mkUser user_id name; text := None;
   photo := Some sizes; caption := c; document := None; reply_to_message := None |}.

(** User 7 is blocked, user 8 has a session. *)
Definition blocked_world : World :=
{| file := {| active_dialogs := {["8" := "18"]}; blocked_users := [7];
              dialog_messages := ∅ |};
   ACTIVE_DIALOGS := 1; BLOCKED_USERS := 1; calls := []; log := []; stdout := [] |}.

(** A transport on which the call number [k] of a run fails, and no
other. *)
Definition fails_at (k : nat) : Transport :=
{| tg_raises := λ n, if (n =? k)%nat then Some "Bad Request: query is too old" else None;
   tg_message_id := λ n, 100 + Z.of_nat n;
   tg_first_name := λ _, "Ann" |}.

(** A transport on which every call fails. *)
Definition unreachable : Transport :=
{| tg_raises := λ _, Some "Bad Gateway"; tg_message_id := λ n, 100 + Z.of_nat n;
   tg_first_name := λ _, "Ann" |}.

Arguments Py.str : simpl never.
Arguments Py.int : simpl never.
Arguments Py.split : simpl never.
Arguments Py.replace : simpl never.

(** ** Facts about the string operations *)

Module PyFacts.
Import Py.

Lemma string_forall_impl (P Q : ascii → bool) s :
  (∀ c, P c = true → Q c = true) →
  string_forall P s = true → string_forall Q s = true.
Proof.
  intros HPQ. induction s as [|c s IH]; simpl; [done|].
  rewrite !andb_true_iff. intros [Hc Hs]. split; [by apply HPQ | by apply IH].
Qed.

Lemma app_nil (t : string) : EmptyString +:+ t = t.
Proof. reflexivity. Qed.

Lemma app_cons x (s t : string) : String x s +:+ t = String x (s +:+ t).
Proof. reflexivity. Qed.

Lemma app_nil_r (s : string) : s +:+ EmptyString = s.
Proof. induction s as [|x s IH]; [done|]. rewrite app_cons. by rewrite IH. Qed.

Lemma string_forall_app P s t :
  string_forall P (s +:+ t) = string_forall P s && string_forall P t.
Proof.
  induction s as [|c s IH]; [done|].
  rewrite app_cons. simpl. by rewrite IH, andb_assoc.
Qed.

Lemma app_assoc (a b c : string) : (a +:+ b) +:+ c = a +:+ (b +:+ c).
Proof.
  induction a as [|x a IH]; [done|]. rewrite !app_cons. by rewrite IH.
Qed.

Lemma app_length (a b : string) :
  String.length (a +:+ b) = (String.length a + String.length b)%nat.
Proof.
  induction a as [|x a IH]; [done|]. rewrite app_cons. simpl. by rewrite IH.
Qed.

Lemma startswith_app p s : startswith (p +:+ s) p = true.
Proof.
  induction p as [|c p IH]; [done|].
  rewrite app_cons. simpl. by rewrite Ascii.eqb_refl.
Qed.

(** Only the first [length p] characters matter to [startswith]. *)
Lemma startswith_app_l x y p :
  (String.length p ≤ String.length x)%nat →
  startswith (x +:+ y) p = startswith x p.
Proof.
  revert x. induction p as [|c p IH]; intros [|d x] Hlen;
    rewrite ?app_cons; simpl in *; try done; try lia.
  destruct (Ascii.eqb c d); [|done]. apply IH. lia.
Qed.

Lemma split_from_cons sep c s :
  split_from sep 0 (String c s)
  = if startswith (String c s) sep
    then EmptyString :: split_from sep (Nat.pred (String.length sep)) s
    else cons_head c (split_from sep 0 s).
Proof. reflexivity. Qed.

Lemma split_from_nonempty sep k s : split_from sep k s ≠ [].
Proof.
  revert k. induction s as [|c s IH]; intros k; [done|].
  destruct k as [|k]; [|apply IH].
  rewrite split_from_cons. destruct (startswith _ _); [done|].
  specialize (IH 0%nat). by destruct (split_from sep 0 s).
Qed.

(** Characters of a separator just matched are passed over. *)
Lemma split_from_skip sep r b :
  split_from sep (String.length r) (r +:+ b) = split_from sep 0 b.
Proof.
  induction r as [|c r IH]; [by destruct b|]. rewrite app_cons. exact IH.
Qed.

(** A string that starts with the separator splits off an empty field. *)
Lemma split_sep_first c sep0 b :
  split (String c sep0 +:+ b) (String c sep0) = EmptyString :: split b (String c sep0).
Proof.
  unfold split. rewrite app_cons, split_from_cons, <- app_cons, startswith_app.
  f_equal. apply split_from_skip.
Qed.

(** Without an occurrence of the separator there is one field. *)
Lemma split_no_sep sep s :
  sep ≠ EmptyString → contains sep s = false → split s sep = [s].
Proof.
  intros Hsep. unfold split. induction s as [|c s IH]; [done|].
  rewrite split_from_cons. cbn [contains].
  rewrite orb_false_iff. intros [Hhd Htl]. by rewrite Hhd, IH.
Qed.

(** A stretch without the first character of the separator stays in the
    first field. *)
Lemma split_prepend c sep0 a b :
  string_forall (λ x, negb (Ascii.eqb c x)) a = true →
  split (a +:+ b) (String c sep0) = prepend a (split b (String c sep0)).
Proof.
  unfold split. pose proof (split_from_nonempty (String c sep0) 0 b) as Hne.
  induction a as [|x a IH].
  - intros _. rewrite app_nil. by destruct (split_from _ 0 b).
  - cbn [string_forall]. rewrite andb_true_iff, negb_true_iff. intros [Hx Ha].
    rewrite app_cons, split_from_cons. cbn [startswith]. rewrite Hx, (IH Ha).
    by destruct (split_from _ 0 b).
Qed.

(** The first occurrence of the separator ends the first field: if the
    separator [sep' ++ l] does not occur in [a ++ sep'], it first occurs
    in [a ++ sep' ++ l ++ b] right after [a]. *)
Lemma split_first_occurrence sep' l a b :
  contains (sep' +:+ String l EmptyString) (a +:+ sep') = false →
  split (a +:+ (sep' +:+ String l EmptyString) +:+ b) (sep' +:+ String l EmptyString)
  = a :: split b (sep' +:+ String l EmptyString).
Proof.
  set (sep := sep' +:+ String l EmptyString).
  assert (∃ c sep0, sep = String c sep0) as (c & sep0 & Hsep).
  { subst sep. destruct sep'; rewrite ?app_cons, ?app_nil; eauto. }
  induction a as [|x a IH].
  - intros _. rewrite app_nil, Hsep. apply split_sep_first.
  - rewrite app_cons. cbn [contains]. rewrite orb_false_iff. intros [Hhd Htl].
    specialize (IH Htl). unfold split in *.
    rewrite app_cons, split_from_cons.
    assert (startswith (String x (a +:+ sep +:+ b)) sep = false) as ->.
    { rewrite <- Hhd.
      replace (String x (a +:+ sep +:+ b))
        with (String x (a +:+ sep') +:+ (String l EmptyString +:+ b)).
      - apply startswith_app_l. subst sep. simpl.
        rewrite !app_length. simpl. lia.
      - rewrite app_cons. f_equal. subst sep. by rewrite !app_assoc. }
    by rewrite IH.
Qed.

(** *** Decimal numerals *)

Lemma numeric_uint d : string_forall numeric (NilEmpty.string_of_uint d) = true.
Proof. induction d; simpl; [done|..]; by rewrite IHd. Qed.

Lemma str_numeric n : string_forall numeric (str n) = true.
Proof.
  destruct n as [|p|p]; unfold str; simpl; [done|..];
    destruct (Pos.to_uint p); simpl; try done; by rewrite numeric_uint.
Qed.

Lemma numeric_not c x :
  numeric x = true → numeric c = false → negb (Ascii.eqb c x) = true.
Proof.
  intros Hx Hc. apply negb_true_iff, Ascii.eqb_neq. intros ->. congruence.
Qed.

(** No character of [str n] is [c], for any [c] that is neither a digit
    nor the minus sign. *)
Lemma str_avoids c n :
  numeric c = false → string_forall (λ x, negb (Ascii.eqb c x)) (str n) = true.
Proof.
  intros Hc. eapply string_forall_impl; [|apply str_numeric].
  intros x Hx. by apply numeric_not.
Qed.

Lemma rstrip_id s : string_forall (λ c, negb (isspace c)) s = true → rstrip s = s.
Proof.
  induction s as [|c s IH]; simpl; [done|].
  rewrite andb_true_iff, negb_true_iff. intros [Hc Hs]. rewrite (IH Hs), Hc.
  by destruct s.
Qed.

Lemma strip_id s : string_forall (λ c, negb (isspace c)) s = true → strip s = s.
Proof.
  intros H. unfold strip. rewrite rstrip_id by done.
  destruct s as [|c s]; simpl in *; [done|].
  apply andb_true_iff in H as [Hc _]. apply negb_true_iff in Hc. by rewrite Hc.
Qed.

Lemma ungroup_from_id b s :
  string_forall (λ c, negb (Ascii.eqb c "_")) s = true →
  s ≠ EmptyString ∨ b = true → ungroup_from b s = Some s.
Proof.
  revert b. induction s as [|c s IH]; intros b; simpl.
  - intros _ [?| ->]; done.
  - rewrite andb_true_iff, negb_true_iff. intros [Hc Hs] _.
    rewrite Hc, (IH true) by auto. done.
Qed.

Lemma ungroup_id s :
  string_forall (λ c, negb (Ascii.eqb c "_")) s = true → ungroup s = Some s.
Proof.
  intros H. destruct s as [|c s]; [done|].
  unfold ungroup. apply ungroup_from_id; auto.
Qed.

Lemma digits_uint d : string_forall isdigit (NilEmpty.string_of_uint d) = true.
Proof. induction d; simpl; [done|..]; by rewrite IHd. Qed.

Lemma isdigit_plain c :
  isdigit c = true →
  isspace c = false ∧ Ascii.eqb c "_" = false ∧
  Ascii.eqb c "-" = false ∧ Ascii.eqb c "+" = false.
Proof.
  destruct c as [[] [] [] [] [] [] [] []]; vm_compute; intros; by repeat split.
Qed.

(** ASCII text is read as it is. *)
Lemma to_ascii_cons c s :
  (N_of_ascii c <? 127)%N = true → to_ascii (String c s) = String c <$> to_ascii s.
Proof.
  intros Hc. unfold to_ascii. cbn [codepoints].
  assert ((N_of_ascii c <? 128)%N = true) as -> by (apply N.ltb_lt in Hc; apply N.ltb_lt; lia).
  destruct (codepoints s) as [cps|]; [|done].
  cbn [fmap option_fmap option_map mbind option_bind mapM].
  assert (ascii_of_codepoint (N_of_ascii c) = Some c) as ->.
  { unfold ascii_of_codepoint. by rewrite Hc, ascii_N_embedding. }
  cbn [mbind option_bind]. by destruct (mapM ascii_of_codepoint cps).
Qed.

Lemma to_ascii_plain s :
  string_forall (λ c, N_of_ascii c <? 127)%N s = true → to_ascii s = Some s.
Proof.
  induction s as [|c s IH]; [done|]. cbn [string_forall].
  rewrite andb_true_iff. intros [Hc Hs]. by rewrite to_ascii_cons, IH.
Qed.

Lemma isdigit_ascii c : isdigit c = true → (N_of_ascii c <? 127)%N = true.
Proof. destruct c as [[] [] [] [] [] [] [] []]; vm_compute; by intros. Qed.

(** Parsing a run of digits written from a [uint]. *)
Lemma int_digits d :
  d ≠ Decimal.Nil →
  int (NilEmpty.string_of_uint d) = inr (Z.of_uint d) ∧
  int (String "-" (NilEmpty.string_of_uint d)) = inr (- Z.of_uint d).
Proof.
  intros Hd. set (s := NilEmpty.string_of_uint d).
  assert (string_forall isdigit s = true) as Hs by apply digits_uint.
  assert (string_forall (λ c, negb (isspace c)) s = true) as Hsp.
  { eapply string_forall_impl; [|exact Hs]. intros c Hc.
    by destruct (isdigit_plain c Hc) as (-> & _). }
  assert (string_forall (λ c, negb (Ascii.eqb c "_")) s = true) as Hun.
  { eapply string_forall_impl; [|exact Hs]. intros c Hc.
    by destruct (isdigit_plain c Hc) as (_ & -> & _). }
  assert (NilZero.uint_of_string s = Some d) as Hparse.
  { pose proof (NilZero.usu d Hd) as H. by destruct d. }
  assert (string_forall (λ c, N_of_ascii c <? 127)%N s = true) as Hplain.
  { eapply string_forall_impl; [|exact Hs]. apply isdigit_ascii. }
  split; unfold int.
  - rewrite to_ascii_plain by done. unfold int_ascii. rewrite strip_id by done.
    destruct s as [|c s'] eqn:Es; [by destruct d|].
    simpl in Hs. apply andb_true_iff in Hs as [Hc _].
    destruct (isdigit_plain c Hc) as (_ & _ & -> & ->).
    rewrite ungroup_id by done. cbv [mbind option_bind]. by rewrite Hparse.
  - rewrite to_ascii_plain by (cbn [string_forall]; by rewrite Hplain).
    unfold int_ascii. rewrite strip_id by (simpl; by rewrite Hsp).
    rewrite Ascii.eqb_refl, ungroup_id by done. cbv [mbind option_bind]. by rewrite Hparse.
Qed.

(** [int(str(n)) == n] *)
Lemma int_str n : int (str n) = inr n.
Proof.
  destruct n as [|p|p]; [done|..]; unfold str;
    cbn [Z.to_int NilZero.string_of_int];
    (assert (Pos.to_uint p ≠ Decimal.Nil) as Hd;
     [intros H; pose proof (DecimalPos.Unsigned.of_to p) as Hp;
      by rewrite H in Hp|]);
    replace (NilZero.string_of_uint (Pos.to_uint p))
      with (NilEmpty.string_of_uint (Pos.to_uint p))
      by (by destruct (Pos.to_uint p)).
  - destruct (int_digits _ Hd) as [-> _].
    f_equal. apply (DecimalZ.of_to (Z.pos p)).
  - destruct (int_digits _ Hd) as [_ ->].
    f_equal. apply (DecimalZ.of_to (Z.neg p)).
Qed.

(** [int] fails with [ValueError] only. *)
Lemma int_fails s e : int s = inl e → e = ValueError.
Proof.
  unfold int. destruct (to_ascii s) as [t|]; [|by intros [= <-]].
  unfold int_ascii.
  destruct (match strip t with EmptyString => _ | String _ _ => _ end) as [neg body].
  destruct (ungroup body ≫= NilZero.uint_of_string); [done|]. by intros [= <-].
Qed.

Lemma str_inj n m : str n = str m → n = m.
Proof.
  intros H. pose proof (int_str n) as Hn. rewrite H, int_str in Hn. congruence.
Qed.

End PyFacts.

(** ** Callback data and correlation tags written by the bot parse back *)

Section Parsing.
Import Py PyFacts.

Lemma split_avoid c sep0 a :
  string_forall (λ x, negb (Ascii.eqb c x)) a = true →
  split a (String c sep0) = [a].
Proof.
  unfold split. induction a as [|x a IH]; [done|].
  cbn [string_forall]. rewrite andb_true_iff, negb_true_iff. intros [Hx Ha].
  rewrite split_from_cons. cbn [startswith]. by rewrite Hx, (IH Ha).
Qed.

Lemma contains_avoid c sep0 a s :
  string_forall (λ x, negb (Ascii.eqb c x)) a = true →
  contains (String c sep0) (a +:+ s) = contains (String c sep0) s.
Proof.
  induction a as [|x a IH]; [done|].
  cbn [string_forall]. rewrite andb_true_iff, negb_true_iff. intros [Hx Ha].
  rewrite app_cons. cbn [contains startswith]. by rewrite Hx, (IH Ha).
Qed.

(** A field that avoids the first character of the separator, followed
    by the separator, is the first field. *)
Lemma split_field c sep0 a b :
  string_forall (λ x, negb (Ascii.eqb c x)) a = true →
  split (a +:+ String c sep0 +:+ b) (String c sep0)
  = a :: split b (String c sep0).
Proof.
  intros Ha. rewrite split_prepend, split_sep_first by done.
  cbn [prepend]. by rewrite app_nil_r.
Qed.

(** The third field of [<word>_<word>_<n>] is [n]. *)
Lemma callback_user_id_words (w1 w2 : string) n :
  string_forall (λ x, negb (Ascii.eqb "_" x)) w1 = true →
  string_forall (λ x, negb (Ascii.eqb "_" x)) w2 = true →
  callback_user_id (w1 +:+ "_" +:+ w2 +:+ "_" +:+ str n) = inr n.
Proof.
  intros H1 H2. unfold callback_user_id.
  rewrite !split_field, split_avoid by (done || by apply str_avoids).
  cbn [index lookup list_lookup]. apply int_str.
Qed.

Lemma callback_user_id_end_dialog n :
  callback_user_id ("end_dialog_" +:+ str n) = inr n.
Proof. by apply (callback_user_id_words "end" "dialog"). Qed.

Lemma callback_user_id_block_user n :
  callback_user_id ("block_user_" +:+ str n) = inr n.
Proof. by apply (callback_user_id_words "block" "user"). Qed.

Lemma callback_user_id_unblock_user n :
  callback_user_id ("unblock_user_" +:+ str n) = inr n.
Proof. by apply (callback_user_id_words "unblock" "user"). Qed.

Lemma index_split_0 s sep : ∃ f, index (split s sep) 0 = inr f.
Proof.
  unfold split, index. pose proof (split_from_nonempty sep 0 s).
  destruct (split_from sep 0 s) as [|f fs]; [done|]. by exists f.
Qed.

(** The text forwarded to the operator, as [forward_to_admin] lays it
    out, with the parts around the tag made explicit. *)
Lemma forwarded_text_layout name n product_id t :
  admin_message_header name n product_id +:+ t
  = ("Сообщение от " +:+ name +:+ " ") +:+ "(ID: " +:+
    (str n +:+ ")" +:+ NL +:+ "ID продукта: " +:+ product_id +:+ NL +:+ NL +:+ t).
Proof. unfold admin_message_header. by rewrite !app_assoc. Qed.

(** The tag of a forwarded text reads back as the sender, provided the
    first ["(ID: "] of the text is the tag's, that is, the display name
    does not bring one in before it. *)
Lemma tag_user_id_forwarded name n product_id t :
  contains "(ID: " (name +:+ " (ID:") = false →
  tag_user_id (admin_message_header name n product_id +:+ t) = inr n.
Proof.
  intros Hname. unfold tag_user_id. rewrite forwarded_text_layout.
  pose proof (split_first_occurrence "(ID:" " " ("Сообщение от " +:+ name +:+ " ")
    (str n +:+ ")" +:+ NL +:+ "ID продукта: " +:+ product_id +:+ NL +:+ NL +:+ t))
    as Hsplit.
  change ("(ID:" +:+ " ") with "(ID: " in Hsplit.
  rewrite Hsplit; clear Hsplit.
  - rewrite (split_prepend "(" "ID: " (str n))
      by (by apply str_avoids).
    remember (split (")" +:+ NL +:+ "ID продукта: " +:+ product_id +:+ NL +:+ NL +:+ t)
                "(ID: ") as fields eqn:Ef.
    symmetry in Ef. unfold split in Ef.
    destruct fields as [|f fs]; [by apply split_from_nonempty in Ef|].
    cbn [prepend index lookup list_lookup].
    assert (∃ f', f = ")" +:+ f') as [f' ->].
    { rewrite app_cons, split_from_cons in Ef. cbn [startswith] in Ef.
      change (Ascii.eqb "(" ")") with false in Ef. cbv iota in Ef.
      pose proof (split_from_nonempty "(ID: " 0
        (EmptyString +:+ NL +:+ "ID продукта: " +:+ product_id +:+ NL +:+ NL +:+ t)).
      destruct (split_from "(ID: " 0 _) as [|g gs]; [done|].
      cbn [cons_head] in Ef. injection Ef as <- _. by exists g. }
    rewrite (split_field ")" EmptyString (str n)) by (by apply str_avoids).
    cbn [lookup list_lookup]. apply int_str.
  - rewrite !app_assoc. rewrite contains_avoid by done. exact Hname.
Qed.

Lemma tag_user_name_forwarded name n product_id t :
  ∃ parsed, tag_user_name (admin_message_header name n product_id +:+ t) = inr parsed.
Proof.
  unfold tag_user_name, admin_message_header. rewrite !app_assoc.
  rewrite (split_sep_first _ _ _ : split ("Сообщение от " +:+ _) "Сообщение от " = _).
  remember (split _ "Сообщение от ") as fields eqn:Ef.
  symmetry in Ef. unfold split in Ef.
  destruct fields as [|f fs]; [by apply split_from_nonempty in Ef|].
  cbn [index lookup list_lookup]. apply index_split_0.
Qed.

(** Without ["(ID: "] in the text there is no second field to index. *)
Lemma tag_user_id_untagged t :
  contains "(ID: " t = false → tag_user_id t = inl IndexError.
Proof.
  intros H. unfold tag_user_id. by rewrite split_no_sep.
Qed.

(** The tag parser fails with one of the two generic exceptions of
    indexing and of [int]. *)
Lemma tag_user_id_errors t e :
  tag_user_id t = inl e → e = IndexError ∨ e = ValueError.
Proof.
  unfold tag_user_id.
  destruct (index (split t "(ID: ") 1) as [e1|after] eqn:E1.
  - unfold index in E1. destruct (split t "(ID: " !! 1%nat); [done|].
    injection E1 as <-. intros [= <-]. by left.
  - destruct (index_split_0 after ")") as [f ->].
    intros H. right. by apply (PyFacts.int_fails f).
Qed.

End Parsing.

(** ** What the store helpers do *)

Section Store.

Lemma bind_run {A B} (m : M A) (k : A → M B) w :
  (m ≫= k) w = match m w with
               | (inr a, w') => k a w'
               | (inl e, w') => (inl e, w')
               end.
Proof. reflexivity. Qed.

Lemma get_dialog_messages_run user_id w :
  get_dialog_messages user_id w = (inr (ledger w user_id), w).
Proof. reflexivity. Qed.

Lemma get_active_dialogs_run w :
  get_active_dialogs w = (inr (active_dialogs (file w)), w).
Proof. reflexivity. Qed.

Lemma get_blocked_users_run w :
  get_blocked_users w = (inr (list_to_set (blocked_users (file w))), w).
Proof. reflexivity. Qed.

(** [add_active_dialog] tests an int against str keys: the gauge moves
    on every call. *)
Lemma add_active_dialog_run user_id product_id w :
  add_active_dialog user_id product_id w
  = (inr tt,
     add_log (INFO, "Added active dialog: user ID " +:+ Py.str user_id +:+
                    ", product ID " +:+ product_id)
       (set_file (set_active_dialogs
                    (<[Py.str user_id := product_id]> (active_dialogs (file w)))
                    (file w))
          (set_ACTIVE_DIALOGS (ACTIVE_DIALOGS w + 1) w))).
Proof. reflexivity. Qed.

Lemma remove_active_dialog_absent user_id w :
  has_session w user_id = false → remove_active_dialog user_id w = (inr tt, w).
Proof.
  unfold has_session, remove_active_dialog. intros H.
  rewrite bind_run. cbn [load_data]. by rewrite H.
Qed.

Lemma remove_active_dialog_present user_id w :
  has_session w user_id = true →
  remove_active_dialog user_id w
  = (inr tt,
     add_log (INFO, "Removed active dialog with user ID: " +:+ Py.str user_id)
       (set_file (set_active_dialogs
                    (delete (Py.str user_id) (active_dialogs (file w))) (file w))
          (set_ACTIVE_DIALOGS (ACTIVE_DIALOGS w - 1)
             (add_stdout "User removed from active dialogs." w)))).
Proof.
  unfold has_session, remove_active_dialog. intros H.
  rewrite bind_run. cbn [load_data]. by rewrite H.
Qed.

Lemma add_blocked_user_present user_id w :
  user_id ∈ blocked_users (file w) → add_blocked_user user_id w = (inr tt, w).
Proof.
  intros H. unfold add_blocked_user. rewrite bind_run. cbn [load_data].
  by rewrite bool_decide_eq_true_2.
Qed.

Lemma add_blocked_user_absent user_id w :
  user_id ∉ blocked_users (file w) →
  add_blocked_user user_id w
  = (inr tt,
     add_log (INFO, "User ID: " +:+ Py.str user_id +:+ " has been blocked")
       (set_file (set_blocked_users (blocked_users (file w) ++ [user_id])%list (file w))
          (set_BLOCKED_USERS (BLOCKED_USERS w + 1) w))).
Proof.
  intros H. unfold add_blocked_user. rewrite bind_run. cbn [load_data].
  by rewrite bool_decide_eq_false_2.
Qed.

Lemma key_in_lookup {V} (k : string) (d : gmap string V) :
  Py.key_in (Py.KStr k) d = match d !! k with Some _ => true | None => false end.
Proof.
  cbn [Py.key_in]. destruct (d !! k).
  - apply bool_decide_eq_true_2. eauto.
  - apply bool_decide_eq_false_2. by intros [? ?].
Qed.

Lemma add_dialog_message_present user_id h w :
  h ∈ ledger w user_id → add_dialog_message user_id h w = (inr tt, w).
Proof.
  unfold ledger, add_dialog_message. intros H.
  rewrite bind_run. cbn [load_data]. rewrite key_in_lookup.
  destruct (dialog_messages (file w) !! Py.str user_id) as [l|] eqn:El.
  - cbn [negb]. rewrite El. by rewrite bool_decide_eq_true_2.
  - by apply elem_of_nil in H.
Qed.

Lemma add_dialog_message_new user_id h w :
  h ∉ ledger w user_id →
  add_dialog_message user_id h w
  = (inr tt,
     add_log (INFO, "Added message ID: " +:+ Py.str h +:+
                    " to dialog with user ID: " +:+ Py.str user_id)
       (set_file (set_dialog_messages
                    (<[Py.str user_id := (ledger w user_id ++ [h])%list]>
                       (dialog_messages (file w)))
                    (file w))
          w)).
Proof.
  unfold ledger, add_dialog_message. intros H.
  rewrite bind_run. cbn [load_data]. rewrite key_in_lookup.
  destruct (dialog_messages (file w) !! Py.str user_id) as [l|] eqn:El.
  - cbn [negb]. rewrite El. cbn [default] in *. by rewrite bool_decide_eq_false_2.
  - cbn [negb set_dialog_messages dialog_messages]. rewrite lookup_insert_eq.
    cbn [default]. rewrite bool_decide_eq_false_2 by apply not_elem_of_nil.
    cbn [negb when]. rewrite insert_insert_eq. reflexivity.
Qed.

Lemma remove_dialog_messages_absent user_id w :
  dialog_messages (file w) !! Py.str user_id = None →
  remove_dialog_messages user_id w = (inr tt, w).
Proof.
  intros H. unfold remove_dialog_messages. rewrite bind_run. cbn [load_data].
  by rewrite key_in_lookup, H.
Qed.

Lemma remove_dialog_messages_present user_id l w :
  dialog_messages (file w) !! Py.str user_id = Some l →
  remove_dialog_messages user_id w
  = (inr tt,
     add_log (INFO, "Removed all messages from dialog with user ID: " +:+
                    Py.str user_id)
       (set_file (set_dialog_messages
                    (delete (Py.str user_id) (dialog_messages (file w))) (file w))
          w)).
Proof.
  intros H. unfold remove_dialog_messages. rewrite bind_run. cbn [load_data].
  by rewrite key_in_lookup, H.
Qed.

End Store.

(** ** What the Bot API wrappers do *)

Section Api.
Variable tg : Transport.

Lemma length_calls_add_call c w :
  length (calls (add_call c w)) = S (length (calls w)).
Proof. cbn [calls add_call]. rewrite length_app. cbn [length]. lia. Qed.

Lemma api_ok c w :
  tg_raises tg (length (calls w)) = None →
  api tg c w = (inr (length (calls w)), add_call c w).
Proof. intros H. unfold api. by rewrite H. Qed.

Lemma api_raises c w e :
  tg_raises tg (length (calls w)) = Some e →
  api tg c w = (inl (Py.TelegramError e), add_call c w).
Proof. intros H. unfold api. by rewrite H. Qed.

Lemma get_chat_first_name_ok user_id w :
  tg_raises tg (length (calls w)) = None →
  get_chat_first_name tg user_id w
  = (inr (tg_first_name tg (length (calls w))), add_call (GetChat user_id) w).
Proof. intros H. unfold get_chat_first_name. by rewrite bind_run, api_ok. Qed.

Lemma callback_query_answer_ok text w :
  tg_raises tg (length (calls w)) = None →
  callback_query_answer tg text w = (inr tt, add_call (AnswerCallback text) w).
Proof. intros H. unfold callback_query_answer. by rewrite bind_run, api_ok. Qed.

Lemma send_message_ok chat_id text markup w :
  tg_raises tg (length (calls w)) = None →
  send_message tg chat_id text markup w
  = (inr (tg_message_id tg (length (calls w))),
     add_call (SendMessage chat_id text markup) w).
Proof. intros H. unfold send_message. by rewrite bind_run, api_ok. Qed.

(** Whatever the transport answers, a wrapper only appends its call. *)
Lemma callback_query_answer_world text w :
  snd (callback_query_answer tg text w) = add_call (AnswerCallback text) w.
Proof.
  unfold callback_query_answer. rewrite bind_run. unfold api.
  by destruct (tg_raises tg (length (calls w))).
Qed.

Lemma send_message_world chat_id text markup w :
  snd (send_message tg chat_id text markup w)
  = add_call (SendMessage chat_id text markup) w.
Proof.
  unfold send_message. rewrite bind_run. unfold api.
  by destruct (tg_raises tg (length (calls w))).
Qed.

End Api.

(** ** The data file stays in order *)

Section Invariant.
Variable ADMIN_ID : Z.
Variable tg : Transport.

Create HintDb keeps.

Lemma keeps_bind {A B} P (m : M A) (k : A → M B) :
  keeps P m → (∀ a, keeps P (k a)) → keeps P (m ≫= k).
Proof.
  intros Hm Hk w Hw. rewrite bind_run. specialize (Hm w Hw).
  destruct (m w) as [[e|a] w']; cbn [snd] in *; [done|]. by apply Hk.
Qed.

(** A computation that leaves the file alone keeps everything. *)
Lemma keeps_same_file {A} P (m : M A) :
  (∀ w, file (snd (m w)) = file w) → keeps P m.
Proof. intros H w Hw. by rewrite H. Qed.

Lemma keeps_ret {A} P (a : A) : keeps P (ret a).
Proof. by apply keeps_same_file. Qed.

Lemma keeps_mret {A} P (a : A) : keeps P (mret a : M A).
Proof. by apply keeps_same_file. Qed.

Lemma keeps_raise {A} P e : keeps P (raise e : M A).
Proof. by apply keeps_same_file. Qed.

Lemma keeps_lift {A} P (r : Py.exn + A) : keeps P (lift r).
Proof. by apply keeps_same_file. Qed.

Lemma keeps_logger_info P msg : keeps P (logger_info msg).
Proof. by apply keeps_same_file. Qed.

Lemma keeps_logger_warning P msg : keeps P (logger_warning msg).
Proof. by apply keeps_same_file. Qed.

Lemma keeps_logger_error P msg : keeps P (logger_error msg).
Proof. by apply keeps_same_file. Qed.

Lemma keeps_api P c : keeps P (api tg c).
Proof.
  apply keeps_same_file. intros w. unfold api.
  by destruct (tg_raises tg (length (calls w))).
Qed.

#[local] Hint Resolve keeps_ret keeps_mret keeps_raise keeps_lift keeps_logger_info
  keeps_logger_warning keeps_logger_error keeps_api : keeps.

Lemma keeps_send_message P chat_id t markup : keeps P (send_message tg chat_id t markup).
Proof. unfold send_message. apply keeps_bind; auto with keeps. Qed.

Lemma keeps_send_photo P chat_id f t markup : keeps P (send_photo tg chat_id f t markup).
Proof. unfold send_photo. apply keeps_bind; auto with keeps. Qed.

Lemma keeps_send_document P chat_id f t markup :
  keeps P (send_document tg chat_id f t markup).
Proof. unfold send_document. apply keeps_bind; auto with keeps. Qed.

Lemma keeps_delete_message P chat_id h : keeps P (delete_message tg chat_id h).
Proof. unfold delete_message. apply keeps_bind; auto with keeps. Qed.

Lemma keeps_get_chat_first_name P user_id : keeps P (get_chat_first_name tg user_id).
Proof. unfold get_chat_first_name. apply keeps_bind; auto with keeps. Qed.

Lemma keeps_callback_query_answer P t : keeps P (callback_query_answer tg t).
Proof. unfold callback_query_answer. apply keeps_bind; auto with keeps. Qed.

Lemma keeps_get_active_dialogs P : keeps P get_active_dialogs.
Proof. by apply keeps_same_file. Qed.

Lemma keeps_get_blocked_users P : keeps P get_blocked_users.
Proof. by apply keeps_same_file. Qed.

Lemma keeps_get_dialog_messages P user_id : keeps P (get_dialog_messages user_id).
Proof. by apply keeps_same_file. Qed.

Lemma keeps_try_except {A} P (body : M A) handler :
  keeps P body → (∀ e, keeps P (handler e)) → keeps P (try_except body handler).
Proof.
  intros Hb Hh w Hw. unfold try_except. specialize (Hb w Hw).
  destruct (body w) as [[e|a] w']; cbn [snd] in *; [by apply Hh|done].
Qed.

Lemma keeps_for_each {A} P (l : list A) body :
  (∀ x, keeps P (body x)) → keeps P (for_each l body).
Proof.
  intros Hb. induction l as [|x l IH]; cbn [for_each]; [apply keeps_ret|].
  intros w Hw. unfold bind. specialize (Hb x w Hw).
  destruct (body x w) as [[e|[]] w']; cbn [snd] in *; [done|]. by apply IH.
Qed.

#[local] Hint Resolve keeps_send_message keeps_send_photo keeps_send_document
  keeps_delete_message keeps_get_chat_first_name keeps_callback_query_answer
  keeps_get_active_dialogs keeps_get_blocked_users keeps_get_dialog_messages : keeps.

(** The store helpers. *)

Lemma keeps_add_active_dialog user_id product_id :
  user_id ≠ ADMIN_ID →
  keeps (store_ok ADMIN_ID) (add_active_dialog user_id product_id).
Proof.
  intros Hne w [Hledger Hadmin]. rewrite add_active_dialog_run.
  cbn [snd file add_log set_file]. split; [done|].
  cbn [active_dialogs set_active_dialogs]. rewrite lookup_insert_ne; [done|].
  by intros ?%PyFacts.str_inj.
Qed.

Lemma keeps_remove_active_dialog user_id :
  keeps (store_ok ADMIN_ID) (remove_active_dialog user_id).
Proof.
  intros w [Hledger Hadmin]. destruct (has_session w user_id) eqn:Hs.
  - rewrite remove_active_dialog_present by done.
    cbn [snd file add_log set_file]. split; [done|].
    cbn [active_dialogs set_active_dialogs]. apply lookup_delete_None. by right.
  - by rewrite remove_active_dialog_absent.
Qed.

Lemma keeps_add_blocked_user user_id :
  keeps (store_ok ADMIN_ID) (add_blocked_user user_id).
Proof.
  intros w Hw. destruct (decide (user_id ∈ blocked_users (file w))).
  - by rewrite add_blocked_user_present.
  - by rewrite add_blocked_user_absent.
Qed.

Lemma keeps_remove_blocked_user user_id :
  keeps (store_ok ADMIN_ID) (remove_blocked_user user_id).
Proof.
  intros w Hw. unfold remove_blocked_user. rewrite bind_run. cbn [load_data].
  by destruct (bool_decide (user_id ∈ blocked_users (file w))).
Qed.

(** [add_dialog_message] appends a handle only when it is new, to a
record it never leaves empty. *)
Lemma keeps_add_dialog_message user_id h :
  keeps (store_ok ADMIN_ID) (add_dialog_message user_id h).
Proof.
  intros w [Hledger Hadmin]. destruct (decide (h ∈ ledger w user_id)) as [Hin|Hin].
  - by rewrite add_dialog_message_present.
  - rewrite add_dialog_message_new by done. split; [|done]. intros k l.
    cbn [snd file add_log set_file dialog_messages set_dialog_messages].
    destruct (decide (Py.str user_id = k)) as [<-|Hk].
    + rewrite lookup_insert_eq. intros [= <-]. split.
      * by destruct (ledger w user_id).
      * apply NoDup_app. repeat split; [|by intros x ? ->%list_elem_of_singleton
                                        |apply NoDup_singleton].
        unfold ledger.
        destruct (dialog_messages (file w) !! Py.str user_id) as [l0|] eqn:El;
          [by apply (Hledger _ _ El)|apply NoDup_nil_2].
    + rewrite lookup_insert_ne by done. apply Hledger.
Qed.

Lemma keeps_remove_dialog_messages user_id :
  keeps (store_ok ADMIN_ID) (remove_dialog_messages user_id).
Proof.
  intros w [Hledger Hadmin].
  destruct (dialog_messages (file w) !! Py.str user_id) as [l0|] eqn:El.
  - rewrite (remove_dialog_messages_present user_id l0) by done.
    split; [|done]. intros k l.
    cbn [snd file add_log set_file dialog_messages set_dialog_messages].
    intros [_ H]%lookup_delete_Some. by apply (Hledger k).
  - by rewrite remove_dialog_messages_absent.
Qed.

#[local] Hint Resolve keeps_remove_active_dialog keeps_add_blocked_user
  keeps_remove_blocked_user keeps_add_dialog_message keeps_remove_dialog_messages
  keeps_try_except keeps_for_each : keeps.

(** One step through a handler: a sequence, a branch, or a helper already
dealt with. *)
Ltac keeps_step :=
  first
    [ solve [eauto with keeps]
    | apply keeps_bind; [|intros ?]
    | match goal with
      | |- keeps _ (when ?b _) => destruct b; cbn [when]
      | |- keeps _ (if ?b then _ else _) => destruct b
      | |- keeps _ (match ?o with Some _ => _ | None => _ end) => destruct o
      end ].

(** The handlers. *)

Lemma keeps_need_help c : keeps (store_ok ADMIN_ID) (need_help ADMIN_ID tg c).
Proof.
  unfold need_help. cbv zeta. apply keeps_bind; [auto with keeps|]. intros blocked.
  destruct (uid (cq_from_user c) =? ADMIN_ID) eqn:Eadmin.
  - rewrite orb_true_r. auto with keeps.
  - apply Z.eqb_neq in Eadmin. rewrite orb_false_r. cbn [negb when].
    pose proof (keeps_add_active_dialog _ (Py.replace (cq_data c) "need_help_" EmptyString)
                  Eadmin).
    repeat keeps_step.
Qed.

Lemma keeps_forward_to_admin_filter P message :
  keeps P (forward_to_admin_filter message).
Proof. unfold forward_to_admin_filter. repeat keeps_step. Qed.

Lemma keeps_forward_to_admin message :
  keeps (store_ok ADMIN_ID) (forward_to_admin ADMIN_ID tg message).
Proof. unfold forward_to_admin. cbv zeta. repeat keeps_step. Qed.

Lemma keeps_admin_reply message : keeps (store_ok ADMIN_ID) (admin_reply tg message).
Proof. unfold admin_reply. repeat keeps_step. Qed.

Lemma keeps_end_dialog c : keeps (store_ok ADMIN_ID) (end_dialog ADMIN_ID tg c).
Proof.
  unfold end_dialog. cbv zeta. repeat keeps_step.
Qed.

Lemma keeps_block_user c : keeps (store_ok ADMIN_ID) (block_user tg c).
Proof. unfold block_user. repeat keeps_step. Qed.

Lemma keeps_unblock_user c : keeps (store_ok ADMIN_ID) (unblock_user tg c).
Proof. unfold unblock_user. repeat keeps_step. Qed.

Lemma keeps_dispatch_message message :
  keeps (store_ok ADMIN_ID) (dispatch_message ADMIN_ID tg message).
Proof.
  unfold dispatch_message.
  pose proof (keeps_forward_to_admin_filter (store_ok ADMIN_ID) message).
  pose proof (keeps_forward_to_admin message).
  pose proof (keeps_admin_reply message).
  repeat keeps_step.
Qed.

Lemma keeps_dispatch_callback_query c :
  keeps (store_ok ADMIN_ID) (dispatch_callback_query ADMIN_ID tg c).
Proof.
  unfold dispatch_callback_query.
  pose proof (keeps_need_help c). pose proof (keeps_end_dialog c).
  pose proof (keeps_block_user c). pose proof (keeps_unblock_user c).
  repeat keeps_step.
Qed.

End Invariant.

(** In every world the bot gets into, no record of the thread ledger is
empty or holds a handle twice, and the operator has no session. *)
Theorem reachable_store_ok (ADMIN_ID : Z) (w : World) :
  reachable ADMIN_ID w → store_ok ADMIN_ID (file w).
Proof.
  induction 1 as [|tg message w _ IH|tg c w _ IH|w _ IH].
  - split; [|done]. intros k l. cbn [initial_world file empty_data dialog_messages].
    by rewrite lookup_empty.
  - by apply keeps_dispatch_message.
  - by apply keeps_dispatch_callback_query.
  - exact IH.
Qed.

(** ** The claims *)

Section Claims.
Variable ADMIN_ID : Z.
Variable tg : Transport.

Lemma ledger_add_dialog_message user_id h w :
  ledger (snd (add_dialog_message user_id h w)) user_id
  = if bool_decide (h ∈ ledger w user_id) then ledger w user_id
    else (ledger w user_id ++ [h])%list.
Proof.
  case_bool_decide as Hin.
  - by rewrite add_dialog_message_present.
  - rewrite add_dialog_message_new by done. unfold ledger at 1.
    cbn [snd file add_log set_file dialog_messages set_dialog_messages].
    by rewrite lookup_insert_eq.
Qed.

(** C7.  [add_dialog_message] never records a handle twice: after a
    call with handle [h] the handle is in the record, a second call with
    the same [h] changes nothing at all (not the file, not the log), and
    a record without duplicates stays so.  In particular the record
    grows by the one handle [h] when [h] is new -- from an empty record,
    two calls with the same [h] leave a record of length 1 -- and keeps
    its length otherwise. *)
Theorem add_dialog_message_dedup (user_id h : Z) (w : World) :
  NoDup (ledger w user_id) →
  let w1 := snd (add_dialog_message user_id h w) in
  let w2 := snd (add_dialog_message user_id h w1) in
  add_dialog_message user_id h w1 = (inr tt, w1)
  ∧ ledger w2 user_id
    = (if bool_decide (h ∈ ledger w user_id) then ledger w user_id
       else ledger w user_id ++ [h])%list
  ∧ length (ledger w2 user_id)
    = (if bool_decide (h ∈ ledger w user_id) then length (ledger w user_id)
       else S (length (ledger w user_id)))
  ∧ NoDup (ledger w2 user_id).
Proof.
  intros Hnodup w1 w2.
  assert (h ∈ ledger w1 user_id) as Hin1.
  { subst w1. rewrite ledger_add_dialog_message.
    case_bool_decide; [done|]. apply elem_of_app. right. by apply list_elem_of_singleton. }
  assert (w2 = w1) as ->.
  { subst w2. by rewrite add_dialog_message_present. }
  split; [by apply add_dialog_message_present|].
  subst w1. rewrite ledger_add_dialog_message.
  case_bool_decide as Hin; [done|]. repeat split.
  - rewrite length_app. cbn [length]. lia.
  - apply NoDup_app. repeat split; [done| |apply NoDup_singleton].
    intros x Hx ->%list_elem_of_singleton. done.
Qed.

Lemma add_blocked_user_effect user_id w :
  let w1 := snd (add_blocked_user user_id w) in
  user_id ∈ blocked_users (file w1)
  ∧ BLOCKED_USERS w1
    = BLOCKED_USERS w + (if bool_decide (user_id ∈ blocked_users (file w)) then 0 else 1)
  ∧ active_dialogs (file w1) = active_dialogs (file w)
  ∧ dialog_messages (file w1) = dialog_messages (file w)
  ∧ ACTIVE_DIALOGS w1 = ACTIVE_DIALOGS w
  ∧ calls w1 = calls w.
Proof.
  cbv zeta. case_bool_decide as Hin.
  - rewrite add_blocked_user_present by done. cbn [snd]. repeat split; [done|lia].
  - rewrite add_blocked_user_absent by done.
    cbn [snd file add_log set_file blocked_users set_blocked_users BLOCKED_USERS
         set_BLOCKED_USERS active_dialogs dialog_messages ACTIVE_DIALOGS calls].
    repeat split. apply elem_of_app. right. by apply list_elem_of_singleton.
Qed.

Lemma remove_active_dialog_effect user_id w :
  let w1 := snd (remove_active_dialog user_id w) in
  active_dialogs (file w1) !! Py.str user_id = None
  ∧ blocked_users (file w1) = blocked_users (file w)
  ∧ dialog_messages (file w1) = dialog_messages (file w)
  ∧ BLOCKED_USERS w1 = BLOCKED_USERS w
  ∧ calls w1 = calls w
  ∧ ACTIVE_DIALOGS w1 = ACTIVE_DIALOGS w - (if has_session w user_id then 1 else 0)
  ∧ (has_session w user_id = false → w1 = w).
Proof.
  cbv zeta. destruct (has_session w user_id) eqn:Hs.
  - rewrite remove_active_dialog_present by done.
    cbn [snd file add_log set_file blocked_users active_dialogs set_active_dialogs
         BLOCKED_USERS set_ACTIVE_DIALOGS add_stdout dialog_messages calls ACTIVE_DIALOGS].
    rewrite lookup_delete_eq. by repeat split.
  - rewrite remove_active_dialog_absent by done. cbn [snd].
    repeat split; [|lia]. unfold has_session in Hs. rewrite key_in_lookup in Hs.
    by destruct (active_dialogs (file w) !! Py.str user_id).
Qed.

(** What [block_user] leaves behind when its two Bot API calls
    ([get_chat], then the answer to the callback query) succeed. *)
Lemma block_user_run (c : CallbackQuery) (user_id : Z) (w : World) :
  cq_data c = "block_user_" +:+ Py.str user_id →
  tg_raises tg (length (calls w)) = None →
  tg_raises tg (S (length (calls w))) = None →
  let user_name := tg_first_name tg (length (calls w)) in
  let w0 := add_call (AnswerCallback ("Пользователь " +:+ user_name +:+ " заблокирован."))
              (add_call (GetChat user_id) w) in
  let w1 := snd (add_blocked_user user_id w0) in
  let w2 := snd (remove_active_dialog user_id w1) in
  block_user tg c w
  = (inr tt,
     add_log (INFO, "User ID: " +:+ Py.str user_id +:+ ", Name: " +:+ user_name +:+
                    " has been blocked.") w2).
Proof.
  intros Hdata Hchat Hanswer. cbv zeta. unfold block_user.
  rewrite bind_run, Hdata, callback_user_id_block_user. cbn [lift].
  rewrite bind_run, get_chat_first_name_ok by done.
  rewrite bind_run, callback_query_answer_ok
    by (by rewrite length_calls_add_call).
  set (w0 := add_call _ (add_call _ w)).
  rewrite bind_run.
  assert (fst (add_blocked_user user_id w0) = inr tt) as Hfst.
  { destruct (decide (user_id ∈ blocked_users (file w0))).
    - by rewrite add_blocked_user_present.
    - by rewrite add_blocked_user_absent. }
  destruct (add_blocked_user user_id w0) as [r w1] eqn:E1.
  cbn [fst snd] in *. subst r.
  rewrite bind_run, get_active_dialogs_run, bind_run.
  fold (has_session w1 user_id).
  destruct (has_session w1 user_id) eqn:Hs; cbn [when].
  - by rewrite remove_active_dialog_present.
  - by rewrite remove_active_dialog_absent.
Qed.

(** C9 (as the code has it).  [block_user] for a user without a
    session, when its two Bot API calls succeed: the user is in the block list afterwards, the
    blocked-users gauge moves up by one exactly when the user was not in
    the list before (0 to 1 from the initial state), and the session
    store and the active-dialogs gauge are as they were. *)
Theorem block_user_without_session (c : CallbackQuery) (user_id : Z) (w : World) :
  cq_data c = "block_user_" +:+ Py.str user_id →
  has_session w user_id = false →
  tg_raises tg (length (calls w)) = None →
  tg_raises tg (S (length (calls w))) = None →
  let w' := snd (block_user tg c w) in
  fst (block_user tg c w) = inr tt
  ∧ user_id ∈ blocked_users (file w')
  ∧ BLOCKED_USERS w'
    = BLOCKED_USERS w + (if bool_decide (user_id ∈ blocked_users (file w)) then 0 else 1)
  ∧ active_dialogs (file w') = active_dialogs (file w)
  ∧ ACTIVE_DIALOGS w' = ACTIVE_DIALOGS w.
Proof.
  intros Hdata Hsession Hchat Hanswer. cbv zeta.
  rewrite (block_user_run c user_id w) by done. cbn [fst snd].
  set (w0 := add_call _ (add_call _ w)).
  destruct (add_blocked_user_effect user_id w0) as (Hin & Hg & Ha & _ & Hag & _).
  set (w1 := snd (add_blocked_user user_id w0)) in *.
  assert (has_session w1 user_id = false) as Hs1.
  { unfold has_session in *. by rewrite Ha. }
  destruct (remove_active_dialog_effect user_id w1) as (_ & _ & _ & _ & _ & _ & Hsame).
  rewrite (Hsame Hs1).
  cbn [file add_log BLOCKED_USERS ACTIVE_DIALOGS]. by repeat split.
Qed.

(** C4 (as the code has it).  After [block_user] has run for a user,
    its two Bot API calls succeeding, a message of that user is not forwarded: the dispatch
    filter of [forward_to_admin] is false, because the session is gone,
    so the dispatcher does not run [forward_to_admin]; and the handler,
    were it run all the same, stops at the blocked check with a warning
    and without a single Bot API call.  This holds for every payload and
    on any later transport [tg']. *)
Theorem blocked_user_is_not_forwarded (tg' : Transport) (c : CallbackQuery)
    (user_id : Z) (message : Message) (w : World) :
  cq_data c = "block_user_" +:+ Py.str user_id →
  uid (from_user message) = user_id →
  tg_raises tg (length (calls w)) = None →
  tg_raises tg (S (length (calls w))) = None →
  let w' := snd (block_user tg c w) in
  forward_to_admin_filter message w' = (inr false, w')
  ∧ fst (dispatch_message ADMIN_ID tg' message w') ≠ inr (Some H_forward_to_admin)
  ∧ fst (forward_to_admin ADMIN_ID tg' message w') = inr tt
  ∧ calls (snd (forward_to_admin ADMIN_ID tg' message w')) = calls w'.
Proof.
  intros Hdata Hfrom Hchat Hanswer. cbv zeta.
  rewrite (block_user_run c user_id w) by done. cbn [snd].
  set (w0 := add_call _ (add_call _ w)).
  destruct (add_blocked_user_effect user_id w0) as (Hin & _).
  set (w1 := snd (add_blocked_user user_id w0)) in *.
  destruct (remove_active_dialog_effect user_id w1) as (Hgone & Hbl & _).
  set (w2 := snd (remove_active_dialog user_id w1)) in *.
  remember (add_log _ w2) as w' eqn:Ew'.
  assert (active_dialogs (file w') !! Py.str user_id = None) as Hgone'.
  { by subst w'. }
  assert (user_id ∈ blocked_users (file w')) as Hin'.
  { subst w'. cbn [file add_log]. by rewrite Hbl. }
  clear Ew'.
  assert (forward_to_admin_filter message w' = (inr false, w')) as Hfilter.
  { unfold forward_to_admin_filter.
    rewrite bind_run, get_active_dialogs_run, Hfrom, key_in_lookup.
    by rewrite Hgone'. }
  split; [done|]. split.
  { unfold dispatch_message. rewrite bind_run, Hfilter.
    destruct (admin_reply_filter ADMIN_ID message); [|done].
    rewrite bind_run. by destruct (admin_reply tg' message w') as [[?|?] ?]. }
  unfold forward_to_admin.
  rewrite bind_run, get_active_dialogs_run, bind_run, get_blocked_users_run, Hfrom.
  rewrite bool_decide_eq_true_2 by (by apply elem_of_list_to_set).
  by split.
Qed.

(** The two answers [unblock_user] can give are different texts. *)
Lemma unblock_answers_differ (user_name : string) :
  "Пользователь " +:+ user_name +:+ " не был заблокирован."
  ≠ "Пользователь " +:+ user_name +:+ " разблокирован.".
Proof. intros H. do 2 apply String.app_inj in H. discriminate H. Qed.

(** C8 (as the code has it).  [unblock_user] for a user who is not in
    the block list, once [get_chat] has answered: the only thing the handler does is answer
    the callback query with the "was not blocked" text, which is not the
    "unblocked" text; the data file (the block list with it) and both
    gauges are untouched, whether or not that answer gets through. *)
Theorem unblock_user_not_blocked (c : CallbackQuery) (user_id : Z) (w : World) :
  cq_data c = "unblock_user_" +:+ Py.str user_id →
  user_id ∉ blocked_users (file w) →
  tg_raises tg (length (calls w)) = None →
  let user_name := tg_first_name tg (length (calls w)) in
  let not_blocked := "Пользователь " +:+ user_name +:+ " не был заблокирован." in
  let unblocked := "Пользователь " +:+ user_name +:+ " разблокирован." in
  let w' := snd (unblock_user tg c w) in
  calls w' = (calls w ++ [GetChat user_id; AnswerCallback not_blocked])%list
  ∧ not_blocked ≠ unblocked
  ∧ file w' = file w
  ∧ BLOCKED_USERS w' = BLOCKED_USERS w
  ∧ ACTIVE_DIALOGS w' = ACTIVE_DIALOGS w.
Proof.
  intros Hdata Hnot Hchat. cbv zeta. unfold unblock_user.
  rewrite bind_run, Hdata, callback_user_id_unblock_user. cbn [lift].
  rewrite bind_run, get_chat_first_name_ok by done.
  rewrite bind_run, get_blocked_users_run.
  rewrite bool_decide_eq_false_2
    by (cbn [file add_call]; by rewrite elem_of_list_to_set).
  rewrite bind_run.
  set (w0 := add_call (GetChat user_id) w).
  pose proof (callback_query_answer_world tg
    ("Пользователь " +:+ tg_first_name tg (length (calls w)) +:+ " не был заблокирован.")
    w0) as Hw.
  destruct (callback_query_answer tg _ w0) as [[e|[]] w1]; cbn [snd] in *; subst w1 w0;
    cbn [snd calls file add_call add_log BLOCKED_USERS ACTIVE_DIALOGS logger_warning];
    rewrite <- (assoc_L (++)); (repeat split); apply unblock_answers_differ.
Qed.

(** The dispatch filter of [forward_to_admin] lets a message through
    only if it has a photo or a text: the document branch and the
    unsupported-media branch of the handler are never reached through
    the dispatcher. *)
Lemma forward_to_admin_filter_passes (message : Message) (w w' : World) :
  forward_to_admin_filter message w = (inr true, w') →
  Py.truthy_list (photo message) = true ∨ ∃ t, text message = Some t.
Proof.
  unfold forward_to_admin_filter. rewrite bind_run, get_active_dialogs_run.
  destruct (Py.key_in _ _); [|done].
  destruct (Py.truthy_list (photo message)); [by left|].
  destruct (text message) as [t|]; [|done]. right. by exists t.
Qed.

(** C3 (the code does not do this).  A message without text and without
    photo -- a document, a sticker, a voice note -- from a user with a
    session makes the dispatch filter of [forward_to_admin] raise
    [AttributeError] on [message.text.startswith]: the update fails in
    the filter, no handler runs, nothing is forwarded and nothing is
    logged by the bot. *)
Theorem forward_filter_faults_without_text (message : Message) (w : World) :
  has_session w (uid (from_user message)) = true →
  text message = None →
  Py.truthy_list (photo message) = false →
  forward_to_admin_filter message w = (inl Py.AttributeError, w)
  ∧ dispatch_message ADMIN_ID tg message w = (inl Py.AttributeError, w).
Proof.
  intros Hs Htext Hphoto. unfold has_session in Hs.
  assert (forward_to_admin_filter message w = (inl Py.AttributeError, w)) as Hf.
  { unfold forward_to_admin_filter.
    by rewrite bind_run, get_active_dialogs_run, Hs, Hphoto, Htext. }
  split; [done|]. unfold dispatch_message. by rewrite bind_run, Hf.
Qed.

(** The deletion loop of [end_dialog]: every handle gets its
[DeleteMessage] call, a failing call leaves an error record and the loop
goes on. *)
Lemma deletion_loop_run (msgs : list Z) (w : World) :
  for_each msgs (λ message_id,
    try_except (delete_message tg ADMIN_ID message_id)
      (λ e, logger_error ("Failed to delete message " +:+ Py.str message_id +:+
                          ": " +:+ exn_text e))) w
  = (inr tt, after_deletions ADMIN_ID tg msgs w).
Proof.
  revert w. induction msgs as [|message_id msgs IH]; intros w.
  - cbn [for_each ret]. unfold after_deletions. cbn [map deletion_errors].
    rewrite !List.app_nil_r. by destruct w.
  - cbn [for_each]. unfold bind at 1. unfold try_except at 1.
    unfold delete_message at 1. rewrite bind_run. unfold api.
    destruct (tg_raises tg (length (calls w))) as [e|] eqn:Ee.
    + cbn [logger_error exn_text]. rewrite IH. f_equal.
      unfold after_deletions.
      cbn [file add_log add_call ACTIVE_DIALOGS BLOCKED_USERS calls log stdout
           map deletion_errors].
      rewrite Ee, length_app. cbn [length].
      rewrite Nat.add_1_r, <- !(assoc_L (++)). reflexivity.
    + cbn [ret]. rewrite IH. f_equal.
      unfold after_deletions.
      cbn [file add_log add_call ACTIVE_DIALOGS BLOCKED_USERS calls log stdout
           map deletion_errors].
      rewrite Ee, length_app. cbn [length].
      rewrite Nat.add_1_r, <- !(assoc_L (++)). reflexivity.
Qed.

(** The first half of [end_dialog]: delete, then clear the record. *)
Lemma end_dialog_cleanup_run (user_id : Z) (w : World) :
  dialog_messages (file w) !! Py.str user_id ≠ Some [] →
  ∃ w1,
    when (Py.truthy_list (Some (ledger w user_id)))
      (for_each (ledger w user_id) (λ message_id,
         try_except (delete_message tg ADMIN_ID message_id)
           (λ e, logger_error ("Failed to delete message " +:+ Py.str message_id +:+
                               ": " +:+ exn_text e)));;
       remove_dialog_messages user_id) w
    = (inr tt, w1)
    ∧ calls w1 = (calls w ++ map (DeleteMessage ADMIN_ID) (ledger w user_id))%list
    ∧ (∃ infos,
         log w1 = (log w ++ deletion_errors tg (length (calls w)) (ledger w user_id)
                   ++ infos)%list
         ∧ Forall (λ r, r.1 = INFO) infos)
    ∧ dialog_messages (file w1) !! Py.str user_id = None
    ∧ active_dialogs (file w1) = active_dialogs (file w).
Proof.
  intros Hrecord. unfold ledger.
  destruct (dialog_messages (file w) !! Py.str user_id) as [[|h l]|] eqn:El;
    [done| |]; cbn [default from_option id Py.truthy_list when].
  - rewrite bind_run, deletion_loop_run.
    rewrite (remove_dialog_messages_present user_id (h :: l)) by done.
    eexists. split; [reflexivity|].
    cbn [calls log file add_log set_file after_deletions dialog_messages
         set_dialog_messages active_dialogs].
    rewrite lookup_delete_eq. repeat split.
    eexists [_]. rewrite <- (assoc_L (++)). split; [done|]. by repeat constructor.
  - exists w. cbn [map deletion_errors]. rewrite !List.app_nil_r.
    repeat split; [|done]. exists []. by rewrite List.app_nil_r.
Qed.

Lemma remove_active_dialog_guarded (user_id : Z) (w : World) :
  when (Py.key_in (Py.KStr (Py.str user_id)) (active_dialogs (file w)))
    (remove_active_dialog user_id) w
  = (inr tt, snd (remove_active_dialog user_id w)).
Proof.
  fold (has_session w user_id). destruct (has_session w user_id) eqn:Hs; cbn [when].
  - by rewrite remove_active_dialog_present.
  - by rewrite remove_active_dialog_absent.
Qed.

(** C5 (as the code has it).  [end_dialog] for a user with [N] recorded
handles, when [get_chat] and the answer to the callback query succeed: the handler
makes exactly the [N] [DeleteMessage] calls, one for each recorded handle
in order, between those two calls; every deletion the transport lets fail
leaves one error record and the loop goes on, whichever deletions fail;
afterwards neither the thread ledger nor the session store has an entry
for the user, and the last call sends the user the keyboard of
[end_dialog].  The record of the user, if there is one, is not empty,
as is the case in every world the bot gets into ([reachable_store_ok]). *)
Theorem end_dialog_clears_user (c : CallbackQuery) (user_id : Z) (w : World) :
  let msgs := ledger w user_id in
  let n := length (calls w) in
  cq_data c = "end_dialog_" +:+ Py.str user_id →
  dialog_messages (file w) !! Py.str user_id ≠ Some [] →
  tg_raises tg n = None →
  tg_raises tg (S (n + length msgs)) = None →
  let w' := snd (end_dialog ADMIN_ID tg c w) in
  calls w'
  = (calls w ++ [GetChat user_id] ++ map (DeleteMessage ADMIN_ID) msgs ++
     [AnswerCallback ("Диалог с пользователем " +:+ tg_first_name tg n +:+ " завершен.");
      SendMessage user_id "Если у вас есть еще вопросы, нажмите 'Нужна помощь'."
        (Some end_dialog_keyboard)])%list
  ∧ length (map (DeleteMessage ADMIN_ID) msgs) = length msgs
  ∧ (∃ infos, log w' = (log w ++ deletion_errors tg (S n) msgs ++ infos)%list
              ∧ Forall (λ r, r.1 = INFO) infos)
  ∧ dialog_messages (file w') !! Py.str user_id = None
  ∧ active_dialogs (file w') !! Py.str user_id = None.
Proof.
  intros msgs n Hdata Hrecord Hchat Hanswer. cbv zeta. unfold end_dialog.
  rewrite bind_run, Hdata, callback_user_id_end_dialog. cbn [lift].
  rewrite bind_run, get_chat_first_name_ok by done.
  rewrite bind_run, get_dialog_messages_run.
  set (w0 := add_call (GetChat user_id) w).
  destruct (end_dialog_cleanup_run user_id w0 Hrecord)
    as (w1 & Hrun & Hcalls1 & (infos1 & Hlog1 & Hinfos1) & Hgone1 & Hactive1).
  change (ledger w0 user_id) with msgs in *.
  rewrite bind_run, Hrun.
  assert (length (calls w1) = S (n + length msgs)) as Hlen1.
  { rewrite Hcalls1, length_app, length_map. subst w0.
    rewrite length_calls_add_call. fold n. lia. }
  rewrite bind_run, callback_query_answer_ok by (by rewrite Hlen1).
  set (w2 := add_call _ w1).
  rewrite bind_run, get_active_dialogs_run, bind_run, remove_active_dialog_guarded.
  destruct (remove_active_dialog_effect user_id w2)
    as (Hgone3 & _ & Hdm3 & _ & Hcalls3 & _ & _).
  set (w3 := snd (remove_active_dialog user_id w2)) in *.
  assert (∃ infos3, log w3 = (log w2 ++ infos3)%list ∧ Forall (λ r, r.1 = INFO) infos3)
    as (infos3 & Hlog3 & Hinfos3).
  { subst w3. destruct (has_session w2 user_id) eqn:Hs.
    - rewrite remove_active_dialog_present by done. eexists [_].
      split; [done|]. by repeat constructor.
    - rewrite remove_active_dialog_absent by done. exists [].
      by rewrite List.app_nil_r. }
  rewrite bind_run.
  pose proof (send_message_world tg user_id
    "Если у вас есть еще вопросы, нажмите 'Нужна помощь'." (Some end_dialog_keyboard) w3)
    as Hsend.
  assert (∀ w4 infos4,
    calls w4 = (calls w3 ++ [SendMessage user_id
                  "Если у вас есть еще вопросы, нажмите 'Нужна помощь'."
                  (Some end_dialog_keyboard)])%list →
    log w4 = (log w3 ++ infos4)%list → Forall (λ r, r.1 = INFO) infos4 →
    file w4 = file w3 →
    calls w4
    = (calls w ++ [GetChat user_id] ++ map (DeleteMessage ADMIN_ID) msgs ++
       [AnswerCallback ("Диалог с пользователем " +:+ tg_first_name tg n +:+ " завершен.");
        SendMessage user_id "Если у вас есть еще вопросы, нажмите 'Нужна помощь'."
          (Some end_dialog_keyboard)])%list
    ∧ length (map (DeleteMessage ADMIN_ID) msgs) = length msgs
    ∧ (∃ infos, log w4 = (log w ++ deletion_errors tg (S n) msgs ++ infos)%list
                ∧ Forall (λ r, r.1 = INFO) infos)
    ∧ dialog_messages (file w4) !! Py.str user_id = None
    ∧ active_dialogs (file w4) !! Py.str user_id = None) as Hfinal.
  { intros w4 infos4 Hcalls4 Hlog4 Hinfos4 Hfile4. repeat split.
    - rewrite Hcalls4, Hcalls3. subst w2. cbn [calls add_call].
      rewrite Hcalls1. subst w0. cbn [calls add_call].
      by rewrite <- !(assoc_L (++)).
    - apply length_map.
    - exists (infos1 ++ infos3 ++ infos4)%list. split.
      + rewrite Hlog4, Hlog3. subst w2. cbn [log add_call].
        rewrite Hlog1. subst w0. rewrite length_calls_add_call.
        cbn [log add_call]. fold n. by rewrite <- !(assoc_L (++)).
      + by repeat (apply Forall_app; split).
    - rewrite Hfile4, Hdm3. subst w2. cbn [file add_call]. done.
    - by rewrite Hfile4. }
  destruct (send_message tg user_id _ _ w3) as [[e|sent] w4]; cbn [snd] in Hsend;
    subst w4; cbv beta iota; cbn [snd logger_info].
  - apply (Hfinal _ []); [done| |done|done]. by rewrite List.app_nil_r.
  - eapply (Hfinal _ [_]); [done|done| |done]. by repeat constructor.
Qed.

(** The calls of [end_dialog], however the transport answers: nothing when
the data carries no user id; [get_chat]; then one [delete_message] for
each handle on record and the answer to the callback query; then the
message to the user, with the keyboard of [end_dialog].  The handler
stops at [get_chat] or at the answer when that call fails. *)
Lemma end_dialog_calls (c : CallbackQuery) (w : World) :
  ∃ made,
    calls (snd (end_dialog ADMIN_ID tg c w)) = (calls w ++ made)%list
    ∧ Forall (λ call, call_markup call = None
                      ∨ call_markup call = Some end_dialog_keyboard) made
    ∧ ∀ user_id,
        cq_data c = "end_dialog_" +:+ Py.str user_id →
        tg_raises tg (length (calls w)) = None →
        tg_raises tg (S (length (calls w) + length (ledger w user_id))) = None →
        last made
        = Some (SendMessage user_id
                  "Если у вас есть еще вопросы, нажмите 'Нужна помощь'."
                  (Some end_dialog_keyboard)).
Proof.
  unfold end_dialog. rewrite bind_run.
  destruct (callback_user_id (cq_data c)) as [e|user_id] eqn:Hid; cbn [lift].
  { exists []. rewrite List.app_nil_r. split; [done|]. split; [constructor|].
    intros u Hdata. rewrite Hdata, callback_user_id_end_dialog in Hid. done. }
  assert (∀ u, cq_data c = "end_dialog_" +:+ Py.str u → u = user_id) as Huser.
  { intros u Hdata. rewrite Hdata, callback_user_id_end_dialog in Hid. congruence. }
  rewrite bind_run. unfold get_chat_first_name. rewrite bind_run. unfold api at 1.
  destruct (tg_raises tg (length (calls w))) as [e|] eqn:Hchat.
  { exists [GetChat user_id]. split; [done|]. split; [by repeat constructor|].
    by intros u _ ?. }
  cbn [ret]. set (w0 := add_call (GetChat user_id) w).
  rewrite bind_run, get_dialog_messages_run.
  change (ledger w0 user_id) with (ledger w user_id).
  assert (∃ w1,
    when (Py.truthy_list (Some (ledger w user_id)))
      (for_each (ledger w user_id) (λ message_id,
         try_except (delete_message tg ADMIN_ID message_id)
           (λ e, logger_error ("Failed to delete message " +:+ Py.str message_id +:+
                               ": " +:+ exn_text e)));;
       remove_dialog_messages user_id) w0
    = (inr tt, w1)
    ∧ calls w1 = (calls w0 ++ map (DeleteMessage ADMIN_ID) (ledger w user_id))%list)
    as (w1 & Hrun & Hcalls1).
  { assert (ledger w0 user_id = ledger w user_id) as Hsame by done.
    unfold ledger in *.
    destruct (dialog_messages (file w0) !! Py.str user_id) as [[|h l]|] eqn:El;
      cbn [default from_option id] in Hsame; rewrite <- Hsame;
      cbn [Py.truthy_list when map].
    - exists w0. by rewrite List.app_nil_r.
    - rewrite bind_run, deletion_loop_run.
      rewrite (remove_dialog_messages_present user_id (h :: l)) by done.
      eexists. split; [reflexivity|]. done.
    - exists w0. by rewrite List.app_nil_r. }
  rewrite bind_run, Hrun.
  set (deleted := map (DeleteMessage ADMIN_ID) (ledger w user_id)) in *.
  assert (Forall (λ call, call_markup call = None
                          ∨ call_markup call = Some end_dialog_keyboard) deleted)
    as Hdeleted.
  { subst deleted. apply Forall_forall. intros call (h & -> & _)%list_elem_of_fmap.
    by left. }
  assert (length (calls w1) = S (length (calls w) + length (ledger w user_id))) as Hlen1.
  { rewrite Hcalls1, length_app. subst deleted w0.
    rewrite length_map, length_calls_add_call. lia. }
  rewrite bind_run. unfold callback_query_answer. rewrite bind_run. unfold api at 1.
  rewrite Hlen1.
  destruct (tg_raises tg (S (length (calls w) + length (ledger w user_id))))
    as [e|] eqn:Hanswer.
  { eexists (GetChat user_id :: deleted ++ [AnswerCallback _])%list.
    cbn [snd calls add_call]. rewrite Hcalls1. subst w0. cbn [calls add_call].
    rewrite <- !(assoc_L (++)). split; [done|]. split.
    - constructor; [by left|]. apply Forall_app. split; [done|]. by repeat constructor.
    - intros u Hdata _ Hok. rewrite (Huser u Hdata) in Hok. congruence. }
  cbn [ret]. set (w2 := add_call _ w1).
  rewrite bind_run, get_active_dialogs_run, bind_run, remove_active_dialog_guarded.
  destruct (remove_active_dialog_effect user_id w2) as (_ & _ & _ & _ & Hcalls3 & _).
  set (w3 := snd (remove_active_dialog user_id w2)) in *.
  rewrite bind_run.
  pose proof (send_message_world tg user_id
    "Если у вас есть еще вопросы, нажмите 'Нужна помощь'." (Some end_dialog_keyboard) w3)
    as Hsend.
  eexists (GetChat user_id :: deleted ++ [AnswerCallback _; SendMessage user_id _ _])%list.
  split; [|split].
  - destruct (send_message tg user_id _ _ w3) as [[e|sent] w4]; cbn [snd] in Hsend;
      subst w4; cbv beta iota; cbn [snd logger_info calls add_log add_call];
      rewrite Hcalls3; subst w2; cbn [calls add_call]; rewrite Hcalls1; subst w0;
      cbn [calls add_call]; by rewrite <- !(assoc_L (++)).
  - constructor; [by left|]. apply Forall_app. split; [done|].
    constructor; [by left|]. constructor; [by right|constructor].
  - intros u Hdata _ _. rewrite (Huser u Hdata).
    assert (∀ (l : list Call) x y z, last (x :: l ++ [y; z]) = Some z) as Hl.
    { intros l. induction l as [|x' l IH]; intros x y z; [done|]. apply (IH x'). }
    apply Hl.
Qed.

(** C10.  Whatever [end_dialog] is called with and however the transport
answers, every keyboard it sends is made of buttons with the callback
data ["need_help"]; and when its [get_chat] and its answer to the
callback query succeed, its last call does send the user a message with
such a keyboard.  That data does not start with ["need_help_"], so the
filter of [need_help] rejects it, and so do the filters of the other
three callback handlers: pressing the button runs no handler and changes
nothing, whoever presses it and in whatever state. *)
Theorem end_dialog_button_is_dead (tg' : Transport) (c : CallbackQuery)
    (user : User) (w w' : World) :
  ∃ made,
    calls (snd (end_dialog ADMIN_ID tg c w)) = (calls w ++ made)%list
    ∧ (∀ call markup button,
         call ∈ made → call_markup call = Some markup → button ∈ concat markup →
         callback_data button = "need_help"
         ∧ need_help_filter (mkCallbackQuery user (callback_data button)) = false
         ∧ dispatch_callback_query ADMIN_ID tg'
             (mkCallbackQuery user (callback_data button)) w'
           = (inr None, w'))
    ∧ ∀ user_id,
        cq_data c = "end_dialog_" +:+ Py.str user_id →
        tg_raises tg (length (calls w)) = None →
        tg_raises tg (S (length (calls w) + length (ledger w user_id))) = None →
        last made
        = Some (SendMessage user_id
                  "Если у вас есть еще вопросы, нажмите 'Нужна помощь'."
                  (Some [[mkButton "Нужна помощь" "need_help"]])).
Proof.
  destruct (end_dialog_calls c w) as (made & Hcalls & Hmade & Hlast).
  exists made. split; [done|]. split.
  - intros call markup button Hcall Hmarkup Hbutton.
    rewrite Forall_forall in Hmade. destruct (Hmade call Hcall) as [Hnone|Hsome];
      [congruence|].
    assert (markup = end_dialog_keyboard) as -> by congruence.
    cbn [end_dialog_keyboard concat app] in Hbutton.
    apply list_elem_of_singleton in Hbutton as ->. by repeat split.
  - intros user_id Hdata Hchat Hanswer. by apply Hlast.
Qed.

(** The round trip through the two handlers of the relay. *)
Lemma round_trip_relay (message answer : Message) (t reply product_id : string)
    (w : World) :
  let user_id := uid (from_user message) in
  let user_name := full_name (from_user message) in
  let n := length (calls w) in
  let sent := tg_message_id tg n in
  let forwarded := admin_message_header user_name user_id product_id +:+ t in
  text message = Some t →
  Py.truthy_str (Some t) = true →
  Py.startswith t "/" = false →
  active_dialogs (file w) !! Py.str user_id = Some product_id →
  active_dialogs (file w) !! Py.str ADMIN_ID = None →
  user_id ∉ blocked_users (file w) →
  sent ∉ ledger w user_id →
  message_id answer ∉ ledger w user_id →
  Py.contains "(ID: " (user_name +:+ " (ID:") = false →
  uid (from_user answer) = ADMIN_ID →
  reply_to_message answer = Some (mkReplied (Some forwarded)) →
  text answer = Some reply →
  sent ≠ message_id answer →
  tg_raises tg n = None →
  tg_raises tg (S n) = None →
  let r1 := dispatch_message ADMIN_ID tg message w in
  let r2 := dispatch_message ADMIN_ID tg answer (snd r1) in
  fst r1 = inr (Some H_forward_to_admin)
  ∧ fst r2 = inr (Some H_admin_reply)
  ∧ calls (snd r2)
    = (calls w ++ [SendMessage ADMIN_ID forwarded (Some (admin_keyboard user_id));
                   SendMessage user_id reply None])%list
  ∧ ledger (snd r2) user_id = (ledger w user_id ++ [sent; message_id answer])%list.
Proof.
  intros user_id user_name n sent forwarded Htext Htruthy Hslash Hactive Hadmin
    Hblocked Hsent Hanswer Hname Hfrom Hreplied Hreply Hids Hsend1 Hsend2.
  assert (dispatch_message ADMIN_ID tg message w
          = (inr (Some H_forward_to_admin),
             add_log (INFO, "Text message from user ID: " +:+ Py.str user_id +:+
                            ", Name: " +:+ user_name +:+ ", Product ID: " +:+
                            product_id +:+ " forwarded to admin.")
               (snd (add_dialog_message user_id sent
                  (add_call (SendMessage ADMIN_ID forwarded
                               (Some (admin_keyboard user_id))) w))))) as Hrun1.
  { unfold dispatch_message. rewrite bind_run.
    assert (forward_to_admin_filter message w = (inr true, w)) as ->.
    { unfold forward_to_admin_filter.
      rewrite bind_run, get_active_dialogs_run, key_in_lookup.
      fold user_id. rewrite Hactive, Htext, Hslash.
      by destruct (Py.truthy_list (photo message)). }
    rewrite bind_run. unfold forward_to_admin. fold user_id user_name.
    rewrite bind_run, get_active_dialogs_run, bind_run, get_blocked_users_run.
    rewrite bool_decide_eq_false_2 by (by rewrite elem_of_list_to_set).
    rewrite Hactive, Htext, Htruthy. cbn [default from_option id].
    fold forwarded.
    rewrite bind_run, send_message_ok by done. fold n sent.
    rewrite bind_run.
    rewrite add_dialog_message_new by done.
    reflexivity. }
  cbv zeta. rewrite Hrun1. cbn [fst snd].
  set (w0 := add_call _ w) in *.
  assert (ledger w0 user_id = ledger w user_id) as Hledger0 by done.
  rewrite add_dialog_message_new by (by rewrite Hledger0).
  cbn [snd]. rewrite Hledger0.
  set (w1 := add_log _ (add_log _ (set_file _ w0))).
  assert (ledger w1 user_id = (ledger w user_id ++ [sent])%list) as Hledger1.
  { unfold ledger at 1. subst w1.
    cbn [file add_log set_file dialog_messages set_dialog_messages].
    by rewrite lookup_insert_eq. }
  assert (calls w1 = (calls w ++ [SendMessage ADMIN_ID forwarded
                                    (Some (admin_keyboard user_id))])%list)
    as Hcalls1 by done.
  assert (active_dialogs (file w1) = active_dialogs (file w)) as Hactive1 by done.
  assert (message_id answer ∉ ledger w1 user_id) as Hnew.
  { rewrite Hledger1, elem_of_app, list_elem_of_singleton. intros [?|?]; [done|].
    by apply Hids. }
  clearbody w1. clear w0 Hledger0 Hrun1.
  destruct (tag_user_name_forwarded user_name user_id product_id t) as [parsed Hparsed].
  fold forwarded in Hparsed.
  assert (dispatch_message ADMIN_ID tg answer w1
          = (inr (Some H_admin_reply),
             add_log (INFO, "Admin replied to message from user ID: " +:+
                            Py.str user_id +:+ ", Name: " +:+ parsed +:+ ".")
               (add_call (SendMessage user_id reply None)
                  (snd (add_dialog_message user_id (message_id answer) w1))))) as Hrun2.
  { unfold dispatch_message. rewrite bind_run.
    assert (forward_to_admin_filter answer w1 = (inr false, w1)) as ->.
    { unfold forward_to_admin_filter.
      rewrite bind_run, get_active_dialogs_run, key_in_lookup.
      by rewrite Hfrom, Hactive1, Hadmin. }
    unfold admin_reply_filter. rewrite Hfrom, Z.eqb_refl, Hreplied.
    rewrite bool_decide_eq_true_2 by eauto. cbn [andb].
    rewrite bind_run. unfold admin_reply. rewrite Hreplied.
    cbn [mbind option_bind replied_text].
    rewrite bind_run. cbn [ret].
    rewrite bind_run. unfold forwarded at 1.
    rewrite tag_user_id_forwarded by done. cbn [lift]. fold forwarded.
    rewrite bind_run, Hparsed. cbn [lift].
    rewrite bind_run.
    destruct (add_dialog_message user_id (message_id answer) w1) as [r w2] eqn:E2.
    assert (r = inr tt ∧ calls w2 = calls w1) as [-> Hcalls2].
    { rewrite add_dialog_message_new in E2 by done.
      by injection E2 as <- <-. }
    rewrite Hreply, bind_run, send_message_ok
      by (rewrite Hcalls2, Hcalls1, length_app; cbn [length]; by rewrite Nat.add_1_r).
    reflexivity. }
  rewrite Hrun2. cbn [fst snd].
  rewrite add_dialog_message_new by done.
  rewrite Hledger1. clear - Hcalls1. generalize (ledger w user_id). intros old.
  unfold ledger.
  cbn [snd calls file add_log add_call set_file dialog_messages set_dialog_messages].
  rewrite lookup_insert_eq, Hcalls1, <- !(assoc_L (++)). by repeat split.
Qed.

(** A message that [Command("start")] turns down goes to the relay. *)
Lemma dp_message_relay (Command_start : Message → Py.exn + bool)
    (message : Message) (s : Shop) :
  Command_start message = inr false →
  let d := dispatch_message ADMIN_ID tg message (relay s) in
  dp_message Command_start ADMIN_ID tg message s
  = (match fst d with inl e => inl e | inr h => inr (H_relay <$> h) end,
     set_relay (snd d) s).
Proof.
  intros H. cbv zeta. unfold dp_message. rewrite H.
  by destruct (dispatch_message ADMIN_ID tg message (relay s)).
Qed.

(** C6 (as the code has it).  A user with a session, not blocked, sends
a text [t] that is not empty and does not start with a slash; the
operator, who has no session, replies with the text [reply] to the
message the bot forwarded; neither message is a [/start] command to
[Command("start")].  If the first ["(ID: "] of the forwarded text is the
tag's -- the display name does not bring one in before it --, the two
sends succeed, and the identifiers of the forwarded message and of the
reply differ and are not on the record of the user yet, then the
dispatcher runs [forward_to_admin] and then [admin_reply], the user is
sent [reply] as it is, and the record of the user has grown by exactly
the two handles, the forwarded message and the reply: it holds exactly
these two when it was empty. *)
Theorem round_trip (Command_start : Message → Py.exn + bool)
    (message answer : Message) (t reply product_id : string) (s : Shop) :
  let w := relay s in
  let user_id := uid (from_user message) in
  let user_name := full_name (from_user message) in
  let n := length (calls w) in
  let sent := tg_message_id tg n in
  let forwarded := admin_message_header user_name user_id product_id +:+ t in
  Command_start message = inr false →
  Command_start answer = inr false →
  text message = Some t →
  Py.truthy_str (Some t) = true →
  Py.startswith t "/" = false →
  active_dialogs (file w) !! Py.str user_id = Some product_id →
  active_dialogs (file w) !! Py.str ADMIN_ID = None →
  user_id ∉ blocked_users (file w) →
  sent ∉ ledger w user_id →
  message_id answer ∉ ledger w user_id →
  Py.contains "(ID: " (user_name +:+ " (ID:") = false →
  uid (from_user answer) = ADMIN_ID →
  reply_to_message answer = Some (mkReplied (Some forwarded)) →
  text answer = Some reply →
  sent ≠ message_id answer →
  tg_raises tg n = None →
  tg_raises tg (S n) = None →
  let r1 := dp_message Command_start ADMIN_ID tg message s in
  let r2 := dp_message Command_start ADMIN_ID tg answer (snd r1) in
  fst r1 = inr (Some (H_relay H_forward_to_admin))
  ∧ fst r2 = inr (Some (H_relay H_admin_reply))
  ∧ calls (relay (snd r2))
    = (calls w ++ [SendMessage ADMIN_ID forwarded (Some (admin_keyboard user_id));
                   SendMessage user_id reply None])%list
  ∧ ledger (relay (snd r2)) user_id
    = (ledger w user_id ++ [sent; message_id answer])%list
  ∧ (ledger w user_id = [] →
     length (ledger (relay (snd r2)) user_id) = 2%nat).
Proof.
  intros w user_id user_name n sent forwarded Hcommand1 Hcommand2 Htext Htruthy
    Hslash Hactive Hadmin Hblocked Hsent Hanswer Hname Hfrom Hreplied Hreply Hids
    Hsend1 Hsend2.
  destruct (round_trip_relay message answer t reply product_id w
              Htext Htruthy Hslash Hactive Hadmin Hblocked Hsent Hanswer Hname Hfrom
              Hreplied Hreply Hids Hsend1 Hsend2)
    as (Hrun1 & Hrun2 & Hcalls & Hledger).
  cbv zeta in *. rewrite (dp_message_relay _ message s Hcommand1). fold w.
  cbn [fst snd]. rewrite (dp_message_relay _ answer _ Hcommand2).
  cbn [fst snd relay set_relay]. subst user_id user_name sent n forwarded.
  rewrite Hrun1, Hrun2, Hcalls, Hledger.
  cbn [fmap option_fmap option_map]. repeat split.
  intros Hempty. by rewrite Hempty.
Qed.

(** The gauge moves on every accepted help request, session or no
session: [add_active_dialog] looks the int [user_id] up among str keys. *)
Lemma need_help_counts_every_call (c : CallbackQuery) (w : World) :
  let user_id := uid (cq_from_user c) in
  user_id ∉ blocked_users (file w) →
  user_id ≠ ADMIN_ID →
  tg_raises tg (length (calls w)) = None →
  tg_raises tg (S (length (calls w))) = None →
  let w' := snd (need_help ADMIN_ID tg c w) in
  ACTIVE_DIALOGS w' = ACTIVE_DIALOGS w + 1
  ∧ active_dialogs (file w')
    = <[Py.str user_id := Py.replace (cq_data c) "need_help_" EmptyString]>
        (active_dialogs (file w))
  ∧ blocked_users (file w') = blocked_users (file w).
Proof.
  intros user_id Hblocked Hadmin Hanswer Hsend. cbv zeta. unfold need_help.
  fold user_id. rewrite bind_run, get_blocked_users_run.
  rewrite bool_decide_eq_false_2 by (by rewrite elem_of_list_to_set).
  apply Z.eqb_neq in Hadmin. rewrite Hadmin. cbn [orb negb when].
  rewrite bind_run, callback_query_answer_ok by done.
  rewrite bind_run, send_message_ok by (by rewrite length_calls_add_call).
  rewrite bind_run, add_active_dialog_run. by repeat split.
Qed.

(** So [n] presses of the help button by the same user, all accepted,
move the gauge by [n], while the session store gains the one entry of the
user. *)
Lemma need_help_gauge_counts_presses (c : CallbackQuery) (n : nat) (w : World) :
  let user_id := uid (cq_from_user c) in
  user_id ∉ blocked_users (file w) →
  user_id ≠ ADMIN_ID →
  (∀ i, tg_raises tg i = None) →
  let w' := press_need_help ADMIN_ID tg c n w in
  ACTIVE_DIALOGS w' = ACTIVE_DIALOGS w + Z.of_nat n
  ∧ active_dialogs (file w')
    = match n with
      | O => active_dialogs (file w)
      | S _ => <[Py.str user_id := Py.replace (cq_data c) "need_help_" EmptyString]>
                 (active_dialogs (file w))
      end.
Proof.
  intros user_id Hblocked Hadmin Htg. cbv zeta. revert w Hblocked.
  induction n as [|n IH]; intros w Hblocked; cbn [press_need_help].
  - split; [lia|done].
  - destruct (need_help_counts_every_call c w Hblocked Hadmin (Htg _) (Htg _))
      as (Hgauge & Hstore & Hsame).
    destruct (IH (snd (need_help ADMIN_ID tg c w))) as [-> ->];
      [by rewrite Hsame|].
    split; [lia|]. rewrite Hstore. destruct n; [done|]. apply insert_insert_eq.
Qed.

(** The parse failures of [tag_user_id]: a text with ["(ID: "] in it has
a second field, so only [int] can fail. *)
Lemma split_two_fields (sep s : string) :
  sep ≠ EmptyString → Py.contains sep s = true → (2 ≤ length (Py.split s sep))%nat.
Proof.
  intros Hsep. unfold Py.split. induction s as [|x s IH].
  - cbn [Py.contains]. by destruct sep.
  - cbn [Py.contains]. rewrite PyFacts.split_from_cons.
    destruct (Py.startswith (String x s) sep) eqn:Hst.
    + intros _. cbn [length].
      pose proof (PyFacts.split_from_nonempty sep (Nat.pred (String.length sep)) s) as H.
      revert H. destruct (Py.split_from sep (Nat.pred (String.length sep)) s);
        [done|]. cbn [length]. lia.
    + cbn [orb]. intros H%IH.
      destruct (Py.split_from sep 0 s); cbn [length Py.cons_head] in *; lia.
Qed.

(** C2 (as the code has it).  When the replied-to message has no text,
or its text has no tag that parses, [admin_reply] stops on the exception
of the failed step -- [AttributeError] from [split] on [None] when there
is no text, [IndexError] from the indexing when the text has no
["(ID: "], [ValueError] from [int] otherwise -- before it has done
anything: it raises that exception to the dispatcher, and nothing has
been recorded, sent or logged. *)
Theorem admin_reply_unparsed_tag (message : Message) (replied : Replied)
    (e : Py.exn) (w : World) :
  reply_to_message message = Some replied →
  match replied_text replied with
  | Some t => tag_user_id t = inl e
  | None => e = Py.AttributeError
  end →
  admin_reply tg message w = (inl e, w)
  ∧ e = match replied_text replied with
        | Some t => if Py.contains "(ID: " t then Py.ValueError else Py.IndexError
        | None => Py.AttributeError
        end.
Proof.
  intros Hreplied Htag. unfold admin_reply. rewrite Hreplied.
  cbn [mbind option_bind]. destruct (replied_text replied) as [t|]; [|by subst e].
  split.
  - rewrite bind_run. cbn [ret]. by rewrite bind_run, Htag.
  - destruct (Py.contains "(ID: " t) eqn:Hc.
    + apply split_two_fields in Hc; [|done].
      unfold tag_user_id in Htag. unfold Py.index at 1 in Htag.
      destruct (Py.split t "(ID: ") as [|f0 [|f1 fs]] eqn:Es;
        cbn [length] in Hc; [lia|lia|].
      cbn [lookup list_lookup] in Htag.
      destruct (index_split_0 f1 ")") as [f Hf]. rewrite Hf in Htag.
      by apply (PyFacts.int_fails f).
    + rewrite tag_user_id_untagged in Htag by done. congruence.
Qed.

End Claims.

(** ** The claims on sample runs *)

(** C1 (the code does not do this).  From the empty store, user 42
presses the help button of product 17 twice.  The session store ends
with the one entry of the user, but the gauge of active dialogs has moved
twice: it reads 2 with one dialog active. *)
Theorem need_help_twice_counts_twice :
  let c := press 42 "Bob" "need_help_17" in
  let r1 := dispatch_callback_query operator reliable c initial_world in
  let r2 := dispatch_callback_query operator reliable c (snd r1) in
  fst r1 = inr (Some H_need_help)
  ∧ fst r2 = inr (Some H_need_help)
  ∧ active_dialogs (file (snd r2)) = {["42" := "17"]}
  ∧ size (active_dialogs (file (snd r2))) = 1%nat
  ∧ ACTIVE_DIALOGS (snd r1) = 1
  ∧ ACTIVE_DIALOGS (snd r2) = 2.
Proof. cbv zeta. repeat split; vm_compute; reflexivity. Qed.

(** C2, the claim as the spec words it, fails: the operator replies to a
message of the chat that carries no tag.  The handler runs and stops on
[IndexError]; the bot has logged nothing, no warning either. *)
Lemma admin_reply_untagged_raises_IndexError :
  let r := dispatch_message operator reliable (operator_reply 500 "hello" "hi")
             initial_world in
  fst r = inl Py.IndexError
  ∧ log (snd r) = []
  ∧ snd r = initial_world.
Proof. cbv zeta. repeat split; vm_compute; reflexivity. Qed.

Lemma admin_reply_unparsed_tag_witness :
  let message := operator_reply 500 "hello" "hi" in
  reply_to_message message = Some (mkReplied (Some "hello"))
  ∧ tag_user_id "hello" = inl Py.IndexError
  ∧ admin_reply reliable message initial_world = (inl Py.IndexError, initial_world).
Proof.
  cbv zeta. split; [reflexivity|]. split; [reflexivity|].
  apply (admin_reply_unparsed_tag reliable (operator_reply 500 "hello" "hi")
           (mkReplied (Some "hello")) Py.IndexError initial_world); reflexivity.
Defined.

(** C4, the claim as the spec words it, fails: [block_user] answers the
callback query before it blocks.  The operator presses the block button
for user 7, who has a session, and the answer to the callback query
fails: the handler stops there, user 7 is not on the block list and
keeps the session, and the next text of user 7 is forwarded to the
operator. *)
Lemma block_user_unanswered_does_not_block :
  let r := dispatch_callback_query operator (fails_at 1)
             (press operator "Operator" "block_user_7") busy_world in
  let r' := dp_message slash_start operator reliable (text_message 8 7 "Bob" "hello")
              (shop_of (snd r) [cream; soap]) in
  fst r = inl (Py.TelegramError "Bad Request: query is too old")
  ∧ calls (snd r) = [GetChat 7; AnswerCallback "Пользователь Ann заблокирован."]
  ∧ blocked_users (file (snd r)) = []
  ∧ has_session (snd r) 7 = true
  ∧ fst r' = inr (Some (H_relay H_forward_to_admin))
  ∧ last (calls (relay (snd r')))
    = Some (SendMessage operator (admin_message_header "Bob" 7 "17" +:+ "hello")
              (Some (admin_keyboard 7))).
Proof. cbv zeta. repeat split; vm_compute; reflexivity. Qed.

(** C5, the claim as the spec words it, fails: [get_chat] and the answer
to the callback query are outside the [try] of the deletion loop.  User 7
has a session and two handles on record.  When [get_chat] fails,
[end_dialog] stops before the loop: no deletion is attempted, and the
record and the session stay.  When the answer fails, after the two
deletions, the record is gone but the session stays. *)
Lemma end_dialog_stops_on_failed_call :
  let c := press operator "Operator" "end_dialog_7" in
  let r := end_dialog operator (fails_at 0) c busy_world in
  let r' := end_dialog operator (fails_at 3) c busy_world in
  ledger busy_world 7 = [5; 6]
  ∧ fst r = inl (Py.TelegramError "Bad Request: query is too old")
  ∧ calls (snd r) = [GetChat 7]
  ∧ ledger (snd r) 7 = [5; 6]
  ∧ has_session (snd r) 7 = true
  ∧ fst r' = inl (Py.TelegramError "Bad Request: query is too old")
  ∧ calls (snd r')
    = [GetChat 7; DeleteMessage operator 5; DeleteMessage operator 6;
       AnswerCallback "Диалог с пользователем Ann завершен."]
  ∧ ledger (snd r') 7 = []
  ∧ has_session (snd r') 7 = true.
Proof. cbv zeta. repeat split; vm_compute; reflexivity. Qed.

(** C8, the claim as the spec words it, fails: [unblock_user] asks for
the name of the user first.  When [get_chat] fails, the handler stops on
that exception and the operator is told nothing, neither that the user
was not blocked nor anything else. *)
Lemma unblock_user_unreachable_tells_nothing :
  let r := unblock_user (fails_at 0) (press operator "Operator" "unblock_user_7")
             initial_world in
  (7 ∉ blocked_users (file initial_world))
  ∧ fst r = inl (Py.TelegramError "Bad Request: query is too old")
  ∧ calls (snd r) = [GetChat 7]
  ∧ log (snd r) = [].
Proof.
  cbv zeta. split; [apply not_elem_of_nil|]. repeat split; vm_compute; reflexivity.
Qed.

(** C9, the claim as the spec words it, fails: when the answer to the
callback query fails, [block_user] stops before [add_blocked_user]: user
7, who has no session, is not put on the block list, and the gauge of
blocked users stays at 0. *)
Lemma block_user_unanswered_blocks_nobody :
  let r := block_user (fails_at 1) (press operator "Operator" "block_user_7")
             initial_world in
  has_session initial_world 7 = false
  ∧ fst r = inl (Py.TelegramError "Bad Request: query is too old")
  ∧ blocked_users (file (snd r)) = []
  ∧ BLOCKED_USERS (snd r) = 0.
Proof. cbv zeta. repeat split; vm_compute; reflexivity. Qed.

(** A reply of the operator that is a [/start] command goes to [start],
which is registered first: nothing is sent to the user. *)
Example operator_command_goes_to_start :
  let w0 := snd (dispatch_callback_query operator reliable
                   (press 42 "Bob" "need_help_17") initial_world) in
  let r1 := dp_message slash_start operator reliable
              (text_message 5 42 "Bob" "hello") (shop_of w0 [cream; soap]) in
  let forwarded := admin_message_header "Bob" 42 "17" +:+ "hello" in
  let r2 := dp_message slash_start operator reliable
              (operator_reply 500 forwarded "/start 18") (snd r1) in
  fst r1 = inr (Some (H_relay H_forward_to_admin))
  ∧ fst r2 = inr (Some H_start)
  ∧ calls (relay (snd r2)) = calls (relay (snd r1))
  ∧ length (photo_answers (snd r2)) = 1%nat.
Proof. cbv zeta. repeat split; vm_compute; reflexivity. Qed.

Lemma end_dialog_button_is_dead_witness :
  let c := press operator "Operator" "end_dialog_7" in
  let w' := snd (end_dialog operator reliable c busy_world) in
  last (calls w')
  = Some (SendMessage 7 "Если у вас есть еще вопросы, нажмите 'Нужна помощь'."
            (Some [[mkButton "Нужна помощь" "need_help"]]))
  ∧ dispatch_callback_query operator reliable (press 7 "Bob" "need_help") w'
    = (inr None, w').
Proof.
  cbv zeta. split; [reflexivity|].
  destruct (end_dialog_button_is_dead operator reliable reliable
              (press operator "Operator" "end_dialog_7") (mkUser 7 "Bob") busy_world
              (snd (end_dialog operator reliable
                      (press operator "Operator" "end_dialog_7") busy_world)))
    as (made & _ & Hdead & Hlast).
  specialize (Hlast 7 eq_refl eq_refl eq_refl).
  apply last_Some in Hlast as [made' ->].
  destruct (Hdead _ [[mkButton "Нужна помощь" "need_help"]]
              (mkButton "Нужна помощь" "need_help")
              ltac:(apply elem_of_app; right; apply list_elem_of_here)
              eq_refl ltac:(apply list_elem_of_here)) as (_ & _ & Hpress).
  exact Hpress.
Defined.

Lemma forward_filter_faults_without_text_witness :
  let message := document_message 5 7 "Bob" "FILE" in
  has_session session_world 7 = true
  ∧ dispatch_message operator reliable message session_world
    = (inl Py.AttributeError, session_world).
Proof.
  cbv zeta. split; [reflexivity|].
  apply (forward_filter_faults_without_text operator reliable
           (document_message 5 7 "Bob" "FILE") session_world); reflexivity.
Defined.

Lemma blocked_user_is_not_forwarded_witness :
  let c := press operator "Operator" "block_user_7" in
  let message := text_message 8 7 "Bob" "hello" in
  let w' := snd (block_user reliable c busy_world) in
  has_session busy_world 7 = true
  ∧ forward_to_admin_filter message w' = (inr false, w')
  ∧ calls (snd (forward_to_admin operator reliable message w')) = calls w'.
Proof.
  cbv zeta. split; [reflexivity|].
  destruct (blocked_user_is_not_forwarded operator reliable reliable
              (press operator "Operator" "block_user_7") 7
              (text_message 8 7 "Bob" "hello") busy_world
              eq_refl eq_refl eq_refl eq_refl) as (Hfilter & _ & _ & Hcalls).
  exact (conj Hfilter Hcalls).
Defined.

Lemma end_dialog_clears_user_witness :
  let c := press operator "Operator" "end_dialog_7" in
  let w' := snd (end_dialog operator deletions_fail c busy_world) in
  ledger busy_world 7 = [5; 6]
  ∧ calls w'
    = [GetChat 7; DeleteMessage operator 5; DeleteMessage operator 6;
       AnswerCallback "Диалог с пользователем Ann завершен.";
       SendMessage 7 "Если у вас есть еще вопросы, нажмите 'Нужна помощь'."
         (Some end_dialog_keyboard)]
  ∧ dialog_messages (file w') !! "7" = None
  ∧ active_dialogs (file w') !! "7" = None.
Proof.
  cbv zeta. split; [reflexivity|].
  assert (dialog_messages (file busy_world) !! Py.str 7 ≠ Some []) as Hrecord.
  { intros H. vm_compute in H. discriminate H. }
  destruct (end_dialog_clears_user operator deletions_fail
              (press operator "Operator" "end_dialog_7") 7 busy_world
              eq_refl Hrecord eq_refl eq_refl) as (Hcalls & _ & _ & Hledger & Hsession).
  exact (conj Hcalls (conj Hledger Hsession)).
Defined.

(** C6, the claim as the spec words it, fails: the second round trip of a
session.  User 42 asks for help, writes "hello", is answered "hi", writes
"thanks" and is answered "welcome".  At the second round trip the user
has a session, the reply reaches the user as it is, and the record holds
four handles, not two. *)
Lemma second_round_trip_leaves_four_handles :
  let w0 := snd (dispatch_callback_query operator reliable
                   (press 42 "Bob" "need_help_17") initial_world) in
  let w1 := snd (dispatch_message operator reliable (text_message 5 42 "Bob" "hello") w0) in
  let w2 := snd (dispatch_message operator reliable
                   (operator_reply 500 (admin_message_header "Bob" 42 "17" +:+ "hello") "hi")
                   w1) in
  let r3 := dispatch_message operator reliable (text_message 6 42 "Bob" "thanks") w2 in
  let forwarded := admin_message_header "Bob" 42 "17" +:+ "thanks" in
  let r4 := dispatch_message operator reliable (operator_reply 501 forwarded "welcome")
              (snd r3) in
  has_session w2 42 = true
  ∧ fst r3 = inr (Some H_forward_to_admin)
  ∧ fst r4 = inr (Some H_admin_reply)
  ∧ calls (snd r4)
    = (calls w2 ++ [SendMessage operator forwarded (Some (admin_keyboard 42));
                    SendMessage 42 "welcome" None])%list
  ∧ ledger (snd r4) 42 = [102; 500; 104; 501]
  ∧ length (ledger (snd r4) 42) ≠ 2%nat.
Proof. cbv zeta. repeat split; vm_compute; (reflexivity || discriminate). Qed.

(** The reply goes where the first ["(ID: "] of the forwarded text says:
a display name with a tag of its own in it takes the reply away from its
sender. *)
Example reply_misrouted_by_display_name :
  let w0 := snd (dispatch_callback_query operator reliable
                   (press 42 "Eve (ID: 7)" "need_help_17") initial_world) in
  let r1 := dispatch_message operator reliable
              (text_message 5 42 "Eve (ID: 7)" "hello") w0 in
  let forwarded := admin_message_header "Eve (ID: 7)" 42 "17" +:+ "hello" in
  let r2 := dispatch_message operator reliable (operator_reply 500 forwarded "hi")
              (snd r1) in
  calls (snd r1)
  = (calls w0 ++ [SendMessage operator forwarded (Some (admin_keyboard 42))])%list
  ∧ calls (snd r2) = (calls (snd r1) ++ [SendMessage 7 "hi" None])%list
  ∧ ledger (snd r2) 42 = [102]
  ∧ ledger (snd r2) 7 = [500].
Proof. cbv zeta. repeat split; vm_compute; reflexivity. Qed.

(** A text that starts with a slash is not forwarded at all. *)
Example command_text_is_not_forwarded :
  dispatch_message operator reliable (text_message 5 7 "Bob" "/help") session_world
  = (inr None, session_world).
Proof. vm_compute. reflexivity. Qed.

Lemma round_trip_witness :
  let s := shop_of session_world [cream; soap] in
  let message := text_message 5 7 "Bob" "hello" in
  let forwarded := admin_message_header "Bob" 7 "17" +:+ "hello" in
  let answer := operator_reply 500 forwarded "hi" in
  let r1 := dp_message slash_start operator reliable message s in
  let r2 := dp_message slash_start operator reliable answer (snd r1) in
  slash_start message = inr false
  ∧ slash_start answer = inr false
  ∧ active_dialogs (file session_world) !! Py.str 7 = Some "17"
  ∧ ledger session_world 7 = []
  ∧ Py.contains "(ID: " ("Bob" +:+ " (ID:") = false
  ∧ fst r2 = inr (Some (H_relay H_admin_reply))
  ∧ calls (relay (snd r2))
    = [SendMessage operator forwarded (Some (admin_keyboard 7)); SendMessage 7 "hi" None]
  ∧ ledger (relay (snd r2)) 7 = [100; 500].
Proof.
  cbv zeta. do 5 (split; [reflexivity|]).
  assert (7 ∉ blocked_users (file session_world)) as Hblocked
    by apply not_elem_of_nil.
  assert (tg_message_id reliable (length (calls session_world)) ≠ 500) as Hids
    by discriminate.
  destruct (round_trip operator reliable slash_start (text_message 5 7 "Bob" "hello")
              (operator_reply 500 (admin_message_header "Bob" 7 "17" +:+ "hello") "hi")
              "hello" "hi" "17" (shop_of session_world [cream; soap])
              eq_refl eq_refl eq_refl eq_refl eq_refl eq_refl eq_refl Hblocked
              (not_elem_of_nil _) (not_elem_of_nil _) eq_refl eq_refl
              eq_refl eq_refl Hids eq_refl eq_refl)
    as (_ & Hreply & Hcalls & Hledger & _).
  exact (conj Hreply (conj Hcalls Hledger)).
Defined.

Lemma add_dialog_message_dedup_witness :
  let w1 := snd (add_dialog_message 42 7 initial_world) in
  let w2 := snd (add_dialog_message 42 7 w1) in
  ledger initial_world 42 = []
  ∧ ledger w2 42 = [7]
  ∧ length (ledger w2 42) = 1%nat
  ∧ w2 = w1.
Proof.
  cbv zeta. split; [reflexivity|].
  destruct (add_dialog_message_dedup 42 7 initial_world (NoDup_nil_2 : NoDup []))
    as (Hnoop & Hledger & Hlength & _).
  split; [exact Hledger|]. split; [exact Hlength|].
  exact (f_equal snd Hnoop).
Defined.

Lemma unblock_user_not_blocked_witness :
  let c := press operator "Operator" "unblock_user_7" in
  let w' := snd (unblock_user reliable c initial_world) in
  (7 ∉ blocked_users (file initial_world))
  ∧ calls w' = [GetChat 7; AnswerCallback "Пользователь Ann не был заблокирован."]
  ∧ file w' = file initial_world
  ∧ BLOCKED_USERS w' = 0.
Proof.
  cbv zeta. split; [apply not_elem_of_nil|].
  destruct (unblock_user_not_blocked reliable
              (press operator "Operator" "unblock_user_7") 7 initial_world
              eq_refl (not_elem_of_nil 7) eq_refl) as (Hcalls & _ & Hfile & Hgauge & _).
  exact (conj Hcalls (conj Hfile Hgauge)).
Defined.

Lemma block_user_without_session_witness :
  let c := press operator "Operator" "block_user_7" in
  let w' := snd (block_user reliable c initial_world) in
  has_session initial_world 7 = false
  ∧ 7 ∈ blocked_users (file w')
  ∧ BLOCKED_USERS w' = 1
  ∧ active_dialogs (file w') = ∅
  ∧ ACTIVE_DIALOGS w' = 0.
Proof.
  cbv zeta. split; [reflexivity|].
  destruct (block_user_without_session reliable
              (press operator "Operator" "block_user_7") 7 initial_world
              eq_refl eq_refl eq_refl eq_refl) as (_ & Hin & Hgauge & Hstore & Hactive).
  exact (conj Hin (conj Hgauge (conj Hstore Hactive))).
Defined.

(** ** More of the handlers *)

(** *** The block list *)

Lemma list_remove_elem_of (x y : Z) (l : list Z) :
  y ∈ Py.list_remove x l → y ∈ l.
Proof.
  induction l as [|z l IH]; cbn [Py.list_remove]; [done|].
  case_bool_decide as Hx; rewrite !elem_of_cons; [tauto|].
  intros [->|Hy]; [by left|right; by apply IH].
Qed.

Lemma list_remove_app_new (x : Z) (l : list Z) :
  x ∉ l → Py.list_remove x (l ++ [x]) = l.
Proof.
  induction l as [|z l IH]; cbn [Py.list_remove app].
  - intros _. by rewrite bool_decide_eq_true_2.
  - rewrite not_elem_of_cons. intros [Hne Hnot].
    rewrite bool_decide_eq_false_2 by done. by rewrite IH.
Qed.

Lemma list_remove_NoDup (x : Z) (l : list Z) :
  NoDup l → NoDup (Py.list_remove x l) ∧ x ∉ Py.list_remove x l.
Proof.
  induction l as [|z l IH]; cbn [Py.list_remove].
  - intros _. split; [apply NoDup_nil_2|apply not_elem_of_nil].
  - rewrite NoDup_cons. intros [Hz Hl]. case_bool_decide as Hx.
    + subst z. by split.
    + destruct (IH Hl) as [Hnd Hnot]. split.
      * apply NoDup_cons. split; [|done]. intros Hin. by apply list_remove_elem_of in Hin.
      * apply not_elem_of_cons. by split.
Qed.

Lemma list_remove_length (x : Z) (l : list Z) :
  x ∈ l → S (length (Py.list_remove x l)) = length l.
Proof.
  induction l as [|z l IH]; cbn [Py.list_remove length].
  - by intros ?%elem_of_nil.
  - case_bool_decide as Hx; [done|]. rewrite elem_of_cons.
    intros [?|H]; [done|]. cbn [length]. by rewrite IH.
Qed.

Lemma remove_blocked_user_absent user_id w :
  user_id ∉ blocked_users (file w) → remove_blocked_user user_id w = (inr tt, w).
Proof.
  intros H. unfold remove_blocked_user. rewrite bind_run. cbn [load_data].
  by rewrite bool_decide_eq_false_2.
Qed.

Lemma remove_blocked_user_present user_id w :
  user_id ∈ blocked_users (file w) →
  remove_blocked_user user_id w
  = (inr tt,
     add_log (INFO, "User ID: " +:+ Py.str user_id +:+ " has been unblocked")
       (set_file (set_blocked_users (Py.list_remove user_id (blocked_users (file w)))
                    (file w))
          (set_BLOCKED_USERS (BLOCKED_USERS w - 1) w))).
Proof.
  intros H. unfold remove_blocked_user. rewrite bind_run. cbn [load_data].
  by rewrite bool_decide_eq_true_2.
Qed.

(** X1.  Blocking a user who is not blocked and unblocking the user again
gives back the data file and both gauges as they were: the block list in
its old order, the gauge of blocked users at its old value. *)
Theorem block_then_unblock_restores (user_id : Z) (w : World) :
  user_id ∉ blocked_users (file w) →
  let w1 := snd (add_blocked_user user_id w) in
  let w2 := snd (remove_blocked_user user_id w1) in
  user_id ∈ blocked_users (file w1)
  ∧ BLOCKED_USERS w1 = BLOCKED_USERS w + 1
  ∧ file w2 = file w
  ∧ BLOCKED_USERS w2 = BLOCKED_USERS w
  ∧ ACTIVE_DIALOGS w2 = ACTIVE_DIALOGS w.
Proof.
  intros Hnot. cbv zeta. rewrite add_blocked_user_absent by done. cbn [snd].
  assert (user_id ∈ (blocked_users (file w) ++ [user_id])%list) as Hin.
  { apply elem_of_app. right. by apply list_elem_of_singleton. }
  rewrite remove_blocked_user_present by done.
  cbn [snd file add_log set_file blocked_users set_blocked_users BLOCKED_USERS
       set_BLOCKED_USERS ACTIVE_DIALOGS active_dialogs dialog_messages].
  rewrite list_remove_app_new by done.
  repeat split; [done| |lia]. by destruct w as [[] ? ? ? ? ?].
Qed.

Section MoreHandlers.
Variable ADMIN_ID : Z.
Variable tg : Transport.

(** X2.  [unblock_user] for a blocked user, once [get_chat] has answered:
the user is taken off the block list before the callback query is
answered, so also when that answer fails; the gauge of blocked users goes
down by one, and on a list without duplicates the user is no longer on
it.  The session store, the thread ledger and the gauge of active dialogs
are untouched: no session comes back. *)
Theorem unblock_user_blocked (c : CallbackQuery) (user_id : Z) (w : World) :
  cq_data c = "unblock_user_" +:+ Py.str user_id →
  user_id ∈ blocked_users (file w) →
  NoDup (blocked_users (file w)) →
  tg_raises tg (length (calls w)) = None →
  let user_name := tg_first_name tg (length (calls w)) in
  let w' := snd (unblock_user tg c w) in
  calls w' = (calls w ++ [GetChat user_id;
                          AnswerCallback ("Пользователь " +:+ user_name +:+
                                          " разблокирован.")])%list
  ∧ blocked_users (file w') = Py.list_remove user_id (blocked_users (file w))
  ∧ (user_id ∉ blocked_users (file w'))
  ∧ BLOCKED_USERS w' = BLOCKED_USERS w - 1
  ∧ active_dialogs (file w') = active_dialogs (file w)
  ∧ dialog_messages (file w') = dialog_messages (file w)
  ∧ ACTIVE_DIALOGS w' = ACTIVE_DIALOGS w.
Proof.
  intros Hdata Hin Hnodup Hchat. cbv zeta. unfold unblock_user.
  rewrite bind_run, Hdata, callback_user_id_unblock_user. cbn [lift].
  rewrite bind_run, get_chat_first_name_ok by done.
  rewrite bind_run, get_blocked_users_run.
  rewrite bool_decide_eq_true_2
    by (cbn [file add_call]; by rewrite elem_of_list_to_set).
  rewrite bind_run. set (w0 := add_call (GetChat user_id) w).
  rewrite (remove_blocked_user_present user_id w0) by done.
  set (w1 := add_log _ (set_file _ (set_BLOCKED_USERS _ w0))).
  rewrite bind_run.
  pose proof (callback_query_answer_world tg
    ("Пользователь " +:+ tg_first_name tg (length (calls w)) +:+ " разблокирован.")
    w1) as Hw.
  destruct (list_remove_NoDup user_id _ Hnodup) as [_ Hgone].
  destruct (callback_query_answer tg _ w1) as [[e|[]] w2]; cbn [snd] in *; subst w2 w1 w0;
    cbn [snd calls file add_call add_log set_file set_BLOCKED_USERS BLOCKED_USERS
         ACTIVE_DIALOGS logger_info blocked_users set_blocked_users active_dialogs
         dialog_messages];
    rewrite <- (assoc_L (++)); by repeat split.
Qed.

(** *** Help requests *)

(** Taking out the only occurrence of a marker in front of a text gives
the text back. *)
Lemma replace_prefix (sep p : string) :
  sep ≠ EmptyString → Py.contains sep p = false →
  Py.replace (sep +:+ p) sep EmptyString = p.
Proof.
  intros Hsep Hp. unfold Py.replace. destruct sep as [|c sep0]; [done|].
  by rewrite PyFacts.split_sep_first, PyFacts.split_no_sep.
Qed.

(** X3.  [need_help] turns down a blocked user and the operator: a
warning is logged and that is all -- no Bot API call (the callback query
is not even answered), no session, no gauge moved. *)
Theorem need_help_rejected (c : CallbackQuery) (w : World) :
  let user_id := uid (cq_from_user c) in
  user_id ∈ blocked_users (file w) ∨ user_id = ADMIN_ID →
  ∃ warning,
    need_help ADMIN_ID tg c w = (inr tt, add_log (WARNING, warning) w).
Proof.
  intros user_id Hrejected. unfold need_help. fold user_id.
  rewrite bind_run, get_blocked_users_run.
  assert (bool_decide (user_id ∈ (list_to_set (blocked_users (file w)) : gset Z))
          || (user_id =? ADMIN_ID) = true) as ->.
  { destruct Hrejected as [Hin| ->].
    - rewrite bool_decide_eq_true_2; [done|]. by apply elem_of_list_to_set.
    - by rewrite Z.eqb_refl, orb_true_r. }
  by eexists.
Qed.

(** X4.  [need_help] for a user who is neither blocked nor the operator,
pressing the button [start] made for product [product_id], both Bot API
calls succeeding: the callback query is answered, the user is told to ask,
and the session store maps the user to that very [product_id], replacing
the product of an earlier session; the sessions of other users, the
block list and the thread ledger are as before. *)
Theorem need_help_opens_session (c : CallbackQuery) (product_id : string)
    (w : World) :
  let user_id := uid (cq_from_user c) in
  cq_data c = "need_help_" +:+ product_id →
  Py.contains "need_help_" product_id = false →
  user_id ∉ blocked_users (file w) →
  user_id ≠ ADMIN_ID →
  tg_raises tg (length (calls w)) = None →
  tg_raises tg (S (length (calls w))) = None →
  let w' := snd (dispatch_callback_query ADMIN_ID tg c w) in
  fst (dispatch_callback_query ADMIN_ID tg c w) = inr (Some H_need_help)
  ∧ calls w' = (calls w ++ [AnswerCallback "Задавайте свои вопросы.";
                            SendMessage user_id "Задавайте свои вопросы" None])%list
  ∧ active_dialogs (file w') !! Py.str user_id = Some product_id
  ∧ (∀ other, other ≠ user_id →
       active_dialogs (file w') !! Py.str other
       = active_dialogs (file w) !! Py.str other)
  ∧ blocked_users (file w') = blocked_users (file w)
  ∧ dialog_messages (file w') = dialog_messages (file w).
Proof.
  intros user_id Hdata Hproduct Hblocked Hadmin Hanswer Hsend. cbv zeta.
  unfold dispatch_callback_query, need_help_filter.
  rewrite Hdata, PyFacts.startswith_app, bind_run.
  unfold need_help. fold user_id. rewrite bind_run, get_blocked_users_run.
  rewrite bool_decide_eq_false_2 by (by rewrite elem_of_list_to_set).
  apply Z.eqb_neq in Hadmin. rewrite Hadmin. cbn [orb negb when].
  rewrite bind_run, callback_query_answer_ok by done.
  rewrite bind_run, send_message_ok by (by rewrite length_calls_add_call).
  rewrite bind_run, add_active_dialog_run, Hdata, replace_prefix by done.
  cbn [fst snd logger_info calls file add_log add_call set_file set_ACTIVE_DIALOGS
       active_dialogs set_active_dialogs blocked_users dialog_messages ret mret M_ret].
  rewrite lookup_insert_eq, <- (assoc_L (++)). repeat split.
  intros other Hother. rewrite lookup_insert_ne; [done|].
  intros Heq%PyFacts.str_inj. by subst other.
Qed.

(** X5.  The session is the last thing [need_help] makes: when the
answer to the callback query fails, or the message to the user after it,
the handler stops on that exception and the data file and both gauges are
as before -- no session has been opened. *)
Theorem need_help_transport_failure (c : CallbackQuery) (e : string) (w : World) :
  let user_id := uid (cq_from_user c) in
  let n := length (calls w) in
  user_id ∉ blocked_users (file w) →
  user_id ≠ ADMIN_ID →
  tg_raises tg n = Some e ∨ (tg_raises tg n = None ∧ tg_raises tg (S n) = Some e) →
  let w' := snd (need_help ADMIN_ID tg c w) in
  fst (need_help ADMIN_ID tg c w) = inl (Py.TelegramError e)
  ∧ file w' = file w
  ∧ ACTIVE_DIALOGS w' = ACTIVE_DIALOGS w
  ∧ BLOCKED_USERS w' = BLOCKED_USERS w
  ∧ log w' = log w.
Proof.
  intros user_id n Hblocked Hadmin Hfail. cbv zeta. unfold need_help. fold user_id.
  rewrite bind_run, get_blocked_users_run.
  rewrite bool_decide_eq_false_2 by (by rewrite elem_of_list_to_set).
  apply Z.eqb_neq in Hadmin. rewrite Hadmin. cbn [orb negb when].
  rewrite bind_run. destruct Hfail as [Hanswer|[Hanswer Hsend]].
  - unfold callback_query_answer. by rewrite bind_run, (api_raises tg _ w e).
  - rewrite callback_query_answer_ok by done. rewrite bind_run.
    unfold send_message. rewrite bind_run.
    by rewrite (api_raises tg _ _ e) by (by rewrite length_calls_add_call).
Qed.

(** *** Messages of users *)

(** X6.  A message that is no [/start] command to [Command("start")],
from a user without a session, and not a reply of the operator, is taken
by no handler, whatever it carries: the filters of [forward_to_admin] and
[admin_reply] are both false, none raises (the test of the text is not
reached), and the dispatcher leaves everything as it is. *)
Theorem message_without_session_ignored (Command_start : Message → Py.exn + bool)
    (message : Message) (s : Shop) :
  Command_start message = inr false →
  has_session (relay s) (uid (from_user message)) = false →
  admin_reply_filter ADMIN_ID message = false →
  forward_to_admin_filter message (relay s) = (inr false, relay s)
  ∧ dp_message Command_start ADMIN_ID tg message s = (inr None, s).
Proof.
  intros Hcommand Hsession Hreply.
  assert (forward_to_admin_filter message (relay s) = (inr false, relay s)) as Hfilter.
  { unfold forward_to_admin_filter. rewrite bind_run, get_active_dialogs_run.
    unfold has_session in Hsession. by rewrite Hsession. }
  split; [done|]. rewrite dp_message_relay by done. cbv zeta.
  unfold dispatch_message. rewrite bind_run, Hfilter, Hreply.
  cbn [fst snd ret mret M_ret fmap option_fmap option_map]. by destruct s.
Qed.

(** X7.  When the send to the operator fails, [forward_to_admin] stops
on that exception before anything is recorded: the thread ledger, the
rest of the data file and the log are as before, and the exception
reaches the dispatcher. *)
Theorem forward_send_failure (message : Message) (t e : string) (w : World) :
  let user_id := uid (from_user message) in
  has_session w user_id = true →
  user_id ∉ blocked_users (file w) →
  text message = Some t →
  Py.truthy_str (Some t) = true →
  Py.startswith t "/" = false →
  tg_raises tg (length (calls w)) = Some e →
  let w' := snd (dispatch_message ADMIN_ID tg message w) in
  fst (dispatch_message ADMIN_ID tg message w) = inl (Py.TelegramError e)
  ∧ file w' = file w
  ∧ log w' = log w
  ∧ length (calls w') = S (length (calls w)).
Proof.
  intros user_id Hsession Hblocked Htext Htruthy Hslash Hfail. cbv zeta.
  unfold has_session in Hsession. unfold dispatch_message. rewrite bind_run.
  assert (forward_to_admin_filter message w = (inr true, w)) as ->.
  { unfold forward_to_admin_filter. rewrite bind_run, get_active_dialogs_run.
    fold user_id. rewrite Hsession, Htext, Hslash.
    by destruct (Py.truthy_list (photo message)). }
  rewrite bind_run. unfold forward_to_admin. fold user_id.
  rewrite bind_run, get_active_dialogs_run, bind_run, get_blocked_users_run.
  rewrite bool_decide_eq_false_2 by (by rewrite elem_of_list_to_set).
  rewrite Htext, Htruthy. rewrite bind_run. unfold send_message.
  rewrite bind_run, (api_raises tg _ w e) by done.
  cbn [fst snd file log add_call]. repeat split. apply length_calls_add_call.
Qed.

(** X8.  A photo of a user with a session who is not blocked passes the
filter of [forward_to_admin] on its photo alone (its text is [None]), and
the handler forwards it with [send_photo]: the largest size, the last of
the list, goes to the
operator under the header with the caption of the user after it, if there
is one, with the three controls; the handle of the message sent is added
to the record of the user unless it is there already. *)
Theorem forward_photo (message : Message) (sizes : list string)
    (largest product_id : string) (w : World) :
  let user_id := uid (from_user message) in
  let sent := tg_message_id tg (length (calls w)) in
  text message = None →
  photo message = Some sizes →
  last sizes = Some largest →
  active_dialogs (file w) !! Py.str user_id = Some product_id →
  user_id ∉ blocked_users (file w) →
  tg_raises tg (length (calls w)) = None →
  let w' := snd (forward_to_admin ADMIN_ID tg message w) in
  forward_to_admin_filter message w = (inr true, w)
  ∧ fst (forward_to_admin ADMIN_ID tg message w) = inr tt
  ∧ calls w'
    = (calls w ++
       [SendPhoto ADMIN_ID largest
          (admin_message_header (full_name (from_user message)) user_id product_id
           +:+ default EmptyString (caption message))
          (Some (admin_keyboard user_id))])%list
  ∧ ledger w' user_id
    = (if bool_decide (sent ∈ ledger w user_id) then ledger w user_id
       else ledger w user_id ++ [sent])%list.
Proof.
  intros user_id sent Htext Hphoto Hlast Hactive Hblocked Hsend. cbv zeta.
  assert (Py.truthy_list (photo message) = true) as Htruthy.
  { rewrite Hphoto. by destruct sizes. }
  split.
  { unfold forward_to_admin_filter.
    rewrite bind_run, get_active_dialogs_run, key_in_lookup.
    fold user_id. by rewrite Hactive, Htruthy. }
  unfold forward_to_admin. fold user_id.
  rewrite bind_run, get_active_dialogs_run, bind_run, get_blocked_users_run.
  rewrite bool_decide_eq_false_2 by (by rewrite elem_of_list_to_set).
  rewrite Hactive, Htext, Htruthy, Hphoto. cbn [Py.truthy_str default from_option id].
  rewrite Hlast. cbn [from_option id].
  rewrite bind_run. unfold send_photo. rewrite bind_run, api_ok by done.
  cbn [ret mret M_ret]. fold sent.
  set (w0 := add_call _ w). rewrite bind_run.
  pose proof (ledger_add_dialog_message user_id sent w0) as Hledger.
  assert (fst (add_dialog_message user_id sent w0) = inr tt
          ∧ calls (snd (add_dialog_message user_id sent w0)) = calls w0) as [Hfst Hcalls].
  { destruct (decide (sent ∈ ledger w0 user_id)).
    - by rewrite add_dialog_message_present.
    - by rewrite add_dialog_message_new. }
  destruct (add_dialog_message user_id sent w0) as [r w1]. cbn [fst snd] in *. subst r.
  cbn [fst snd logger_info ret calls add_log]. rewrite Hcalls.
  repeat split. exact Hledger.
Qed.

(** *** Ending and blocking *)

(** The first half of [end_dialog] as it leaves the data file, whatever
the record of the user is. *)
Lemma end_dialog_cleanup_state (user_id : Z) (w : World) :
  ∃ w1,
    when (Py.truthy_list (Some (ledger w user_id)))
      (for_each (ledger w user_id) (λ message_id,
         try_except (delete_message tg ADMIN_ID message_id)
           (λ e, logger_error ("Failed to delete message " +:+ Py.str message_id +:+
                               ": " +:+ exn_text e)));;
       remove_dialog_messages user_id) w
    = (inr tt, w1)
    ∧ length (calls w1) = (length (calls w) + length (ledger w user_id))%nat
    ∧ dialog_messages (file w1)
      = match ledger w user_id with
        | [] => dialog_messages (file w)
        | _ :: _ => delete (Py.str user_id) (dialog_messages (file w))
        end
    ∧ active_dialogs (file w1) = active_dialogs (file w)
    ∧ blocked_users (file w1) = blocked_users (file w)
    ∧ ACTIVE_DIALOGS w1 = ACTIVE_DIALOGS w
    ∧ BLOCKED_USERS w1 = BLOCKED_USERS w.
Proof.
  unfold ledger.
  destruct (dialog_messages (file w) !! Py.str user_id) as [[|h l]|] eqn:El;
    cbn [default from_option id Py.truthy_list when].
  - exists w. cbn [length]. by rewrite Nat.add_0_r.
  - rewrite bind_run, deletion_loop_run.
    rewrite (remove_dialog_messages_present user_id (h :: l)) by done.
    eexists. split; [reflexivity|].
    cbn [calls file add_log set_file after_deletions dialog_messages
         set_dialog_messages active_dialogs blocked_users ACTIVE_DIALOGS BLOCKED_USERS].
    rewrite length_app, length_map. by repeat split.
  - exists w. cbn [length]. by rewrite Nat.add_0_r.
Qed.

(** [end_dialog] as it leaves the data file and the gauges, when
[get_chat] and the answer to the callback query succeed. *)
Lemma end_dialog_state (c : CallbackQuery) (user_id : Z) (w : World) :
  cq_data c = "end_dialog_" +:+ Py.str user_id →
  tg_raises tg (length (calls w)) = None →
  tg_raises tg (S (length (calls w) + length (ledger w user_id))) = None →
  let w' := snd (end_dialog ADMIN_ID tg c w) in
  active_dialogs (file w') = delete (Py.str user_id) (active_dialogs (file w))
  ∧ dialog_messages (file w')
    = match ledger w user_id with
      | [] => dialog_messages (file w)
      | _ :: _ => delete (Py.str user_id) (dialog_messages (file w))
      end
  ∧ blocked_users (file w') = blocked_users (file w)
  ∧ BLOCKED_USERS w' = BLOCKED_USERS w
  ∧ ACTIVE_DIALOGS w' = ACTIVE_DIALOGS w - (if has_session w user_id then 1 else 0)
  ∧ length (calls w') = (length (calls w) + length (ledger w user_id) + 3)%nat.
Proof.
  intros Hdata Hchat Hanswer. cbv zeta. unfold end_dialog.
  rewrite bind_run, Hdata, callback_user_id_end_dialog. cbn [lift].
  rewrite bind_run, get_chat_first_name_ok by done.
  rewrite bind_run, get_dialog_messages_run.
  set (w0 := add_call (GetChat user_id) w).
  destruct (end_dialog_cleanup_state user_id w0)
    as (w1 & Hrun & Hlen1 & Hdm1 & Hactive1 & Hblocked1 & Hag1 & Hbg1).
  change (ledger w0 user_id) with (ledger w user_id) in *.
  rewrite bind_run, Hrun.
  assert (length (calls w1) = S (length (calls w) + length (ledger w user_id))) as Hlen1'.
  { rewrite Hlen1. subst w0. rewrite length_calls_add_call. lia. }
  rewrite bind_run, callback_query_answer_ok by (by rewrite Hlen1').
  set (w2 := add_call _ w1).
  rewrite bind_run, get_active_dialogs_run, bind_run, remove_active_dialog_guarded.
  assert (has_session w2 user_id = has_session w user_id) as Hsession.
  { unfold has_session. subst w2. cbn [file add_call]. by rewrite Hactive1. }
  assert (active_dialogs (file (snd (remove_active_dialog user_id w2)))
          = delete (Py.str user_id) (active_dialogs (file w))) as Hactive3.
  { destruct (has_session w2 user_id) eqn:Hs.
    - rewrite remove_active_dialog_present by done.
      cbn [snd file add_log set_file active_dialogs set_active_dialogs].
      subst w2. cbn [file add_call]. by rewrite Hactive1.
    - rewrite remove_active_dialog_absent by done. cbn [snd].
      subst w2. cbn [file add_call]. rewrite Hactive1.
      symmetry. apply delete_id. symmetry in Hsession.
      unfold has_session in Hsession. rewrite key_in_lookup in Hsession.
      change (file w0) with (file w).
      by destruct (active_dialogs (file w) !! Py.str user_id). }
  destruct (remove_active_dialog_effect user_id w2)
    as (_ & Hblocked3 & Hdm3 & Hbg3 & Hcalls3 & Hag3 & _).
  set (w3 := snd (remove_active_dialog user_id w2)) in *.
  rewrite bind_run.
  pose proof (send_message_world tg user_id
    "Если у вас есть еще вопросы, нажмите 'Нужна помощь'." (Some end_dialog_keyboard) w3)
    as Hsend.
  assert (length (calls (add_call (SendMessage user_id
            "Если у вас есть еще вопросы, нажмите 'Нужна помощь'."
            (Some end_dialog_keyboard)) w3))
          = (length (calls w) + length (ledger w user_id) + 3)%nat) as Hlen4.
  { rewrite length_calls_add_call, Hcalls3. subst w2.
    rewrite length_calls_add_call, Hlen1'. lia. }
  destruct (send_message tg user_id _ _ w3) as [[e|sent] w4]; cbn [snd] in Hsend;
    subst w4; cbv beta iota;
    cbn [snd logger_info file add_log add_call BLOCKED_USERS ACTIVE_DIALOGS];
    rewrite Hactive3, Hdm3, Hblocked3, Hbg3, Hag3, Hsession; subst w2;
    cbn [file add_call BLOCKED_USERS ACTIVE_DIALOGS];
    rewrite Hdm1, Hblocked1, Hbg1, Hag1; by repeat split.
Qed.

(** X9.  [end_dialog] moves the gauge of active dialogs down by one if
the user had a session and leaves it alone if not; it takes out the
session and the record of that user only, and does not touch the block
list or its gauge: ending a dialogue with a blocked user does not unblock
the user. *)
Theorem end_dialog_effect (c : CallbackQuery) (user_id : Z) (w : World) :
  cq_data c = "end_dialog_" +:+ Py.str user_id →
  tg_raises tg (length (calls w)) = None →
  tg_raises tg (S (length (calls w) + length (ledger w user_id))) = None →
  let w' := snd (end_dialog ADMIN_ID tg c w) in
  ACTIVE_DIALOGS w' = ACTIVE_DIALOGS w - (if has_session w user_id then 1 else 0)
  ∧ has_session w' user_id = false
  ∧ ledger w' user_id = []
  ∧ (∀ other, other ≠ user_id →
       active_dialogs (file w') !! Py.str other = active_dialogs (file w) !! Py.str other
       ∧ ledger w' other = ledger w other)
  ∧ blocked_users (file w') = blocked_users (file w)
  ∧ BLOCKED_USERS w' = BLOCKED_USERS w.
Proof.
  intros Hdata Hchat Hanswer.
  destruct (end_dialog_state c user_id w Hdata Hchat Hanswer)
    as (Hactive & Hdm & Hblocked & Hbg & Hag & _).
  cbv zeta. split; [done|]. split.
  { unfold has_session. by rewrite key_in_lookup, Hactive, lookup_delete_eq. }
  split.
  { unfold ledger in *. rewrite Hdm.
    destruct (dialog_messages (file w) !! Py.str user_id) as [[|h l]|] eqn:El;
      cbn [default from_option id]; by rewrite ?El, ?lookup_delete_eq. }
  split; [|done]. intros other Hother.
  assert (Py.str user_id ≠ Py.str other) as Hkey by (by intros ?%PyFacts.str_inj).
  split.
  - by rewrite Hactive, lookup_delete_ne.
  - unfold ledger. rewrite Hdm.
    destruct (ledger w user_id); [done|]. by rewrite lookup_delete_ne.
Qed.

(** X10.  [end_dialog] is idempotent on the data file.  After a first
run whose [get_chat] and answer to the callback query succeeded, a second
run for the same user whose [get_chat] and answer succeed deletes
nothing and only notifies: its calls are [get_chat], the answer and the
message to the user with the keyboard, in this order, no
[delete_message]; the data file and both gauges stay as the first run
left them, whether the message to the user gets through or not. *)
Theorem end_dialog_twice (tg' : Transport) (c : CallbackQuery) (user_id : Z)
    (w : World) :
  let w1 := snd (end_dialog ADMIN_ID tg c w) in
  let w2 := snd (end_dialog ADMIN_ID tg' c w1) in
  cq_data c = "end_dialog_" +:+ Py.str user_id →
  tg_raises tg (length (calls w)) = None →
  tg_raises tg (S (length (calls w) + length (ledger w user_id))) = None →
  tg_raises tg' (length (calls w1)) = None →
  tg_raises tg' (S (length (calls w1))) = None →
  calls w2
  = (calls w1 ++
     [GetChat user_id;
      AnswerCallback ("Диалог с пользователем " +:+
                      tg_first_name tg' (length (calls w1)) +:+ " завершен.");
      SendMessage user_id "Если у вас есть еще вопросы, нажмите 'Нужна помощь'."
        (Some end_dialog_keyboard)])%list
  ∧ file w2 = file w1
  ∧ ACTIVE_DIALOGS w2 = ACTIVE_DIALOGS w1
  ∧ BLOCKED_USERS w2 = BLOCKED_USERS w1.
Proof.
  intros w1 w2 Hdata Hchat Hanswer Hchat' Hanswer'.
  destruct (end_dialog_state c user_id w Hdata Hchat Hanswer)
    as (Hactive & Hdm & _). fold w1 in Hactive, Hdm.
  assert (ledger w1 user_id = []) as Hledger1.
  { unfold ledger in *. rewrite Hdm.
    destruct (dialog_messages (file w) !! Py.str user_id) as [[|h l]|] eqn:El;
      cbn [default from_option id]; by rewrite ?El, ?lookup_delete_eq. }
  assert (has_session w1 user_id = false) as Hsession1.
  { unfold has_session. by rewrite key_in_lookup, Hactive, lookup_delete_eq. }
  clearbody w1. clear Hchat Hanswer.
  subst w2. unfold end_dialog.
  rewrite bind_run, Hdata, callback_user_id_end_dialog. cbn [lift].
  rewrite bind_run, get_chat_first_name_ok by done.
  rewrite bind_run, get_dialog_messages_run.
  change (ledger (add_call (GetChat user_id) w1) user_id) with (ledger w1 user_id).
  rewrite Hledger1. cbn [Py.truthy_list when].
  rewrite bind_run. cbn [ret].
  rewrite bind_run, callback_query_answer_ok by (by rewrite length_calls_add_call).
  rewrite bind_run, get_active_dialogs_run, bind_run.
  cbn [file add_call]. fold (has_session w1 user_id). rewrite Hsession1.
  cbn [when ret]. rewrite bind_run.
  set (w3 := add_call _ (add_call _ w1)).
  pose proof (send_message_world tg' user_id
    "Если у вас есть еще вопросы, нажмите 'Нужна помощь'." (Some end_dialog_keyboard) w3)
    as Hsend.
  destruct (send_message tg' user_id _ _ w3) as [[e|sent] w4]; cbn [snd] in Hsend;
    subst w4 w3; cbv beta iota;
    cbn [snd logger_info file add_log add_call BLOCKED_USERS ACTIVE_DIALOGS calls];
    rewrite <- !(assoc_L (++)); by repeat split.
Qed.

(** X11.  After [end_dialog] has run for a user, its [get_chat] and its
answer to the callback query succeeding, a message of that user is not
forwarded, whatever it carries: the filter of [forward_to_admin] is false
without looking at the message, and unless the message is a [/start]
command or a reply of the operator, the dispatcher runs no handler for it
and leaves everything as it is. *)
Theorem ended_user_is_not_forwarded (Command_start : Message → Py.exn + bool)
    (tg' : Transport) (c : CallbackQuery) (user_id : Z) (message : Message)
    (s : Shop) :
  let w := relay s in
  cq_data c = "end_dialog_" +:+ Py.str user_id →
  uid (from_user message) = user_id →
  tg_raises tg (length (calls w)) = None →
  tg_raises tg (S (length (calls w) + length (ledger w user_id))) = None →
  let w' := snd (end_dialog ADMIN_ID tg c w) in
  forward_to_admin_filter message w' = (inr false, w')
  ∧ (Command_start message = inr false →
     admin_reply_filter ADMIN_ID message = false →
     dp_message Command_start ADMIN_ID tg' message (set_relay w' s)
     = (inr None, set_relay w' s)).
Proof.
  intros w Hdata Hfrom Hchat Hanswer.
  destruct (end_dialog_state c user_id w Hdata Hchat Hanswer) as (Hactive & _).
  cbv zeta. set (w' := snd (end_dialog ADMIN_ID tg c w)) in *. clearbody w'.
  assert (forward_to_admin_filter message w' = (inr false, w')) as Hfilter.
  { unfold forward_to_admin_filter.
    rewrite bind_run, get_active_dialogs_run, Hfrom, key_in_lookup.
    by rewrite Hactive, lookup_delete_eq. }
  split; [done|]. intros Hcommand Hreply.
  rewrite dp_message_relay by done. cbv zeta. cbn [relay set_relay].
  unfold dispatch_message. by rewrite bind_run, Hfilter, Hreply.
Qed.

(** X12.  [block_user] for a user with a session, its two Bot API calls
succeeding: the session of the user is taken out and the gauge of active
dialogs goes down by one; the sessions of the others stay.  The thread
ledger is not touched and no message is deleted: the messages forwarded
for the user stay in the chat of the operator, on record. *)
Theorem block_user_with_session (c : CallbackQuery) (user_id : Z) (w : World) :
  cq_data c = "block_user_" +:+ Py.str user_id →
  has_session w user_id = true →
  tg_raises tg (length (calls w)) = None →
  tg_raises tg (S (length (calls w))) = None →
  let w' := snd (block_user tg c w) in
  active_dialogs (file w') = delete (Py.str user_id) (active_dialogs (file w))
  ∧ ACTIVE_DIALOGS w' = ACTIVE_DIALOGS w - 1
  ∧ user_id ∈ blocked_users (file w')
  ∧ dialog_messages (file w') = dialog_messages (file w)
  ∧ calls w'
    = (calls w ++ [GetChat user_id;
                   AnswerCallback ("Пользователь " +:+
                                   tg_first_name tg (length (calls w)) +:+
                                   " заблокирован.")])%list.
Proof.
  intros Hdata Hsession Hchat Hanswer. cbv zeta.
  rewrite (block_user_run tg c user_id w) by done. cbn [fst snd].
  set (w0 := add_call _ (add_call _ w)).
  destruct (add_blocked_user_effect user_id w0) as (Hin & _ & Ha & Hdm & Hag & Hcalls).
  set (w1 := snd (add_blocked_user user_id w0)) in *.
  assert (has_session w1 user_id = true) as Hs1.
  { unfold has_session in *. by rewrite Ha. }
  destruct (remove_active_dialog_effect user_id w1)
    as (_ & Hbl2 & Hdm2 & _ & Hcalls2 & Hag2 & _).
  rewrite Hs1 in Hag2.
  assert (active_dialogs (file (snd (remove_active_dialog user_id w1)))
          = delete (Py.str user_id) (active_dialogs (file w))) as Hactive2.
  { rewrite remove_active_dialog_present by done.
    cbn [snd file add_log set_file active_dialogs set_active_dialogs]. by rewrite Ha. }
  cbn [file add_log ACTIVE_DIALOGS calls].
  rewrite Hactive2, Hag2, Hbl2, Hdm2, Hcalls2, Hag, Hdm, Hcalls.
  subst w0. cbn [calls add_call]. rewrite <- (assoc_L (++)). by repeat split.
Qed.

(** *** Callback data without a user id *)

Lemma int_error (s : string) (e : Py.exn) : Py.int s = inl e → e = Py.ValueError.
Proof.
  apply PyFacts.int_fails.
Qed.

(** Data made of two words and a rest has a third field: reading the
user id can only fail in [int]. *)
Lemma callback_user_id_error (w1 w2 rest : string) (e : Py.exn) :
  Py.string_forall (λ x, negb (Ascii.eqb "_" x)) w1 = true →
  Py.string_forall (λ x, negb (Ascii.eqb "_" x)) w2 = true →
  callback_user_id (w1 +:+ "_" +:+ w2 +:+ "_" +:+ rest) = inl e →
  e = Py.ValueError.
Proof.
  intros H1 H2. unfold callback_user_id.
  rewrite !split_field by done.
  destruct (index_split_0 rest "_") as [f Hf]. unfold Py.index in *.
  cbn [lookup list_lookup] in *.
  destruct (Py.split rest "_") as [|f0 fs]; [done|]. cbn [lookup list_lookup].
  apply int_error.
Qed.

(** X13.  A press whose data starts like that of one of the three
controls of the operator but has no integer as third field makes the
handler stop on [ValueError] at its first line: the dispatcher gets the
exception, and nothing has been called, stored or logged. *)
Theorem control_without_user_id (c : CallbackQuery) (prefix rest : string)
    (e : Py.exn) (w : World) :
  prefix ∈ ["end_dialog_"; "block_user_"; "unblock_user_"] →
  cq_data c = prefix +:+ rest →
  callback_user_id (cq_data c) = inl e →
  e = Py.ValueError
  ∧ dispatch_callback_query ADMIN_ID tg c w = (inl Py.ValueError, w).
Proof.
  intros Hprefix Hdata Hid.
  assert (e = Py.ValueError) as ->.
  { rewrite Hdata in Hid. repeat (apply elem_of_cons in Hprefix as [->|Hprefix]).
    - by apply (callback_user_id_error "end" "dialog" rest).
    - by apply (callback_user_id_error "block" "user" rest).
    - by apply (callback_user_id_error "unblock" "user" rest).
    - by apply elem_of_nil in Hprefix. }
  split; [done|].
  unfold dispatch_callback_query, need_help_filter, end_dialog_filter,
    block_user_filter, unblock_user_filter.
  repeat (apply elem_of_cons in Hprefix as [->|Hprefix]);
    [..|by apply elem_of_nil in Hprefix]; rewrite Hdata.
  - change (Py.startswith ("end_dialog_" +:+ rest) "need_help_") with false.
    rewrite PyFacts.startswith_app, bind_run. unfold end_dialog.
    by rewrite bind_run, Hid.
  - change (Py.startswith ("block_user_" +:+ rest) "need_help_") with false.
    change (Py.startswith ("block_user_" +:+ rest) "end_dialog_") with false.
    rewrite PyFacts.startswith_app, bind_run. unfold block_user.
    by rewrite bind_run, Hid.
  - change (Py.startswith ("unblock_user_" +:+ rest) "need_help_") with false.
    change (Py.startswith ("unblock_user_" +:+ rest) "end_dialog_") with false.
    change (Py.startswith ("unblock_user_" +:+ rest) "block_user_") with false.
    rewrite PyFacts.startswith_app, bind_run. unfold unblock_user.
    by rewrite bind_run, Hid.
Qed.

(** *** Replies of the operator *)


End MoreHandlers.

(** ** The counters stay in order *)

Section Counters.
Variable ADMIN_ID : Z.
Variable tg : Transport.
Variables a0 b0 : Z.

Create HintDb counters.

Lemma keeps_world_bind {A B} P (m : M A) (k : A → M B) :
  keeps_world P m → (∀ a, keeps_world P (k a)) → keeps_world P (m ≫= k).
Proof.
  intros Hm Hk w Hw. rewrite bind_run. specialize (Hm w Hw).
  destruct (m w) as [[e|a] w']; cbn [snd] in *; [done|]. by apply Hk.
Qed.

(** A computation that leaves the sessions, the block list and the
gauges alone keeps what looks at them only. *)
Lemma keeps_world_same {A} P (m : M A) :
  looks_at_counters P →
  (∀ w, active_dialogs (file (snd (m w))) = active_dialogs (file w)
        ∧ blocked_users (file (snd (m w))) = blocked_users (file w)
        ∧ ACTIVE_DIALOGS (snd (m w)) = ACTIVE_DIALOGS w
        ∧ BLOCKED_USERS (snd (m w)) = BLOCKED_USERS w) →
  keeps_world P m.
Proof. intros HP H w Hw. destruct (H w) as (?&?&?&?). by apply (HP w). Qed.

Section Leaves.
Variable P : World → Prop.
Hypothesis HP : looks_at_counters P.

Lemma counters_ret {A} (a : A) : keeps_world P (ret a).
Proof. by apply keeps_world_same. Qed.

Lemma counters_mret {A} (a : A) : keeps_world P (mret a : M A).
Proof. by apply keeps_world_same. Qed.

Lemma counters_raise {A} e : keeps_world P (raise e : M A).
Proof. by apply keeps_world_same. Qed.

Lemma counters_lift {A} (r : Py.exn + A) : keeps_world P (lift r).
Proof. by apply keeps_world_same. Qed.

Lemma counters_logger_info msg : keeps_world P (logger_info msg).
Proof. by apply keeps_world_same. Qed.

Lemma counters_logger_warning msg : keeps_world P (logger_warning msg).
Proof. by apply keeps_world_same. Qed.

Lemma counters_logger_error msg : keeps_world P (logger_error msg).
Proof. by apply keeps_world_same. Qed.

Lemma counters_api c : keeps_world P (api tg c).
Proof.
  apply keeps_world_same; [done|]. intros w. unfold api.
  by destruct (tg_raises tg (length (calls w))).
Qed.

Lemma counters_api_then {A} c (f : nat → A) :
  keeps_world P (n ← api tg c; ret (f n)).
Proof.
  apply keeps_world_bind; [apply counters_api|]. intros n. apply counters_ret.
Qed.

Lemma counters_send_message chat_id t markup :
  keeps_world P (send_message tg chat_id t markup).
Proof. apply counters_api_then. Qed.

Lemma counters_send_photo chat_id f t markup :
  keeps_world P (send_photo tg chat_id f t markup).
Proof. apply counters_api_then. Qed.

Lemma counters_send_document chat_id f t markup :
  keeps_world P (send_document tg chat_id f t markup).
Proof. apply counters_api_then. Qed.

Lemma counters_delete_message chat_id h : keeps_world P (delete_message tg chat_id h).
Proof. apply (counters_api_then _ (λ _, tt)). Qed.

Lemma counters_get_chat_first_name user_id :
  keeps_world P (get_chat_first_name tg user_id).
Proof. apply counters_api_then. Qed.

Lemma counters_callback_query_answer t : keeps_world P (callback_query_answer tg t).
Proof. apply (counters_api_then _ (λ _, tt)). Qed.

Lemma counters_get_active_dialogs : keeps_world P get_active_dialogs.
Proof. by apply keeps_world_same. Qed.

Lemma counters_get_blocked_users : keeps_world P get_blocked_users.
Proof. by apply keeps_world_same. Qed.

Lemma counters_get_dialog_messages user_id :
  keeps_world P (get_dialog_messages user_id).
Proof. by apply keeps_world_same. Qed.

Lemma counters_add_dialog_message user_id h :
  keeps_world P (add_dialog_message user_id h).
Proof.
  apply keeps_world_same; [done|]. intros w.
  destruct (decide (h ∈ ledger w user_id)).
  - by rewrite add_dialog_message_present.
  - by rewrite add_dialog_message_new.
Qed.

Lemma counters_remove_dialog_messages user_id :
  keeps_world P (remove_dialog_messages user_id).
Proof.
  apply keeps_world_same; [done|]. intros w.
  destruct (dialog_messages (file w) !! Py.str user_id) as [l|] eqn:El.
  - by rewrite (remove_dialog_messages_present user_id l).
  - by rewrite remove_dialog_messages_absent.
Qed.

Lemma counters_try_except {A} (body : M A) handler :
  keeps_world P body → (∀ e, keeps_world P (handler e)) →
  keeps_world P (try_except body handler).
Proof.
  intros Hb Hh w Hw. unfold try_except. specialize (Hb w Hw).
  destruct (body w) as [[e|a] w']; cbn [snd] in *; [by apply Hh|done].
Qed.

Lemma counters_for_each {A} (l : list A) body :
  (∀ x, keeps_world P (body x)) → keeps_world P (for_each l body).
Proof.
  intros Hb. induction l as [|x l IH]; cbn [for_each]; [apply counters_ret|].
  intros w Hw. unfold bind. specialize (Hb x w Hw).
  destruct (body x w) as [[e|[]] w']; cbn [snd] in *; [done|]. by apply IH.
Qed.

End Leaves.

#[local] Hint Resolve counters_ret counters_mret counters_raise counters_lift
  counters_logger_info counters_logger_warning counters_logger_error counters_api
  counters_get_active_dialogs counters_get_blocked_users counters_get_dialog_messages
  counters_add_dialog_message counters_remove_dialog_messages counters_try_except
  counters_for_each counters_send_message counters_send_photo counters_send_document
  counters_delete_message counters_get_chat_first_name counters_callback_query_answer
  : counters.

Ltac counters_step :=
  first
    [ solve [eauto with counters]
    | apply keeps_world_bind; [|intros ?]
    | match goal with
      | |- keeps_world _ (when ?b _) => destruct b; cbn [when]
      | |- keeps_world _ (if ?b then _ else _) => destruct b
      | |- keeps_world _ (match ?o with Some _ => _ | None => _ end) => destruct o
      end ].

Lemma counters_ok_looks : looks_at_counters (counters_ok a0 b0).
Proof.
  intros w w' Ha Hb Hag Hbg (Hnodup & Hgauge & Hsize & Hfree).
  unfold counters_ok. rewrite Ha, Hb, Hag, Hbg. done.
Qed.

(** The property that goes with a user about to get a session. *)
Lemma counters_ok_and_free_looks user_id :
  looks_at_counters (λ w, counters_ok a0 b0 w ∧ user_id ∉ blocked_users (file w)).
Proof.
  intros w w' Ha Hb Hag Hbg [Hok Hfree]. split.
  - by apply (counters_ok_looks w).
  - by rewrite Hb.
Qed.

#[local] Hint Resolve counters_ok_looks counters_ok_and_free_looks : counters.

Lemma size_insert_le (k v : string) (m : gmap string string) :
  (size (<[k := v]> m) ≤ S (size m))%nat.
Proof. rewrite map_size_insert. destruct (m !! k); cbn [id]; lia. Qed.

Lemma size_delete_present (k : string) (m : gmap string string) :
  is_Some (m !! k) → S (size (delete k m)) = size m.
Proof.
  intros Hk. rewrite map_size_delete_Some by done.
  destruct (size m) eqn:Es; [|done].
  apply map_size_empty_iff in Es. subst m. rewrite lookup_empty in Hk.
  by destruct Hk.
Qed.

Lemma counters_add_active_dialog user_id product_id :
  keeps_world (λ w, counters_ok a0 b0 w ∧ user_id ∉ blocked_users (file w))
    (add_active_dialog user_id product_id).
Proof.
  intros w [(Hnodup & Hgauge & Hsize & Hfree) Hnot]. rewrite add_active_dialog_run.
  unfold counters_ok.
  cbn [snd file add_log set_file set_ACTIVE_DIALOGS active_dialogs set_active_dialogs
       blocked_users ACTIVE_DIALOGS BLOCKED_USERS].
  repeat split; try done.
  - pose proof (size_insert_le (Py.str user_id) product_id (active_dialogs (file w))).
    lia.
  - intros u Hu. rewrite lookup_insert_ne; [by apply Hfree|].
    intros Heq%PyFacts.str_inj. by subst u.
Qed.

Lemma counters_remove_active_dialog user_id :
  keeps_world (counters_ok a0 b0) (remove_active_dialog user_id).
Proof.
  intros w (Hnodup & Hgauge & Hsize & Hfree).
  destruct (has_session w user_id) eqn:Hs.
  - rewrite remove_active_dialog_present by done. unfold counters_ok.
    cbn [snd file add_log set_file set_ACTIVE_DIALOGS add_stdout active_dialogs
         set_active_dialogs blocked_users ACTIVE_DIALOGS BLOCKED_USERS].
    repeat split; try done.
    + unfold has_session in Hs. rewrite key_in_lookup in Hs.
      pose proof (size_delete_present (Py.str user_id) (active_dialogs (file w))) as Hd.
      destruct (active_dialogs (file w) !! Py.str user_id) eqn:El; [|done].
      specialize (Hd (mk_is_Some _ _ eq_refl)). lia.
    + intros u Hu. apply lookup_delete_None. right. by apply Hfree.
  - by rewrite remove_active_dialog_absent.
Qed.

Lemma counters_remove_blocked_user user_id :
  keeps_world (counters_ok a0 b0) (remove_blocked_user user_id).
Proof.
  intros w (Hnodup & Hgauge & Hsize & Hfree).
  destruct (decide (user_id ∈ blocked_users (file w))) as [Hin|Hin].
  - rewrite remove_blocked_user_present by done. unfold counters_ok.
    cbn [snd file add_log set_file set_BLOCKED_USERS active_dialogs
         set_blocked_users blocked_users ACTIVE_DIALOGS BLOCKED_USERS].
    destruct (list_remove_NoDup user_id _ Hnodup) as [Hnd _].
    pose proof (list_remove_length user_id _ Hin).
    repeat split; try done; [lia|].
    intros u Hu. apply Hfree. by apply list_remove_elem_of in Hu.
  - by rewrite remove_blocked_user_absent.
Qed.

(** The second half of [block_user]: the user goes on the block list and
loses the session in one go. *)
Lemma counters_block_tail user_id (k : M unit) :
  keeps_world (counters_ok a0 b0) k →
  keeps_world (counters_ok a0 b0)
    (add_blocked_user user_id;;
     active ← get_active_dialogs;
     when (Py.key_in (Py.KStr (Py.str user_id)) active) (remove_active_dialog user_id);;
     k).
Proof.
  intros Hk w (Hnodup & Hgauge & Hsize & Hfree).
  rewrite bind_run.
  assert (∃ w1, add_blocked_user user_id w = (inr tt, w1)
                ∧ NoDup (blocked_users (file w1))
                ∧ BLOCKED_USERS w1 = b0 + Z.of_nat (length (blocked_users (file w1)))
                ∧ active_dialogs (file w1) = active_dialogs (file w)
                ∧ ACTIVE_DIALOGS w1 = ACTIVE_DIALOGS w
                ∧ ∀ u, u ∈ blocked_users (file w1) → u = user_id ∨ u ∈ blocked_users (file w))
    as (w1 & -> & Hnodup1 & Hgauge1 & Hactive1 & Hag1 & Hin1).
  { destruct (decide (user_id ∈ blocked_users (file w))) as [Hin|Hin].
    - rewrite add_blocked_user_present by done. exists w. repeat split; auto.
    - rewrite add_blocked_user_absent by done. eexists. split; [done|].
      cbn [file add_log set_file set_BLOCKED_USERS blocked_users set_blocked_users
           BLOCKED_USERS ACTIVE_DIALOGS active_dialogs].
      repeat split; try done.
      + apply NoDup_app. repeat split; [done| |apply NoDup_singleton].
        intros x Hx ->%list_elem_of_singleton. done.
      + rewrite length_app. cbn [length]. lia.
      + intros u [Hu|Hu%list_elem_of_singleton]%elem_of_app; auto. }
  rewrite bind_run, get_active_dialogs_run, bind_run, remove_active_dialog_guarded.
  apply Hk.
  destruct (remove_active_dialog_effect user_id w1)
    as (Hgone & Hblocked2 & _ & Hbg2 & _ & Hag2 & Hsame).
  pose proof (counters_remove_active_dialog user_id) as Hremove.
  set (w2 := snd (remove_active_dialog user_id w1)) in *.
  assert (a0 + Z.of_nat (size (active_dialogs (file w2))) ≤ ACTIVE_DIALOGS w2
          ∧ ∀ u, active_dialogs (file w1) !! Py.str u = None →
                 active_dialogs (file w2) !! Py.str u = None) as [Hsize2 Hkeep].
  { subst w2. destruct (has_session w1 user_id) eqn:Hs.
    - rewrite remove_active_dialog_present by done.
      cbn [snd file add_log set_file set_ACTIVE_DIALOGS add_stdout active_dialogs
           set_active_dialogs ACTIVE_DIALOGS]. split.
      + unfold has_session in Hs. rewrite key_in_lookup in Hs.
        pose proof (size_delete_present (Py.str user_id) (active_dialogs (file w1))) as Hd.
        destruct (active_dialogs (file w1) !! Py.str user_id) eqn:El; [|done].
        specialize (Hd (mk_is_Some _ _ eq_refl)). rewrite Hactive1 in Hd |- *.
        rewrite Hag1. lia.
      + intros u Hu. apply lookup_delete_None. by right.
    - rewrite remove_active_dialog_absent by done. cbn [snd].
      split; [|done]. rewrite Hactive1, Hag1. lia. }
  unfold counters_ok. rewrite Hblocked2, Hbg2. repeat split; try done.
  intros u Hu. destruct (Hin1 u Hu) as [->|Hold]; [done|].
  apply Hkeep. rewrite Hactive1. by apply Hfree.
Qed.

#[local] Hint Resolve counters_remove_active_dialog counters_remove_blocked_user
  : counters.

Lemma counters_need_help c :
  keeps_world (counters_ok a0 b0) (need_help ADMIN_ID tg c).
Proof.
  intros w Hw. unfold need_help. cbv zeta.
  rewrite bind_run, get_blocked_users_run.
  destruct (bool_decide (uid (cq_from_user c) ∈ _)) eqn:Hblocked; cbn [orb].
  { done. }
  apply bool_decide_eq_false in Hblocked. rewrite elem_of_list_to_set in Hblocked.
  destruct (uid (cq_from_user c) =? ADMIN_ID); [done|]. cbn [negb when].
  pose proof (counters_add_active_dialog (uid (cq_from_user c))
                (Py.replace (cq_data c) "need_help_" EmptyString)) as Hadd.
  assert (keeps_world
            (λ w, counters_ok a0 b0 w ∧ uid (cq_from_user c) ∉ blocked_users (file w))
            (callback_query_answer tg "Задавайте свои вопросы.";;
             send_message tg (uid (cq_from_user c)) "Задавайте свои вопросы" None;;
             add_active_dialog (uid (cq_from_user c))
               (Py.replace (cq_data c) "need_help_" EmptyString);;
             logger_info ("User " +:+ full_name (cq_from_user c) +:+ " (" +:+
                          Py.str (uid (cq_from_user c)) +:+
                          ") requested help. Product ID: " +:+
                          Py.replace (cq_data c) "need_help_" EmptyString))) as Hrun.
  { repeat counters_step. }
  by apply (Hrun w).
Qed.

Lemma counters_forward_to_admin_filter P message :
  looks_at_counters P → keeps_world P (forward_to_admin_filter message).
Proof. intros HP. unfold forward_to_admin_filter. repeat counters_step. Qed.

Lemma counters_forward_to_admin message :
  keeps_world (counters_ok a0 b0) (forward_to_admin ADMIN_ID tg message).
Proof. unfold forward_to_admin. cbv zeta. repeat counters_step. Qed.

Lemma counters_admin_reply message :
  keeps_world (counters_ok a0 b0) (admin_reply tg message).
Proof. unfold admin_reply. repeat counters_step. Qed.

Lemma counters_end_dialog c :
  keeps_world (counters_ok a0 b0) (end_dialog ADMIN_ID tg c).
Proof. unfold end_dialog. cbv zeta. repeat counters_step. Qed.

Lemma counters_block_user c : keeps_world (counters_ok a0 b0) (block_user tg c).
Proof.
  unfold block_user. do 3 (apply keeps_world_bind; [repeat counters_step|intros ?]).
  apply counters_block_tail. repeat counters_step.
Qed.

Lemma counters_unblock_user c :
  keeps_world (counters_ok a0 b0) (unblock_user tg c).
Proof. unfold unblock_user. repeat counters_step. Qed.

Lemma counters_dispatch_message message :
  keeps_world (counters_ok a0 b0) (dispatch_message ADMIN_ID tg message).
Proof.
  unfold dispatch_message.
  pose proof (counters_forward_to_admin_filter (counters_ok a0 b0) message
                counters_ok_looks).
  pose proof (counters_forward_to_admin message).
  pose proof (counters_admin_reply message).
  repeat counters_step.
Qed.

Lemma counters_dispatch_callback_query c :
  keeps_world (counters_ok a0 b0) (dispatch_callback_query ADMIN_ID tg c).
Proof.
  unfold dispatch_callback_query.
  pose proof (counters_need_help c). pose proof (counters_end_dialog c).
  pose proof (counters_block_user c). pose proof (counters_unblock_user c).
  repeat counters_step.
Qed.

End Counters.

(** While the process runs the counters are in order, up to what the
data file held when the process started. *)
Lemma running_counters_ok (ADMIN_ID : Z) (w0 w : World) :
  running ADMIN_ID w0 w →
  counters_ok (- Z.of_nat (size (active_dialogs (file w0))))
              (- Z.of_nat (length (blocked_users (file w0)))) w.
Proof.
  induction 1 as [|tg message w0 w _ IH|tg c w0 w _ IH|w0 w _ IH].
  - unfold counters_ok.
    cbn [initial_world file empty_data blocked_users active_dialogs length
         ACTIVE_DIALOGS BLOCKED_USERS].
    split; [apply NoDup_nil_2|]. split; [done|]. split; [by rewrite map_size_empty|].
    by intros u ?%elem_of_nil.
  - by apply counters_dispatch_message.
  - by apply counters_dispatch_callback_query.
  - destruct IH as (Hnodup & _ & _ & Hfree). unfold counters_ok.
    cbn [restart file ACTIVE_DIALOGS BLOCKED_USERS]. repeat split; [done|lia|lia|done].
Qed.

(** Every world the bot gets into is one of a running process. *)
Lemma reachable_running (ADMIN_ID : Z) (w : World) :
  reachable ADMIN_ID w → ∃ w0, running ADMIN_ID w0 w.
Proof.
  induction 1 as [|tg message w _ [w0 IH]|tg c w _ [w0 IH]|w _ [w0 IH]].
  - exists initial_world. constructor.
  - exists w0. by constructor.
  - exists w0. by constructor.
  - exists (restart w). by apply (running_restart _ w0).
Qed.

(** X15.  While the process runs, the block list holds no user twice, and
the gauge of blocked users, which starts at 0, is the length of the list
less the length it had when the process started: on a first start, on no
data file, the gauge is the length of the list. *)
Theorem blocked_gauge_since_start (ADMIN_ID : Z) (w0 w : World) :
  running ADMIN_ID w0 w →
  NoDup (blocked_users (file w))
  ∧ BLOCKED_USERS w
    = Z.of_nat (length (blocked_users (file w)))
      - Z.of_nat (length (blocked_users (file w0)))
  ∧ BLOCKED_USERS w0 = 0.
Proof.
  intros Hrun. destruct (running_counters_ok _ _ _ Hrun) as (Hnodup & Hgauge & _).
  split; [done|]. split; [lia|].
  clear Hnodup Hgauge. by induction Hrun.
Qed.

(** X16.  While the process runs, the gauge of active dialogs, which
starts at 0, is at least the number of sessions less the number of
sessions on file when the process started: it never counts fewer
sessions than were opened and are still open (it can count more, see
C1, and it goes below 0 when sessions from before the start are
ended). *)
Theorem active_gauge_since_start (ADMIN_ID : Z) (w0 w : World) :
  running ADMIN_ID w0 w →
  Z.of_nat (size (active_dialogs (file w)))
  - Z.of_nat (size (active_dialogs (file w0))) ≤ ACTIVE_DIALOGS w
  ∧ ACTIVE_DIALOGS w0 = 0.
Proof.
  intros Hrun. destruct (running_counters_ok _ _ _ Hrun) as (_ & _ & Hsize & _).
  split; [lia|]. clear Hsize. by induction Hrun.
Qed.

(** X17.  In every world the bot gets into by handling its updates one
after the other, a blocked user has no session: [need_help] turns
blocked users down and [block_user] takes the session out with the
block. *)
Theorem reachable_blocked_has_no_session (ADMIN_ID user_id : Z) (w : World) :
  reachable ADMIN_ID w →
  user_id ∈ blocked_users (file w) →
  has_session w user_id = false.
Proof.
  intros [w0 (_ & _ & _ & Hfree)%running_counters_ok]%reachable_running Hin.
  unfold has_session. by rewrite key_in_lookup, (Hfree _ Hin).
Qed.

(** X18.  In every world the bot gets into, the record of no user holds
a handle twice, no record on file is empty, and the operator has no
session: a message of the operator is never forwarded to the operator. *)
Theorem reachable_ledger_in_order (ADMIN_ID user_id : Z) (w : World) :
  reachable ADMIN_ID w →
  NoDup (ledger w user_id)
  ∧ dialog_messages (file w) !! Py.str user_id ≠ Some []
  ∧ has_session w ADMIN_ID = false
  ∧ ∀ message, uid (from_user message) = ADMIN_ID →
      forward_to_admin_filter message w = (inr false, w).
Proof.
  intros [Hledger Hoperator]%reachable_store_ok.
  assert (has_session w ADMIN_ID = false) as Hsession.
  { unfold has_session. by rewrite key_in_lookup, Hoperator. }
  split; [|split; [|split; [done|]]].
  - unfold ledger.
    destruct (dialog_messages (file w) !! Py.str user_id) as [l|] eqn:El;
      cbn [default from_option id]; [|apply NoDup_nil_2].
    by destruct (Hledger _ _ El).
  - intros El. by destruct (Hledger _ _ El).
  - intros message Hfrom. unfold forward_to_admin_filter.
    rewrite bind_run, get_active_dialogs_run, Hfrom.
    unfold has_session in Hsession. by rewrite Hsession.
Qed.

(** ** The catalogue *)

(** A row found has the id asked for, read as an int. *)
Lemma read_product_found (cache : list Product) (product_id : string) (row : Product) :
  read_product_from_cache cache product_id = inr (Some row) →
  ∃ n, Py.int product_id = inr n ∧ Tilda_UID row = Some n.
Proof.
  induction cache as [|r cache IH]; cbn [read_product_from_cache]; [done|].
  destruct (Py.int product_id) as [e|n]; [done|].
  case_bool_decide as Hr; [|done]. intros [= ->]. by exists n.
Qed.

(** X19.  [read_product_from_cache] answers with a row exactly when the
id reads as an int and the row is the first of the cache whose
"Tilda UID" is that int. *)
Theorem read_product_first_match (cache : list Product) (product_id : string)
    (row : Product) :
  read_product_from_cache cache product_id = inr (Some row)
  ↔ ∃ n before after,
      Py.int product_id = inr n
      ∧ cache = (before ++ row :: after)%list
      ∧ Tilda_UID row = Some n
      ∧ Forall (λ r, Tilda_UID r ≠ Some n) before.
Proof.
  split.
  - induction cache as [|r cache IH]; cbn [read_product_from_cache]; [done|].
    destruct (Py.int product_id) as [e|n] eqn:Hint; [done|].
    case_bool_decide as Hr.
    + intros [= ->]. exists n, [], cache. by repeat split.
    + intros (n' & before & after & [= <-] & -> & Hrow & Hbefore)%IH.
      exists n, (r :: before), after. repeat split; [done|]. by constructor.
  - intros (n & before & after & Hint & -> & Hrow & Hbefore).
    induction Hbefore as [|r before Hr _ IH]; cbn [read_product_from_cache app];
      rewrite Hint.
    + by rewrite bool_decide_eq_true_2.
    + by rewrite bool_decide_eq_false_2.
Qed.

(** X20.  An id that does not read as an int makes
[read_product_from_cache] raise [ValueError] at the first row -- unless
the cache is empty: then no row is looked at and the answer is [None]. *)
Theorem read_product_non_numeric (cache : list Product) (product_id : string)
    (e : Py.exn) :
  Py.int product_id = inl e →
  read_product_from_cache cache product_id
  = match cache with
    | [] => inr None
    | _ :: _ => inl Py.ValueError
    end.
Proof.
  intros Hint. destruct cache as [|r cache]; cbn [read_product_from_cache]; [done|].
  rewrite Hint. by rewrite (int_error _ _ Hint).
Qed.

(** An id no row has. *)
Lemma read_product_no_match (cache : list Product) (product_id : string) (n : Z) :
  Py.int product_id = inr n →
  Forall (λ r, Tilda_UID r ≠ Some n) cache →
  read_product_from_cache cache product_id = inr None.
Proof.
  intros Hint Hcache. induction Hcache as [|r cache Hr _ IH];
    cbn [read_product_from_cache]; [done|].
  by rewrite Hint, bool_decide_eq_false_2.
Qed.

(** X21.  [start] counts every request it gets, whatever comes of it --
a product shown, a warning, an exception --, and it leaves the cache, the
data file of the relay and the two gauges as they are. *)
Theorem start_counts_every_request (tg : Transport) (message : Message) (s : Shop) :
  let s' := snd (start tg message s) in
  REQUESTS s' = REQUESTS s + 1
  ∧ cached_products s' = cached_products s
  ∧ file (relay s') = file (relay s)
  ∧ ACTIVE_DIALOGS (relay s') = ACTIVE_DIALOGS (relay s)
  ∧ BLOCKED_USERS (relay s') = BLOCKED_USERS (relay s)
  ∧ calls (relay s') = calls (relay s).
Proof.
  cbv zeta. unfold start.
  destruct (text message) as [t|]; [|done].
  destruct (negb (Py.truthy_str (start_product_id t))); [done|].
  cbn [REQUESTS_inc cached_products].
  destruct (read_product_from_cache _ _) as [e|[product|]]; [done| |done].
  by destruct (tg_raises tg _).
Qed.

(** The second field of a text is empty, or there is none, when the
first space is the end of the text or has a space after it, or there is
no space. *)
Lemma start_product_id_none (command rest : string) :
  Py.contains " " command = false →
  start_product_id command = None
  ∧ start_product_id (command +:+ " ") = Some EmptyString
  ∧ start_product_id (command +:+ " " +:+ " " +:+ rest) = Some EmptyString.
Proof.
  intros Hcommand. unfold start_product_id.
  assert (Py.string_forall (λ x, negb (Ascii.eqb " " x)) command = true) as Hchars.
  { clear rest. induction command as [|x command IH]; [done|].
    cbn [Py.contains Py.startswith] in Hcommand. apply orb_false_iff in Hcommand as [Hx Hc].
    cbn [Py.string_forall]. rewrite (IH Hc), andb_true_r.
    by destruct (Ascii.eqb " " x). }
  repeat split.
  - by rewrite split_avoid.
  - rewrite <- (PyFacts.app_nil_r (command +:+ " ")), PyFacts.app_assoc.
    by rewrite split_field.
  - rewrite split_field by done.
    rewrite (PyFacts.split_sep_first " " EmptyString rest).
    pose proof (PyFacts.split_from_nonempty " " 0 rest) as Hne. unfold Py.split.
    by destruct (Py.split_from " " 0 rest).
Qed.

(** X22.  [start] without a product id -- the text of the command has no
space, or ends with its first space, or has two spaces in a row after the
command, product id or not after them -- logs the warning that no id was
given and answers nothing. *)
Theorem start_without_product_id (tg : Transport) (message : Message)
    (command rest : string) (s : Shop) :
  Py.contains " " command = false →
  text message = Some command
  ∨ text message = Some (command +:+ " ")
  ∨ text message = Some (command +:+ " " +:+ " " +:+ rest) →
  start tg message s
  = (inr tt, shop_log (WARNING, "No product ID provided.") (REQUESTS_inc s)).
Proof.
  intros Hcommand Htext.
  destruct (start_product_id_none command rest Hcommand) as (H1 & H2 & H3).
  unfold start. by destruct Htext as [->|[->| ->]]; rewrite ?H1, ?H2, ?H3.
Qed.

(** *** What [int] accepts *)

Section IntChars.
Import Py.
Variable Q : ascii → bool.
Hypothesis Qspace : ∀ c, isspace c = true → Q c = true.
Hypothesis Qdigit : ∀ c, isdigit c = true → Q c = true.
Hypothesis Qunderscore : Q "_" = true.
Hypothesis Qplus : Q "+" = true.
Hypothesis Qminus : Q "-" = true.
Hypothesis Qhigh : ∀ c, (128 <=? N_of_ascii c)%N = true → Q c = true.

Lemma uint_of_string_digits (d : string) (u : Decimal.uint) :
  NilEmpty.uint_of_string d = Some u → string_forall isdigit d = true.
Proof.
  revert u. induction d as [|a d IH]; intros u; [done|].
  cbn [NilEmpty.uint_of_string string_forall].
  destruct (NilEmpty.uint_of_string d) as [u'|]; [|done].
  intros Hchar. rewrite (IH u' eq_refl), andb_true_r.
  apply uint_of_char_spec in Hchar.
  destruct Hchar as [[-> _]|[[-> _]|[[-> _]|[[-> _]|[[-> _]|[[-> _]|[[-> _]|[[-> _]|
                    [[-> _]|[-> _]]]]]]]]]]; reflexivity.
Qed.

Lemma ungroup_from_chars (b : bool) (body d : string) :
  ungroup_from b body = Some d →
  string_forall Q d = true → string_forall Q body = true.
Proof.
  revert b d. induction body as [|c body IH]; intros b d; [done|].
  cbn [ungroup_from string_forall]. destruct (Ascii.eqb_spec c "_") as [->|Hc].
  - destruct b; [|done]. intros Hd HQ. by rewrite Qunderscore, (IH _ _ Hd HQ).
  - destruct (ungroup_from true body) as [d'|] eqn:Hd; [|done].
    intros [= <-]. cbn [string_forall]. rewrite andb_true_iff.
    intros [-> HQ]. by rewrite (IH _ _ Hd HQ).
Qed.

Lemma lstrip_chars (s : string) :
  string_forall Q (lstrip s) = true → string_forall Q s = true.
Proof.
  induction s as [|c s IH]; [done|]. cbn [lstrip string_forall].
  destruct (isspace c) eqn:Hc; [|done].
  intros H. by rewrite (Qspace _ Hc), (IH H).
Qed.

Lemma rstrip_chars (s : string) :
  string_forall Q (rstrip s) = true → string_forall Q s = true.
Proof.
  induction s as [|c s IH]; [done|]. cbn [rstrip string_forall].
  destruct (rstrip s) as [|c' r].
  - destruct (isspace c) eqn:Hc.
    + intros _. by rewrite (Qspace _ Hc), IH.
    + cbn [string_forall]. rewrite andb_true_r. intros ->. by rewrite IH.
  - cbn [string_forall] in *. rewrite andb_true_iff. intros [-> H]. by rewrite IH.
Qed.

(** An ASCII text [int] reads is made of white space, digits,
underscores and signs. *)
Lemma int_ascii_chars (s : string) (n : Z) :
  int_ascii s = inr n → string_forall Q s = true.
Proof.
  unfold int_ascii, strip. intros Hint. apply rstrip_chars, lstrip_chars.
  destruct (lstrip (rstrip s)) as [|c r]; [done|].
  assert (∀ body, ungroup body ≫= NilZero.uint_of_string ≠ None →
                  string_forall Q body = true) as Hbody.
  { intros body Hparse. unfold ungroup in Hparse.
    destruct body as [|x body]; [done|].
    destruct (ungroup_from false (String x body)) as [d|] eqn:Hd; [|done].
    cbn [mbind option_bind] in Hparse. apply (ungroup_from_chars _ _ _ Hd).
    destruct d as [|y d]; [done|]. cbn [NilZero.uint_of_string] in Hparse.
    destruct (NilEmpty.uint_of_string (String y d)) as [u|] eqn:Hu; [|done].
    eapply PyFacts.string_forall_impl; [exact Qdigit|].
    by apply (uint_of_string_digits _ u). }
  cbn [string_forall].
  destruct (Ascii.eqb_spec c "-") as [->|Hminus].
  { rewrite Qminus. apply Hbody. by destruct (ungroup r ≫= NilZero.uint_of_string). }
  destruct (Ascii.eqb_spec c "+") as [->|Hplus].
  { rewrite Qplus. apply Hbody. by destruct (ungroup r ≫= NilZero.uint_of_string). }
  change (Q c && string_forall Q r) with (string_forall Q (String c r)).
  apply Hbody. by destruct (ungroup (String c r) ≫= NilZero.uint_of_string).
Qed.

Lemma continuation_high (c : ascii) (y : N) : continuation c = Some y → Q c = true.
Proof.
  unfold continuation.
  destruct ((128 <=? N_of_ascii c) && (N_of_ascii c <? 192))%N eqn:Hc; [|done].
  intros _. apply andb_true_iff in Hc as [Hc _]. by apply Qhigh.
Qed.

(** The ASCII characters of a text are those of its ASCII reading; its
other bytes are above 127. *)
Lemma to_ascii_chars_bounded (n : nat) (s : string) (cps : list N) (l : list ascii) :
  (String.length s ≤ n)%nat →
  codepoints s = Some cps →
  mapM ascii_of_codepoint cps = Some l →
  string_forall Q (string_of_list_ascii l) = true →
  string_forall Q s = true.
Proof.
  revert s cps l. induction n as [|n IH]; intros s cps l Hlen Hcp Hmap HQ;
    (destruct s as [|a s1]; [done|]); [cbn [String.length] in Hlen; lia|].
  assert (∀ s' cp,
            (String.length s' ≤ n)%nat →
            cons cp <$> codepoints s' = Some cps →
            string_forall Q s' = true) as Hrest.
  { intros s' cp Hlen' Hcp'.
    destruct (codepoints s') as [cps1|] eqn:E1; [|done]. injection Hcp' as <-.
    cbn [mapM] in Hmap. destruct (ascii_of_codepoint cp) as [a'|]; [|done].
    cbn [mbind option_bind] in Hmap.
    destruct (mapM ascii_of_codepoint cps1) as [l1|] eqn:El1; [|done].
    injection Hmap as <-. cbn [string_of_list_ascii string_forall] in HQ.
    apply andb_true_iff in HQ as [_ HQ]. by apply (IH s' cps1 l1). }
  cbn [String.length] in Hlen. cbn [codepoints] in Hcp. cbn [string_forall].
  destruct (N_of_ascii a <? 128)%N eqn:H128.
  - rewrite (Hrest s1 (N_of_ascii a)), andb_true_r by (done || lia).
    destruct (codepoints s1) as [cps1|]; [|done]. injection Hcp as <-.
    cbn [mapM] in Hmap.
    destruct (ascii_of_codepoint (N_of_ascii a)) as [a'|] eqn:Ea; [|done].
    cbn [mbind option_bind] in Hmap.
    destruct (mapM ascii_of_codepoint cps1) as [l1|]; [|done].
    injection Hmap as <-. cbn [string_of_list_ascii string_forall] in HQ.
    apply andb_true_iff in HQ as [HQ _].
    unfold ascii_of_codepoint in Ea. destruct (N_of_ascii a <? 127)%N eqn:H127.
    + injection Ea as <-. by rewrite ascii_N_embedding in HQ.
    + assert (N_of_ascii a = 127%N) as Hx.
      { apply N.ltb_lt in H128. apply N.ltb_ge in H127. lia. }
      rewrite Hx in Ea. by vm_compute in Ea.
  - rewrite Qhigh by (apply N.leb_le; apply N.ltb_ge in H128; lia). cbn [andb].
    destruct (N_of_ascii a <? 192)%N; [done|].
    destruct (N_of_ascii a <? 224)%N.
    { destruct s1 as [|b s2]; [done|]. cbn [String.length] in Hlen.
      destruct (continuation b) as [y|] eqn:Hb; [|done]. cbn [mbind option_bind] in Hcp.
      destruct (shortest _ _) as [cp|]; [|done]. cbn [mbind option_bind] in Hcp.
      cbn [string_forall]. rewrite (continuation_high b y Hb).
      apply (Hrest s2 cp); [lia|done]. }
    destruct (N_of_ascii a <? 240)%N.
    { destruct s1 as [|b [|c s3]]; [done..|]. cbn [String.length] in Hlen.
      destruct (continuation b) as [y|] eqn:Hb; [|done]. cbn [mbind option_bind] in Hcp.
      destruct (continuation c) as [z|] eqn:Hc; [|done]. cbn [mbind option_bind] in Hcp.
      destruct (shortest _ _) as [cp|]; [|done]. cbn [mbind option_bind] in Hcp.
      cbn [string_forall]. rewrite (continuation_high b y Hb), (continuation_high c z Hc).
      apply (Hrest s3 cp); [lia|done]. }
    destruct (N_of_ascii a <? 248)%N; [|done].
    destruct s1 as [|b [|c [|d s4]]]; [done..|]. cbn [String.length] in Hlen.
    destruct (continuation b) as [y|] eqn:Hb; [|done]. cbn [mbind option_bind] in Hcp.
    destruct (continuation c) as [z|] eqn:Hc; [|done]. cbn [mbind option_bind] in Hcp.
    destruct (continuation d) as [u|] eqn:Hd; [|done]. cbn [mbind option_bind] in Hcp.
    destruct (shortest _ _) as [cp|]; [|done]. cbn [mbind option_bind] in Hcp.
    cbn [string_forall].
    rewrite (continuation_high b y Hb), (continuation_high c z Hc),
      (continuation_high d u Hd).
    apply (Hrest s4 cp); [lia|done].
Qed.

(** A text [int] reads is made of white space, digits, underscores and
signs, and of bytes above 127. *)
Lemma int_chars (s : string) (n : Z) :
  int s = inr n → string_forall Q s = true.
Proof.
  unfold int, to_ascii.
  destruct (codepoints s) as [cps|] eqn:Hcp; [|done]. cbn [mbind option_bind].
  destruct (mapM ascii_of_codepoint cps) as [l|] eqn:Hmap; [|done].
  cbn [fmap option_fmap option_map]. intros Hint%int_ascii_chars.
  by apply (to_ascii_chars_bounded (String.length s) s cps l).
Qed.

End IntChars.

(** An id [int] reads has no ["need_help_"] in it. *)
Lemma int_without_marker (product_id : string) (n : Z) :
  Py.int product_id = inr n → Py.contains "need_help_" product_id = false.
Proof.
  intros Hint.
  assert (Py.string_forall (λ x, negb (Ascii.eqb "n" x)) product_id = true) as Hchars.
  { apply (int_chars _) with (n := n); try done;
      intros c; destruct c as [[] [] [] [] [] [] [] []]; by vm_compute. }
  rewrite <- (PyFacts.app_nil_r product_id). by rewrite contains_avoid.
Qed.

(** X23.  [start] with the id of a product of the cache, the answer
getting through: the photo of the product is answered with the caption
made of its title and price and with two buttons, the link of the product
and the help button.  The data of the help button passes the filter of
[need_help], and the product [need_help] reads from it is the id as it
was typed. *)
Theorem start_shows_product (tg : Transport) (message : Message)
    (command product_id : string) (product : Product) (s : Shop) :
  let help := "need_help_" +:+ product_id in
  text message = Some (command +:+ " " +:+ product_id) →
  Py.contains " " command = false →
  Py.contains " " product_id = false →
  read_product_from_cache (cached_products s) product_id = inr (Some product) →
  tg_raises tg (length (calls (relay s)) + length (photo_answers s)) = None →
  start tg message s
  = (inr tt,
     shop_log (INFO, "Showed product " +:+ Title product +:+ " to user ID: " +:+
                     Py.str (uid (from_user message)) +:+ ", Name: " +:+
                     full_name (from_user message))
       (add_photo_answer
          {| answer_photo := Photo product;
             answer_caption := product_caption product;
             answer_markup := [[UrlButton "Добавить в корзину" (Url product)];
                               [CallbackButton "Нужна помощь" help]];
             answer_parse_mode := "HTML" |}
          (REQUESTS_inc s)))
  ∧ Py.startswith help "need_help_" = true
  ∧ Py.replace help "need_help_" EmptyString = product_id.
Proof.
  intros help Htext Hcommand Hid Hread Hanswer.
  assert (∃ n, Py.int product_id = inr n) as [n Hint].
  { apply read_product_found in Hread as (n & Hint & _). by exists n. }
  assert (∀ t, Py.contains " " t = false →
               Py.string_forall (λ x, negb (Ascii.eqb " " x)) t = true) as Hchars.
  { intros t. induction t as [|x t IH]; [done|].
    cbn [Py.contains Py.startswith]. intros [Hx Ht]%orb_false_iff.
    cbn [Py.string_forall]. rewrite (IH Ht), andb_true_r.
    by destruct (Ascii.eqb " " x). }
  assert (start_product_id (command +:+ " " +:+ product_id) = Some product_id) as Hfield.
  { unfold start_product_id. by rewrite split_field, split_avoid by auto. }
  assert (Py.truthy_str (Some product_id) = true) as Htruthy.
  { destruct product_id; [|done]. by vm_compute in Hint. }
  split; [|split].
  - unfold start. rewrite Htext, Hfield, Htruthy. cbn [negb default from_option id].
    cbn [REQUESTS_inc cached_products relay photo_answers].
    by rewrite Hread, Hanswer.
  - apply PyFacts.startswith_app.
  - apply replace_prefix; [done|]. by apply (int_without_marker _ n).
Qed.

(** X24.  [start] with an id that reads as an int but is the id of no
row of the cache logs the warning that the product was not found and
answers nothing. *)
Theorem start_unknown_product (tg : Transport) (message : Message)
    (command product_id : string) (n : Z) (s : Shop) :
  text message = Some (command +:+ " " +:+ product_id) →
  Py.contains " " command = false →
  Py.contains " " product_id = false →
  Py.int product_id = inr n →
  Forall (λ r, Tilda_UID r ≠ Some n) (cached_products s) →
  start tg message s
  = (inr tt,
     shop_log (WARNING, "Product with ID " +:+ product_id +:+ " not found.")
       (REQUESTS_inc s)).
Proof.
  intros Htext Hcommand Hid Hint Hrows.
  assert (∀ t, Py.contains " " t = false →
               Py.string_forall (λ x, negb (Ascii.eqb " " x)) t = true) as Hchars.
  { intros t. induction t as [|x t IH]; [done|].
    cbn [Py.contains Py.startswith]. intros [Hx Ht]%orb_false_iff.
    cbn [Py.string_forall]. rewrite (IH Ht), andb_true_r.
    by destruct (Ascii.eqb " " x). }
  assert (start_product_id (command +:+ " " +:+ product_id) = Some product_id) as Hfield.
  { unfold start_product_id. by rewrite split_field, split_avoid by auto. }
  assert (Py.truthy_str (Some product_id) = true) as Htruthy.
  { destruct product_id; [|done]. by vm_compute in Hint. }
  unfold start. rewrite Htext, Hfield, Htruthy. cbn [negb default from_option id].
  cbn [REQUESTS_inc cached_products].
  by rewrite (read_product_no_match _ _ n).
Qed.

(** *** Refreshing the cache *)

Lemma cache_products_turn_state (fetched : string + list Product) (s : Shop) :
  let s' := cache_products_turn fetched s in
  cached_products s' = match fetched with
                       | inr records => records
                       | inl _ => cached_products s
                       end
  ∧ REQUESTS s' = REQUESTS s
  ∧ photo_answers s' = photo_answers s
  ∧ file (relay s') = file (relay s)
  ∧ length (log (relay s')) = S (length (log (relay s))).
Proof.
  cbv zeta. destruct fetched as [e|records];
    cbn [cache_products_turn shop_log set_cached_products cached_products REQUESTS
         photo_answers relay file log add_log];
    rewrite length_app; cbn [length]; repeat split; lia.
Qed.

(** X25.  After any number of turns of [cache_products] the cache holds
the rows of the last fetch that succeeded, and the rows it held before if
none did: a failed fetch never empties the cache.  Every turn leaves one
record in the log, and none touches the counter of requests or the data
file of the relay. *)
Theorem cache_products_last_success (fetches : list (string + list Product))
    (s : Shop) :
  let s' := cache_products fetches s in
  cached_products s' = default (cached_products s) (last_fetched fetches)
  ∧ length (log (relay s')) = (length (log (relay s)) + length fetches)%nat
  ∧ REQUESTS s' = REQUESTS s
  ∧ file (relay s') = file (relay s).
Proof.
  cbv zeta. revert s. induction fetches as [|fetched fetches IH]; intros s.
  - cbn [cache_products fold_left length]. repeat split; lia.
  - unfold cache_products in *. cbn [fold_left length].
    destruct (IH (cache_products_turn fetched s)) as (Hcache & Hlog & Hrequests & Hfile).
    destruct (cache_products_turn_state fetched s) as (Hc1 & Hr1 & _ & Hf1 & Hl1).
    rewrite Hcache, Hlog, Hrequests, Hfile, Hc1, Hr1, Hf1, Hl1.
    repeat split; [|lia]. unfold last_fetched.
    destruct fetched as [e|records]; cbn [omap list_omap]; [done|].
    destruct (omap _ fetches) as [|r rs] eqn:Hrest; [done|].
    change (last (records :: r :: rs)) with (last (r :: rs)).
    assert (is_Some (last (r :: rs))) as [x ->]; [|done].
    clear. revert r. induction rs as [|r' rs IH]; intros r; [by eexists|].
    apply (IH r').
Qed.

(** ** Sample runs of the theorems above *)

Lemma block_then_unblock_restores_witness :
  let w1 := snd (add_blocked_user 7 initial_world) in
  let w2 := snd (remove_blocked_user 7 w1) in
  (7 ∉ blocked_users (file initial_world))
  ∧ BLOCKED_USERS w1 = 1
  ∧ file w2 = file initial_world
  ∧ BLOCKED_USERS w2 = 0.
Proof.
  cbv zeta. split; [apply not_elem_of_nil|].
  destruct (block_then_unblock_restores 7 initial_world (not_elem_of_nil 7))
    as (_ & Hup & Hfile & Hdown & _).
  exact (conj Hup (conj Hfile Hdown)).
Defined.

Lemma unblock_user_blocked_witness :
  let c := press operator "Operator" "unblock_user_7" in
  let w' := snd (unblock_user reliable c blocked_world) in
  7 ∈ blocked_users (file blocked_world)
  ∧ calls w' = [GetChat 7; AnswerCallback "Пользователь Ann разблокирован."]
  ∧ blocked_users (file w') = []
  ∧ BLOCKED_USERS w' = 0
  ∧ active_dialogs (file w') = active_dialogs (file blocked_world).
Proof.
  cbv zeta.
  assert (7 ∈ blocked_users (file blocked_world)) as Hin by apply list_elem_of_here.
  assert (NoDup (blocked_users (file blocked_world))) as Hnodup.
  { apply NoDup_cons. split; [apply not_elem_of_nil|apply NoDup_nil_2]. }
  split; [exact Hin|].
  destruct (unblock_user_blocked reliable (press operator "Operator" "unblock_user_7")
              7 blocked_world eq_refl Hin Hnodup eq_refl)
    as (Hcalls & Hlist & _ & Hgauge & Hactive & _).
  exact (conj Hcalls (conj Hlist (conj Hgauge Hactive))).
Defined.

Lemma need_help_rejected_witness :
  let c := press 7 "Bob" "need_help_17" in
  7 ∈ blocked_users (file blocked_world)
  ∧ ∃ warning,
      need_help operator reliable c blocked_world
      = (inr tt, add_log (WARNING, warning) blocked_world).
Proof.
  cbv zeta.
  assert (7 ∈ blocked_users (file blocked_world)) as Hin by apply list_elem_of_here.
  split; [exact Hin|].
  exact (need_help_rejected operator reliable (press 7 "Bob" "need_help_17")
           blocked_world (or_introl Hin)).
Defined.

Lemma need_help_opens_session_witness :
  let c := press 42 "Bob" "need_help_17" in
  let w' := snd (dispatch_callback_query operator reliable c initial_world) in
  (42 ∉ blocked_users (file initial_world))
  ∧ calls w' = [AnswerCallback "Задавайте свои вопросы.";
                SendMessage 42 "Задавайте свои вопросы" None]
  ∧ active_dialogs (file w') !! Py.str 42 = Some "17".
Proof.
  cbv zeta. split; [apply not_elem_of_nil|].
  assert (42 ≠ operator) as Hadmin by discriminate.
  destruct (need_help_opens_session operator reliable (press 42 "Bob" "need_help_17")
              "17" initial_world eq_refl eq_refl (not_elem_of_nil 42) Hadmin
              eq_refl eq_refl) as (_ & Hcalls & Hsession & _).
  exact (conj Hcalls Hsession).
Defined.

Lemma need_help_transport_failure_witness :
  let c := press 42 "Bob" "need_help_17" in
  let r := need_help operator unreachable c initial_world in
  tg_raises unreachable 0 = Some "Bad Gateway"
  ∧ fst r = inl (Py.TelegramError "Bad Gateway")
  ∧ file (snd r) = file initial_world
  ∧ ACTIVE_DIALOGS (snd r) = 0.
Proof.
  cbv zeta. split; [reflexivity|].
  assert (42 ≠ operator) as Hadmin by discriminate.
  destruct (need_help_transport_failure operator unreachable
              (press 42 "Bob" "need_help_17") "Bad Gateway" initial_world
              (not_elem_of_nil 42) Hadmin (or_introl eq_refl))
    as (Hexn & Hfile & Hgauge & _).
  exact (conj Hexn (conj Hfile Hgauge)).
Defined.

Lemma message_without_session_ignored_witness :
  let s := shop_of initial_world [cream; soap] in
  let message := photo_message 5 7 "Bob" ["small"; "large"] None in
  slash_start message = inr false
  ∧ has_session initial_world 7 = false
  ∧ dp_message slash_start operator reliable message s = (inr None, s).
Proof.
  cbv zeta. split; [reflexivity|]. split; [reflexivity|].
  destruct (message_without_session_ignored operator reliable slash_start
              (photo_message 5 7 "Bob" ["small"; "large"] None)
              (shop_of initial_world [cream; soap]) eq_refl eq_refl eq_refl)
    as [_ Hdispatch].
  exact Hdispatch.
Defined.

Lemma forward_send_failure_witness :
  let message := text_message 5 7 "Bob" "hello" in
  let r := dispatch_message operator unreachable message session_world in
  has_session session_world 7 = true
  ∧ fst r = inl (Py.TelegramError "Bad Gateway")
  ∧ file (snd r) = file session_world
  ∧ log (snd r) = [].
Proof.
  cbv zeta. split; [reflexivity|].
  destruct (forward_send_failure operator unreachable (text_message 5 7 "Bob" "hello")
              "hello" "Bad Gateway" session_world
              eq_refl (not_elem_of_nil 7) eq_refl eq_refl eq_refl eq_refl)
    as (Hexn & Hfile & Hlog & _).
  exact (conj Hexn (conj Hfile Hlog)).
Defined.

Lemma forward_photo_witness :
  let message := photo_message 5 7 "Bob" ["small"; "large"] (Some "look") in
  let w' := snd (forward_to_admin operator reliable message session_world) in
  active_dialogs (file session_world) !! Py.str 7 = Some "17"
  ∧ forward_to_admin_filter message session_world = (inr true, session_world)
  ∧ calls w'
    = [SendPhoto operator "large" (admin_message_header "Bob" 7 "17" +:+ "look")
         (Some (admin_keyboard 7))]
  ∧ ledger w' 7 = [100].
Proof.
  cbv zeta. split; [reflexivity|].
  destruct (forward_photo operator reliable
              (photo_message 5 7 "Bob" ["small"; "large"] (Some "look"))
              ["small"; "large"] "large" "17" session_world
              eq_refl eq_refl eq_refl eq_refl (not_elem_of_nil 7) eq_refl)
    as (Hfilter & _ & Hcalls & Hledger).
  exact (conj Hfilter (conj Hcalls Hledger)).
Defined.

Lemma end_dialog_effect_witness :
  let c := press operator "Operator" "end_dialog_7" in
  let w' := snd (end_dialog operator reliable c busy_world) in
  has_session busy_world 7 = true
  ∧ ACTIVE_DIALOGS w' = ACTIVE_DIALOGS busy_world - 1
  ∧ has_session w' 7 = false
  ∧ ledger w' 7 = []
  ∧ blocked_users (file w') = blocked_users (file busy_world).
Proof.
  cbv zeta. split; [reflexivity|].
  destruct (end_dialog_effect operator reliable (press operator "Operator" "end_dialog_7")
              7 busy_world eq_refl eq_refl eq_refl)
    as (Hgauge & Hsession & Hledger & _ & Hblocked & _).
  exact (conj Hgauge (conj Hsession (conj Hledger Hblocked))).
Defined.

Lemma end_dialog_twice_witness :
  let c := press operator "Operator" "end_dialog_7" in
  let w1 := snd (end_dialog operator reliable c busy_world) in
  let w2 := snd (end_dialog operator reliable c w1) in
  ledger busy_world 7 = [5; 6]
  ∧ calls w2
    = (calls w1 ++
       [GetChat 7; AnswerCallback "Диалог с пользователем Ann завершен.";
        SendMessage 7 "Если у вас есть еще вопросы, нажмите 'Нужна помощь'."
          (Some end_dialog_keyboard)])%list
  ∧ file w2 = file w1
  ∧ ACTIVE_DIALOGS w2 = ACTIVE_DIALOGS w1.
Proof.
  cbv zeta. split; [reflexivity|].
  destruct (end_dialog_twice operator reliable reliable
              (press operator "Operator" "end_dialog_7") 7 busy_world
              eq_refl eq_refl eq_refl eq_refl eq_refl)
    as (Hcalls & Hfile & Hgauge & _).
  exact (conj Hcalls (conj Hfile Hgauge)).
Defined.

Lemma ended_user_is_not_forwarded_witness :
  let s := shop_of busy_world [cream; soap] in
  let c := press operator "Operator" "end_dialog_7" in
  let message := text_message 8 7 "Bob" "hello" in
  let w' := snd (end_dialog operator reliable c busy_world) in
  has_session busy_world 7 = true
  ∧ forward_to_admin_filter message w' = (inr false, w')
  ∧ dp_message slash_start operator reliable message (set_relay w' s)
    = (inr None, set_relay w' s).
Proof.
  cbv zeta. split; [reflexivity|].
  destruct (ended_user_is_not_forwarded operator reliable slash_start reliable
              (press operator "Operator" "end_dialog_7") 7
              (text_message 8 7 "Bob" "hello") (shop_of busy_world [cream; soap])
              eq_refl eq_refl eq_refl eq_refl) as (Hfilter & Hdispatch).
  exact (conj Hfilter (Hdispatch eq_refl eq_refl)).
Defined.

Lemma block_user_with_session_witness :
  let c := press operator "Operator" "block_user_7" in
  let w' := snd (block_user reliable c busy_world) in
  has_session busy_world 7 = true
  ∧ active_dialogs (file w') = delete (Py.str 7) (active_dialogs (file busy_world))
  ∧ ACTIVE_DIALOGS w' = ACTIVE_DIALOGS busy_world - 1
  ∧ dialog_messages (file w') = dialog_messages (file busy_world)
  ∧ calls w' = [GetChat 7; AnswerCallback "Пользователь Ann заблокирован."].
Proof.
  cbv zeta. split; [reflexivity|].
  destruct (block_user_with_session reliable (press operator "Operator" "block_user_7")
              7 busy_world eq_refl eq_refl eq_refl eq_refl)
    as (Hactive & Hgauge & _ & Hledger & Hcalls).
  exact (conj Hactive (conj Hgauge (conj Hledger Hcalls))).
Defined.

Lemma control_without_user_id_witness :
  let c := press operator "Operator" "block_user_abc" in
  callback_user_id (cq_data c) = inl Py.ValueError
  ∧ dispatch_callback_query operator reliable c busy_world
    = (inl Py.ValueError, busy_world).
Proof.
  cbv zeta. split; [reflexivity|].
  assert ("block_user_" ∈ ["end_dialog_"; "block_user_"; "unblock_user_"]) as Hprefix.
  { apply list_elem_of_further, list_elem_of_here. }
  destruct (control_without_user_id operator reliable
              (press operator "Operator" "block_user_abc") "block_user_" "abc"
              Py.ValueError busy_world Hprefix eq_refl eq_refl) as (_ & Hdispatch).
  exact Hdispatch.
Defined.


Lemma blocked_gauge_since_start_witness :
  let w1 := snd (dispatch_callback_query operator reliable
                   (press operator "Operator" "block_user_7") initial_world) in
  let w2 := snd (dispatch_callback_query operator reliable
                   (press operator "Operator" "block_user_8") (restart w1)) in
  running operator (restart w1) w2
  ∧ blocked_users (file w2) = [7; 8]
  ∧ BLOCKED_USERS w2
    = Z.of_nat (length (blocked_users (file w2)))
      - Z.of_nat (length (blocked_users (file (restart w1)))).
Proof.
  cbv zeta.
  pose proof (running_callback_query operator reliable
                (press operator "Operator" "block_user_8") _ _
                (running_restart operator _ _
                   (running_callback_query operator reliable
                      (press operator "Operator" "block_user_7") _ _
                      (running_initial operator)))) as Hrun.
  split; [exact Hrun|]. split; [reflexivity|].
  destruct (blocked_gauge_since_start operator _ _ Hrun) as (_ & Hgauge & _).
  exact Hgauge.
Defined.

Lemma active_gauge_since_start_witness :
  let w1 := snd (dispatch_callback_query operator reliable
                   (press 42 "Bob" "need_help_17") initial_world) in
  let w2 := snd (dispatch_callback_query operator reliable
                   (press operator "Operator" "end_dialog_42") (restart w1)) in
  running operator (restart w1) w2
  ∧ ACTIVE_DIALOGS w2 = -1
  ∧ Z.of_nat (size (active_dialogs (file w2)))
    - Z.of_nat (size (active_dialogs (file (restart w1)))) ≤ ACTIVE_DIALOGS w2.
Proof.
  cbv zeta.
  pose proof (running_callback_query operator reliable
                (press operator "Operator" "end_dialog_42") _ _
                (running_restart operator _ _
                   (running_callback_query operator reliable
                      (press 42 "Bob" "need_help_17") _ _
                      (running_initial operator)))) as Hrun.
  split; [exact Hrun|]. split; [reflexivity|].
  destruct (active_gauge_since_start operator _ _ Hrun) as (Hgauge & _).
  exact Hgauge.
Defined.

Lemma reachable_blocked_has_no_session_witness :
  let w1 := snd (dispatch_callback_query operator reliable
                   (press 7 "Bob" "need_help_17") initial_world) in
  let w2 := snd (dispatch_callback_query operator reliable
                   (press operator "Operator" "block_user_7") w1) in
  has_session w1 7 = true
  ∧ reachable operator w2
  ∧ 7 ∈ blocked_users (file w2)
  ∧ has_session w2 7 = false.
Proof.
  cbv zeta. split; [reflexivity|].
  pose proof (reachable_callback_query operator reliable
                (press operator "Operator" "block_user_7") _
                (reachable_callback_query operator reliable
                   (press 7 "Bob" "need_help_17") initial_world
                   (reachable_initial operator))) as Hreach.
  assert (7 ∈ blocked_users (file (snd (dispatch_callback_query operator reliable
                   (press operator "Operator" "block_user_7")
                   (snd (dispatch_callback_query operator reliable
                      (press 7 "Bob" "need_help_17") initial_world)))))) as Hin.
  { vm_compute. apply list_elem_of_here. }
  split; [exact Hreach|]. split; [exact Hin|].
  exact (reachable_blocked_has_no_session operator 7 _ Hreach Hin).
Defined.

Lemma reachable_ledger_in_order_witness :
  let w1 := snd (dispatch_callback_query operator reliable
                   (press 7 "Bob" "need_help_17") initial_world) in
  let w2 := snd (dispatch_message operator reliable (text_message 5 7 "Bob" "hello") w1) in
  ledger w2 7 = [102]
  ∧ reachable operator w2
  ∧ NoDup (ledger w2 7)
  ∧ has_session w2 operator = false.
Proof.
  cbv zeta. split; [reflexivity|].
  pose proof (reachable_message operator reliable (text_message 5 7 "Bob" "hello") _
                (reachable_callback_query operator reliable
                   (press 7 "Bob" "need_help_17") initial_world
                   (reachable_initial operator))) as Hreach.
  split; [exact Hreach|].
  destruct (reachable_ledger_in_order operator 7 _ Hreach) as (Hnodup & _ & Hsession & _).
  exact (conj Hnodup Hsession).
Defined.

Lemma read_product_non_numeric_witness :
  Py.int "abc" = inl Py.ValueError
  ∧ read_product_from_cache [cream; soap] "abc" = inl Py.ValueError
  ∧ read_product_from_cache [] "abc" = inr None.
Proof.
  split; [reflexivity|]. split.
  - exact (read_product_non_numeric [cream; soap] "abc" Py.ValueError eq_refl).
  - exact (read_product_non_numeric [] "abc" Py.ValueError eq_refl).
Defined.

Lemma start_without_product_id_witness :
  let s := shop_of initial_world [cream; soap] in
  Py.contains " " "/start" = false
  ∧ start reliable (text_message 5 7 "Bob" "/start  17") s
    = (inr tt, shop_log (WARNING, "No product ID provided.") (REQUESTS_inc s)).
Proof.
  cbv zeta. split; [reflexivity|].
  exact (start_without_product_id reliable (text_message 5 7 "Bob" "/start  17")
           "/start" "17" (shop_of initial_world [cream; soap]) eq_refl
           (or_intror (or_intror eq_refl))).
Defined.

Lemma start_shows_product_witness :
  let s := shop_of initial_world [cream; soap] in
  let s' := snd (start reliable (text_message 5 7 "Bob" "/start 18") s) in
  read_product_from_cache (cached_products s) "18" = inr (Some soap)
  ∧ fst (start reliable (text_message 5 7 "Bob" "/start 18") s) = inr tt
  ∧ photo_answers s'
    = [{| answer_photo := "https://shop.example/soap.jpg";
          answer_caption := product_caption soap;
          answer_markup := [[UrlButton "Добавить в корзину" "https://shop.example/soap"];
                            [CallbackButton "Нужна помощь" "need_help_18"]];
          answer_parse_mode := "HTML" |}]
  ∧ Py.replace "need_help_18" "need_help_" EmptyString = "18".
Proof.
  cbv zeta. split; [reflexivity|].
  destruct (start_shows_product reliable (text_message 5 7 "Bob" "/start 18")
              "/start" "18" soap (shop_of initial_world [cream; soap])
              eq_refl eq_refl eq_refl eq_refl eq_refl) as (Hrun & _ & Hdata).
  split; [exact (f_equal fst Hrun)|].
  split; [exact (f_equal (λ r, photo_answers (snd r)) Hrun)|exact Hdata].
Defined.

Lemma start_unknown_product_witness :
  let s := shop_of initial_world [cream; soap] in
  Py.int "99" = inr 99
  ∧ start reliable (text_message 5 7 "Bob" "/start 99") s
    = (inr tt, shop_log (WARNING, "Product with ID 99 not found.") (REQUESTS_inc s)).
Proof.
  cbv zeta. split; [reflexivity|].
  assert (Forall (λ r, Tilda_UID r ≠ Some 99)
            (cached_products (shop_of initial_world [cream; soap]))) as Hrows.
  { repeat constructor; discriminate. }
  exact (start_unknown_product reliable (text_message 5 7 "Bob" "/start 99")
           "/start" "99" 99 (shop_of initial_world [cream; soap])
           eq_refl eq_refl eq_refl eq_refl Hrows).
Defined.
